(** * examples/vfgn/train.py: loss shaping, training loop and rollout evaluation

    A shallow embedding of the training/evaluation script of the VFGN
    learned particle simulator.

    Conventions of the embedding

    - float64 tensor entries are exact rationals ([Qc]); rounding, NaN and
      infinities are outside the model, so division by a zero count gives 0
      here where the script would give NaN.
    - a tensor of shape [N, k] is a [list (list Qc)] with one row per
      particle; a tensor of shape [N, T, D] is a [list (list (list Qc))]
      indexed particle, time step, coordinate, as in the script.
    - the graph network, the optimiser, the record parser and the splitter
      of trajectories into windows are external; they enter as Section
      variables. *)

From Stdlib Require Import String Ascii DecimalString DecimalNat.
From Stdlib Require Import List ZArith QArith Qcanon Qcabs Bool Arith Lia.
Import ListNotations.

Local Open Scope Qc_scope.

(** ** Module constants (train.py lines 96-103) *)

Definition INPUT_SEQUENCE_LENGTH : nat := 5.
Definition PREDICT_LENGTH : nat := 1.
Definition LOSS_DECAY_FACTOR : Qc := Q2Qc (6 # 10).

Definition NUM_PARTICLE_TYPES : Z := 3%Z.
Definition KINEMATIC_PARTICLE_ID : Z := 0%Z.
Definition METAL_PARTICLE_ID : Z := 2%Z.
Definition ANCHOR_PLANE_PARTICLE_ID : Z := 1%Z.

(** ** Tensor primitives used by the script *)

Module Torch.

(** [torch.sum] of a 1-D tensor. *)
Definition sum (xs : list Qc) : Qc := fold_right Qcplus 0 xs.

(** [torch.sum(mask)] of a boolean tensor: the number of true entries. *)
Definition sum_bool (m : list bool) : nat := List.length (filter (fun b => b) m).

(** [torch.sum(t, dim=-1)] of a 2-D tensor. *)
Definition sum_last (t : list (list Qc)) : list Qc := map sum t.

(** [torch.repeat_interleave(xs, repeats=k)] of a 1-D tensor. *)
Definition repeat_interleave {A} (xs : list A) (k : nat) : list A :=
  flat_map (fun x => repeat x k) xs.

(** [torch.reshape(xs, [-1, k])] of a 1-D tensor: consecutive rows of [k]
    entries.  The fuel is the number of rows, [len(xs) / k]. *)
Fixpoint chunks {A} (rows k : nat) (xs : list A) : list (list A) :=
  match rows with
  | O => []
  | S r => firstn k xs :: chunks r k (skipn k xs)
  end.

Definition reshape_rows {A} (xs : list A) (k : nat) : list (list A) :=
  chunks (List.length xs / k) k xs.

(** Elementwise binary operation on two tensors of the same shape. *)
Fixpoint zip_with {A B C} (f : A -> B -> C) (xs : list A) (ys : list B) : list C :=
  match xs, ys with
  | x :: xs', y :: ys' => f x y :: zip_with f xs' ys'
  | _, _ => []
  end.

(** [torch.where(mask, a, b)] on 1-D tensors of one shape. *)
Fixpoint where1 {A} (m : list bool) (a b : list A) : list A :=
  match m, a, b with
  | c :: m', x :: a', y :: b' => (if c then x else y) :: where1 m' a' b'
  | _, _, _ => []
  end.

(** [torch.where(mask, a, b)] on 2-D tensors of one shape. *)
Definition where2 {A} (m : list (list bool)) (a b : list (list A)) : list (list A) :=
  zip_with (fun mr ab => where1 mr (fst ab) (snd ab)) m (combine a b).

(** [torch.zeros(shape)] for a 1-D shape. *)
Definition zeros (n : nat) : list Qc := repeat 0 n.

(** [torch.logical_not]. *)
Definition logical_not (m : list bool) : list bool := map negb m.

(** [t[..., k]] on a 2-D tensor; rows are long enough in every use. *)
Definition select_last (k : nat) (t : list (list Qc)) : list Qc :=
  map (fun r => nth k r 0) t.

(** [t * v] with [v] broadcast along the rows of the 2-D tensor [t]. *)
Definition mul_rows (t : list (list Qc)) (v : list Qc) : list (list Qc) :=
  map (fun r => zip_with Qcmult r v) t.

(** [a - b] and [t ** 2] on 2-D tensors. *)
Definition sub2 (a b : list (list Qc)) : list (list Qc) :=
  zip_with (zip_with Qcminus) a b.

Definition square2 (t : list (list Qc)) : list (list Qc) :=
  map (map (fun x => x * x)) t.

(** [torch.nn.functional.l1_loss(a, b)]: the mean absolute difference over
    all entries. *)
Definition l1_loss (a b : list (list Qc)) : Qc :=
  let d := concat (zip_with (zip_with (fun x y => Qcabs (x - y))) a b) in
  sum d / Q2Qc (inject_Z (Z.of_nat (List.length d))).

End Torch.

(** ** Particle-type masks

    Modelled from the spec: [utils.get_kinematic_mask] lives in the external
    [modulus.utils.vfgn.utils]; a kinematic particle is one whose type is
    [KINEMATIC_PARTICLE_ID]. *)
Definition get_kinematic_mask (particle_types : list Z) : list bool :=
  map (fun t => Z.eqb t KINEMATIC_PARTICLE_ID) particle_types.

(** Modelled from the spec: [utils.get_anchor_z_mask] lives in the external
    [modulus.utils.vfgn.utils]; an anchor-plane particle is one whose type is
    [ANCHOR_PLANE_PARTICLE_ID]. *)
Definition get_anchor_z_mask (particle_types : list Z) : list bool :=
  map (fun t => Z.eqb t ANCHOR_PLANE_PARTICLE_ID) particle_types.

(** Modelled from the spec: [utils.get_metal_mask] lives in the external
    [modulus.utils.vfgn.utils]; a metal particle is one whose type is
    [METAL_PARTICLE_ID].  It only shapes the sampled noise. *)
Definition get_metal_mask (particle_types : list Z) : list bool :=
  map (fun t => Z.eqb t METAL_PARTICLE_ID) particle_types.

(** ** Command-line flags (train.py lines 49-78) *)

Inductive mode_flag := ModeTrain | ModeEval | ModeEvalRollout.
Inductive split_flag := SplitTrain | SplitValid | SplitTest.
Inductive loss_flag :=
  LossStandard | LossWeighted | LossAnchor | LossMe | LossCorrelation
| LossAnchorMe | LossWeightedAnchor.

Definition mode_name (m : mode_flag) : string :=
  match m with
  | ModeTrain => "train" | ModeEval => "eval" | ModeEvalRollout => "eval_rollout"
  end.

Definition split_name (s : split_flag) : string :=
  match s with
  | SplitTrain => "train" | SplitValid => "valid" | SplitTest => "test"
  end.

Definition loss_name (l : loss_flag) : string :=
  match l with
  | LossStandard => "standard" | LossWeighted => "weighted"
  | LossAnchor => "anchor" | LossMe => "me" | LossCorrelation => "correlation"
  | LossAnchorMe => "anchor_me" | LossWeightedAnchor => "weighted_anchor"
  end.

(** [data_path] and [model_path] are read by the external readers before
    anything else happens and are taken as given on the command line;
    [output_path] is only read when a rollout is written (line 700), so
    whether it was given is part of the flags: [None] is its default. *)
Module FLAGS.
Record t := {
  mode : mode_flag;
  eval_split : split_flag;
  data_path : string;
  batch_size : Z;
  num_steps : Z;
  eval_steps : nat;
  noise_std : Qc;
  model_path : string;
  output_path : option string;
  loss : loss_flag;
  l_plane : Qc;
  l_me : Qc;
  prefetch_buffer_size : Z;
  device : string;
  message_passing_devices : string;
  fp16 : bool;
  rollout_refine : bool
}.
End FLAGS.
Definition Flags : Type := FLAGS.t.

(** [s.startswith(p)] *)
Definition startswith (s p : string) : bool := String.prefix p s.

(** ** Outcomes of fallible code *)

Inductive exn :=
  AssertionError | ValueError | UnboundLocalError | RuntimeError
| StopIteration | SystemExit | SyntaxError | KeyError
| TypeError | FileNotFoundError | InvalidArgumentError.

Inductive result (A : Type) :=
| Ok (a : A)
| Raise (e : exn).
Arguments Ok {A} a.
Arguments Raise {A} e.

Definition bind {A B} (r : result A) (k : A -> result B) : result B :=
  match r with Ok a => k a | Raise e => Raise e end.

Notation "x <- r ;; k" := (bind r (fun x => k))
  (at level 61, r at next level, right associativity).

Definition Qc_of_nat (n : nat) : Qc := Q2Qc (inject_Z (Z.of_nat n)).

(** ** The loss of one training step (train.py lines 381-490) *)

Section Loss.

(** [utils.weighted_square_error] and [torch.nn.functional.cosine_similarity]
    are external; the latter takes square roots. *)
Variable weighted_square_error : list (list Qc) -> list (list Qc) -> Qc.
Variable cosine_similarity : list Qc -> list Qc -> Qc.

(** Lines 385-386. *)
Definition decay_fators_1 (predict_length : nat) : list Qc :=
  map (fun i => Qcpower LOSS_DECAY_FACTOR i) (seq 0 predict_length).

Definition decay_fators_3 (predict_length : nat) : list Qc :=
  Torch.repeat_interleave (decay_fators_1 predict_length) 3.

(** Lines 383-389: the decay-weighted squared error of every particle. *)
Definition decayed_squared_error (predict_length : nat)
    (pred_acceleration target_acceleration : list (list Qc)) : list Qc :=
  let loss := Torch.square2 (Torch.sub2 pred_acceleration target_acceleration) in
  let loss := Torch.mul_rows loss (decay_fators_3 predict_length) in
  Torch.sum_last loss.

(** Lines 324-341: the masks left in scope by the noise block.
    [anchor_plane_mask] is only bound when the flag starts with "anchor". *)
Definition noise_block_masks (F : Flags) (particle_types : list Z)
  : list bool * option (list bool) :=
  if startswith (loss_name (FLAGS.loss F)) "anchor"
  then (get_metal_mask particle_types, Some (get_anchor_z_mask particle_types))
  else (Torch.logical_not (get_kinematic_mask particle_types), None).

(** The masking idiom of lines 395-398, 465-467, 479-481 and 488-490:
    [torch.where(mask, loss, zeros)] summed and divided by [sum(mask)]. *)
Definition masked (mask : list bool) (loss : list Qc) : list Qc :=
  Torch.where1 mask loss (Torch.zeros (List.length loss)).

Definition masked_mean (mask : list bool) (loss : list Qc) : Qc :=
  Torch.sum (masked mask loss) / Qc_of_nat (Torch.sum_bool mask).

(** Lines 401-410: the z-axis loss of the anchor plane.  The decay factor of
    line 402 is the one-element tensor [[0.6^0]], broadcast. *)
Definition anchor_plane_loss (pred_acceleration : list (list Qc))
    (anchor_plane_mask : list bool) : Qc :=
  let loss_plane := map (fun x => x * x) (Torch.select_last 2 pred_acceleration) in
  let decay_fator := Qcpower LOSS_DECAY_FACTOR 0 in
  let loss_plane := map (fun x => x * decay_fator) loss_plane in
  masked_mean anchor_plane_mask loss_plane.

(** Lines 424-431: the same term in the "weighted_anchor" branch, without
    the decay factor. *)
Definition weighted_anchor_plane_loss (pred_acceleration : list (list Qc))
    (anchor_plane_mask : list bool) : Qc :=
  let loss_plane := map (fun x => x * x) (Torch.select_last 2 pred_acceleration) in
  masked_mean anchor_plane_mask loss_plane.

(** Lines 445-462: the correlation term over the sampled particle ids. *)
Definition correlation_loss (random_pids : list nat)
    (pred_acceleration target_acceleration : list (list Qc)) : Qc :=
  let k := 100%nat in
  let n := List.length random_pids in
  let terms :=
    flat_map (fun idx_i =>
      map (fun idx_j =>
        let i := nth idx_i random_pids 0%nat in
        let j := nth idx_j random_pids 0%nat in
        let corr_gt := cosine_similarity (nth i target_acceleration [])
                                         (nth j target_acceleration []) in
        let corr_pred := cosine_similarity (nth i pred_acceleration [])
                                           (nth j pred_acceleration []) in
        (corr_gt - corr_pred) * (corr_gt - corr_pred))
        (seq idx_i (n - idx_i)))
      (seq 0 n) in
  Torch.sum terms / Qc_of_nat (k * k).

(** Lines 474-476: the L1 term of the "me" branch. *)
Definition me_l1_loss (predict_length : nat)
    (pred_acceleration target_acceleration : list (list Qc)) : Qc :=
  let loss_l1 := Torch.l1_loss pred_acceleration target_acceleration in
  Torch.sum (map (fun d => loss_l1 * d) (decay_fators_3 predict_length)).

(** Line 416: the L1 term of the "anchor_me" branch. *)
Definition anchor_me_l1_loss (predict_length : nat)
    (pred_acceleration target_acceleration : list (list Qc)) : Qc :=
  Torch.l1_loss
    (Torch.mul_rows pred_acceleration (decay_fators_3 predict_length))
    (Torch.mul_rows target_acceleration (decay_fators_3 predict_length)).

(** Lines 381-490. *)
Definition Train_loss (F : Flags) (predict_length : nat) (random_pids : list nat)
    (particle_types : list Z)
    (pred_acceleration target_acceleration : list (list Qc)) : result Qc :=
  let '(non_kinematic_mask, anchor_plane_mask) := noise_block_masks F particle_types in
  let loss := decayed_squared_error predict_length pred_acceleration target_acceleration in
  if startswith (loss_name (FLAGS.loss F)) "anchor" then
    let non_kinematic_mask := Torch.logical_not (get_kinematic_mask particle_types) in
    let loss := masked_mean non_kinematic_mask loss in
    match anchor_plane_mask with
    | None => Raise UnboundLocalError
    | Some anchor_plane_mask =>
        let loss_plane := anchor_plane_loss pred_acceleration anchor_plane_mask in
        let loss := loss + FLAGS.l_plane F * loss_plane in
        if String.eqb (loss_name (FLAGS.loss F)) "anchor_me" then
          Ok (loss + FLAGS.l_me F * anchor_me_l1_loss predict_length pred_acceleration
                                                target_acceleration)
        else Ok loss
    end
  else if startswith (loss_name (FLAGS.loss F)) "weighted" then
    let loss := weighted_square_error pred_acceleration target_acceleration in
    if String.eqb (loss_name (FLAGS.loss F)) "weighted_anchor" then
      match anchor_plane_mask with
      | None => Raise UnboundLocalError
      | Some anchor_plane_mask =>
          Ok (loss + FLAGS.l_plane F
                     * weighted_anchor_plane_loss pred_acceleration anchor_plane_mask)
      end
    else Ok loss
  else if String.eqb (loss_name (FLAGS.loss F)) "correlation" then
    let loss_corr_factor := Qc_of_nat 1 in
    let loss_corr := correlation_loss random_pids pred_acceleration target_acceleration in
    let loss := masked_mean non_kinematic_mask loss in
    Ok (loss + loss_corr_factor * loss_corr)
  else if String.eqb (loss_name (FLAGS.loss F)) "me" then
    let loss_l1 := me_l1_loss predict_length pred_acceleration target_acceleration in
    let loss := masked_mean non_kinematic_mask loss in
    Ok (loss + FLAGS.l_me F * loss_l1)
  else
    Ok (masked_mean non_kinematic_mask loss).

End Loss.

(** ** Rollout evaluation (train.py lines 160-178 and 569-707) *)

(** Slicing and concatenation along axis 1 of a tensor whose rows are the
    particles. *)
Module Axis1.

(** [t[:, :k]] and [t[:, k:]] *)
Definition narrow_to {A} (k : nat) (t : list (list A)) : list (list A) :=
  map (firstn k) t.
Definition narrow_from {A} (k : nat) (t : list (list A)) : list (list A) :=
  map (skipn k) t.

(** [t[:, k]]; the index is in range in every use. *)
Definition select {A} (d : A) (k : nat) (t : list (list A)) : list A :=
  map (fun r => nth k r d) t.

(** [x.unsqueeze(1)] *)
Definition unsqueeze {A} (x : list A) : list (list A) := map (fun v => v :: nil) x.

(** [torch.cat([a, b], axis=1)] for tensors with the same number of rows. *)
Definition cat {A} (a b : list (list A)) : list (list A) :=
  Torch.zip_with (@app A) a b.

(** [t.shape[1]]; a tensor without rows carries no second axis here. *)
Definition shape1 {A} (t : list (list A)) : nat :=
  match t with [] => 0%nat | r :: _ => List.length r end.

End Axis1.

(** [tf.transpose(t, [1, 0, 2])] of a tensor with [n] columns. *)
Fixpoint transpose {A} (n : nat) (t : list (list A)) : list (list A) :=
  match n with
  | O => []
  | S n' => flat_map (firstn 1) t :: transpose n' (map (skipn 1) t)
  end.

(** One parsed record of the TFRecord file: positions are time-major, of
    shape [T, N, D]; the context features are the particle types and the
    graph connectivity. *)
Record raw_example := {
  raw_position : list (list (list Qc));
  raw_particle_type : list Z;
  raw_senders : list Z;
  raw_receivers : list Z;
  raw_step_context : option (list Qc)
}.

(** The features dictionary handed to [Test]: positions are particle-major,
    of shape [N, T, D]; [step_context] has shape [Tc, 1]. *)
Record features := {
  position : list (list (list Qc));
  particle_type : list Z;
  senders : list Z;
  receivers : list Z;
  n_particles_per_example : list nat;
  n_edges_per_example : list nat;
  step_context : option (list Qc)
}.

(** Lines 160-178. *)
Definition prepare_rollout_inputs (r : raw_example)
  : features * list (list Qc) :=
  let pos := transpose (Axis1.shape1 (raw_position r)) (raw_position r) in
  let target_position := map (fun row => last row []) pos in
  ({| position := pos;
      particle_type := raw_particle_type r;
      senders := raw_senders r;
      receivers := raw_receivers r;
      n_particles_per_example := List.length pos :: nil;
      n_edges_per_example := List.length (raw_senders r) :: nil;
      step_context := raw_step_context r |},
   target_position).

Section Rollout.

(** The loaded graph network: [model.inference] maps a position window of
    shape [N, T, D], the static features and the global context to predicted
    positions of shape [N, PREDICT_LENGTH, D]. *)
Variable Model : Type.
Variable inference :
  Model -> list (list (list Qc)) -> features -> list Qc -> list (list (list Qc)).

(** Lines 642-646: the context of one step, the rows read so far padded with
    zeros to one row less than the full context.  [torch.zeros] rejects a
    negative size. *)
Definition global_context_step (global_context : list Qc) (step : nat)
  : result (list Qc) :=
  let read_step_context := firstn (step + INPUT_SEQUENCE_LENGTH) global_context in
  let pad := (Z.of_nat (List.length global_context)
              - Z.of_nat (List.length read_step_context) - 1)%Z in
  if (pad <? 0)%Z then Raise RuntimeError
  else Ok (read_step_context ++ Torch.zeros (Z.to_nat pad)).

(** What one pass through the body of the step loop computed. *)
Record step_record := {
  sr_step : nat;
  sr_input : list (list (list Qc));
  sr_context : list Qc;
  sr_predicted : list (list Qc);
  sr_ground_truth : list (list Qc);
  sr_next_position : list (list Qc);
  sr_output : list (list (list Qc))
}.

(** Lines 659-666: ground truth for kinematic particles, the prediction for
    the others.  [squeeze(1)] leaves a tensor of shape [N, D] alone, the
    positions having more than one coordinate. *)
Definition masked_next_position (particle_types : list Z)
    (positions_ground_truth predict_positions : list (list Qc)) : list (list Qc) :=
  let kinematic_mask := get_kinematic_mask particle_types in
  let d := Axis1.shape1 predict_positions in
  let kinematic_mask := Torch.repeat_interleave kinematic_mask d in
  let kinematic_mask := Torch.reshape_rows kinematic_mask d in
  Torch.where2 kinematic_mask positions_ground_truth predict_positions.

(** Lines 669-674. *)
Definition advance_window (F : Flags) (current_positions : list (list (list Qc)))
    (next_position positions_ground_truth : list (list Qc))
  : list (list (list Qc)) :=
  if FLAGS.rollout_refine F then
    Axis1.cat (Axis1.narrow_from 1 current_positions)
              (Axis1.unsqueeze positions_ground_truth)
  else
    Axis1.cat (Axis1.narrow_from 1 current_positions)
              (Axis1.unsqueeze next_position).

(** Lines 638-674: the body of the step loop. *)
Definition rollout_step (F : Flags) (model : Model) (feat : features)
    (global_context : list Qc) (ground_truth_positions : list (list (list Qc)))
    (current_positions : list (list (list Qc))) (step : nat)
  : result step_record :=
  ctx <- global_context_step global_context step ;;
  let predict_positions := inference model current_positions feat ctx in
  let positions_ground_truth := Axis1.select [] step ground_truth_positions in
  let predict_positions := Axis1.select [] 0 predict_positions in
  let next_position :=
    masked_next_position (particle_type feat) positions_ground_truth
                         predict_positions in
  Ok {| sr_step := step;
        sr_input := current_positions;
        sr_context := ctx;
        sr_predicted := predict_positions;
        sr_ground_truth := positions_ground_truth;
        sr_next_position := next_position;
        sr_output := advance_window F current_positions next_position
                                    positions_ground_truth |}.

(** Lines 637-674: [for step in range(num_steps)], as the records of the
    steps that ran and the exception that ended the loop, if any. *)
Fixpoint rollout_loop (F : Flags) (model : Model) (feat : features)
    (global_context : list Qc) (ground_truth_positions : list (list (list Qc)))
    (steps : list nat) (current_positions : list (list (list Qc)))
  : list step_record * option exn :=
  match steps with
  | [] => ([], None)
  | step :: steps' =>
      match rollout_step F model feat global_context ground_truth_positions
                         current_positions step with
      | Raise e => ([], Some e)
      | Ok r =>
          let '(rs, st) := rollout_loop F model feat global_context
                             ground_truth_positions steps' (sr_output r) in
          (r :: rs, st)
      end
  end.

(** Lines 622-674: the rollout of one trajectory. *)
Definition rollout (F : Flags) (model : Model) (feat : features)
    (global_context : list Qc) : list step_record * option exn :=
  let initial_positions := Axis1.narrow_to INPUT_SEQUENCE_LENGTH (position feat) in
  let ground_truth_positions :=
    Axis1.narrow_from INPUT_SEQUENCE_LENGTH (position feat) in
  let num_steps := Axis1.shape1 ground_truth_positions in
  let current_positions := initial_positions in
  rollout_loop F model feat global_context ground_truth_positions
               (seq 0 num_steps) current_positions.

End Rollout.

(** ** The one-step input pipeline (train.py lines 105-157 and 181-203) *)

(** [l[-p:]] and [l[:-p]] for a non-negative [p]; [-0] is [0] in Python. *)
Definition slice_last {A} (p : nat) (l : list A) : list A :=
  if (p =? 0)%nat then l else skipn (List.length l - p) l.

Definition slice_but_last {A} (p : nat) (l : list A) : list A :=
  if (p =? 0)%nat then [] else firstn (List.length l - p) l.

(** Lines 105-157: one window of a trajectory is split into the input
    positions and the target positions.  The [print] of line 155 reads
    [tensor_dict['step_context']] whether or not the key is there. *)
Definition prepare_inputs (predict_length : nat) (tensor_dict : raw_example)
  : result (features * list (list (list Qc))) :=
  let pos := transpose (Axis1.shape1 (raw_position tensor_dict))
                       (raw_position tensor_dict) in
  let target_position := map (slice_last predict_length) pos in
  let position := map (slice_but_last predict_length) pos in
  match raw_step_context tensor_dict with
  | None => Raise KeyError
  | Some c =>
      Ok ({| position := position;
             particle_type := raw_particle_type tensor_dict;
             senders := raw_senders tensor_dict;
             receivers := raw_receivers tensor_dict;
             n_particles_per_example := List.length pos :: nil;
             n_edges_per_example := List.length (raw_senders tensor_dict) :: nil;
             step_context := Some c |},
          target_position)
  end.

(** Lines 181-203, for one leaf of the element structure: a dataset of
    tensors, each a list along its leading axis.  [dataset.window(size)]
    groups consecutive elements, the last group holding what is left;
    [reduce_window] concatenates a group onto the empty tensor.
    [tree.map_structure] does the same to every leaf.  TensorFlow rejects a
    window size of 0. *)
Definition window {A} (size : nat) (ds : list A) : list (list A) :=
  Torch.chunks ((List.length ds + size - 1) / size) size ds.

Definition reduce_window {A} (initial_state : list A) (ds : list (list A))
  : list A :=
  fold_left (fun x y => x ++ y) ds initial_state.

Definition batch_concat {A} (ds : list (list A)) (batch_size : nat)
  : list (list A) :=
  map (reduce_window []) (window batch_size ds).

(** ** Datasets (train.py lines 206-284) *)

(** The targets of a dataset element: [pos[:, -1]] of shape [N, D] in
    rollout mode, [pos[:, -predict_length:]] of shape [N, P, D] otherwise. *)
Inductive targets :=
| Target2 (t : list (list Qc))
| Target3 (t : list (list (list Qc))).

Definition dataset : Type := list (features * targets).

(** A [tf.data.Dataset] is lazy.  What the script sees of one is the
    elements a walk over it hands out and whether the walk ends: [elements]
    are those of one pass, in order, and [ds.repeat()] (line 240) starts
    over at the end of a pass for ever, so the walk over a repeated dataset
    ends only if a pass has no element.  The shuffle of line 241 reorders a
    dataset that is repeated; that order is not modelled. *)
Record tf_dataset := { elements : dataset; repeated : bool }.

Definition ends (d : tf_dataset) : bool :=
  negb (repeated d) || match elements d with [] => true | _ => false end.

(** [ds.map(f)] for a function that may raise: the first exception is the
    outcome.  [ds.map] traces [f] when the pipeline is built, so a dataset
    whose elements make [f] raise fails there; the records of one file carry
    the same keys, and which they carry is read off the records. *)
Fixpoint map_result {A B} (f : A -> result B) (l : list A) : result (list B) :=
  match l with
  | [] => Ok []
  | x :: l' => y <- f x ;; ys <- map_result f l' ;; Ok (y :: ys)
  end.

(** Lines 181-203 on the elements of the one-step dataset:
    [tree.map_structure] runs [reduce_window] on every leaf of the
    [(features, target)] structure of a window of elements, so a batch is
    the leaf-by-leaf concatenation of its elements along the leading axis.
    After the reshape of line 153 the context is one row per element; the
    rows of a batch are laid end to end. *)
Definition concat_elements (group : list (features * list (list (list Qc))))
  : features * targets :=
  let fs := map fst group in
  ({| position := reduce_window [] (map position fs);
      particle_type := reduce_window [] (map particle_type fs);
      senders := reduce_window [] (map senders fs);
      receivers := reduce_window [] (map receivers fs);
      n_particles_per_example :=
        reduce_window [] (map n_particles_per_example fs);
      n_edges_per_example := reduce_window [] (map n_edges_per_example fs);
      step_context :=
        Some (reduce_window []
                (map (fun f => match step_context f with
                               | Some c => c
                               | None => []
                               end) fs)) |},
   Target3 (reduce_window [] (map snd group))).

Definition batch_concat_elements
    (ds : list (features * list (list (list Qc)))) (batch_size : nat)
  : dataset :=
  map concat_elements (window batch_size ds).

(** [os.path.join(a, b)] on a POSIX system. *)
Definition ends_with_slash (s : string) : bool :=
  match String.get (String.length s - 1) s with
  | Some c => Ascii.eqb c "/"
  | None => false
  end.

Definition path_join (a b : string) : string :=
  if startswith b "/" then b
  else if String.eqb a "" then b
  else if ends_with_slash a then (a ++ b)%string
  else (a ++ "/" ++ b)%string.

(** [str(n)] of a non-negative integer. *)
Definition str_of_nat (n : nat) : string :=
  NilEmpty.string_of_uint (Nat.to_uint n).

(** The JSON values the script dumps. *)
Inductive json_value (Metadata : Type) :=
| JTensor3 (t : list (list (list Qc)))
| JTypes (t : list Z)
| JContext (t : list Qc)
| JMetadata (m : Metadata).
Arguments JTensor3 {Metadata} t.
Arguments JTypes {Metadata} t.
Arguments JContext {Metadata} t.
Arguments JMetadata {Metadata} m.

(** A [dict] in insertion order. *)
Definition json_object (Metadata : Type) : Type :=
  list (string * json_value Metadata).

Section Script.

(** The external collaborators: the metadata file and the record parser,
    [reading_utils.split_trajectory] (called with the window length and the
    predict length, it cuts one trajectory into its windows), the network
    with its constructor, checkpoint loader, forward pass and optimiser, and
    the facts about the machine. *)
Variable Metadata : Type.
Variable _read_metadata : string -> Metadata.
Variable read_records : string -> Metadata -> list raw_example.
Variable split_trajectory : nat -> nat -> raw_example -> list raw_example.

Variable Model : Type.
Variable LearnedSimulator : Metadata -> Qc -> Model.
Variable load_state_dict : Model -> string -> Model.
Variable inference :
  Model -> list (list (list Qc)) -> features -> list Qc -> list (list (list Qc)).

Variable cuda_available : bool.

(** Lines 206-254: [get_input_fn(data_path, batch_size, mode, split)()].
    [dataset.window] (line 185) rejects a size below 1; the [prefetch] of
    line 239 is dropped by the script itself. *)
Definition get_input_fn (data_path : string) (batch_size : Z)
    (mode split : string) : result tf_dataset :=
  let metadata := _read_metadata data_path in
  let ds := read_records (path_join data_path (split ++ ".tfrecord")) metadata in
  if startswith mode "one_step" then
    let ds := flat_map (split_trajectory INPUT_SEQUENCE_LENGTH PREDICT_LENGTH) ds in
    ds <- map_result (prepare_inputs PREDICT_LENGTH) ds ;;
    let repeat := String.eqb mode "one_step_train" in
    if (batch_size <? 1)%Z then Raise InvalidArgumentError
    else Ok {| elements := batch_concat_elements ds (Z.to_nat batch_size);
               repeated := repeat |}
  else if String.eqb mode "rollout" then
    if (batch_size =? 1)%Z then
      Ok {| elements :=
              map (fun r => let '(f, t) := prepare_rollout_inputs r in
                            (f, Target2 t)) ds;
            repeated := false |}
    else Raise AssertionError
  else Raise ValueError.

(** Lines 257-284: the dataset object.  [len(list(self.dataset))] (line 262)
    walks the dataset to its end before the first element is handed out, so
    the constructor comes to an end, by returning or by raising, only for a
    dataset that ends: that is [GraphDataset_ends].  When it returns,
    iterating the object yields the [size] elements in order and then
    stops: that is [GraphDataset]. *)
Definition GraphDataset_ends (F : Flags) (mode split : string) : bool :=
  match get_input_fn (FLAGS.data_path F) (FLAGS.batch_size F) mode split with
  | Ok d => ends d
  | Raise _ => true
  end.

Definition GraphDataset (F : Flags) (mode split : string) : result dataset :=
  d <- get_input_fn (FLAGS.data_path F) (FLAGS.batch_size F) mode split ;;
  Ok (elements d).

(** *** [Test] *)

Record test_state := {
  loaded : bool;
  test_model : Model;
  test_device : string;
  example_index : nat;
  (* every position window handed to [model.inference], oldest first *)
  inference_inputs : list (list (list (list Qc)));
  (* every file written, oldest first *)
  files : list (string * json_object Metadata)
}.

(** Lines 592-620: the first example runs the network once on the CPU and
    then loads the checkpoint.  [torch.reshape] to [[1, -1]] rejects a
    tensor without elements, which [global_context[:-1]] is for a context
    of fewer than two rows. *)
Definition load_model (F : Flags) (st : test_state) (feat : features)
  : result test_state :=
  if loaded st then Ok st
  else
    match step_context feat with
    | None => Raise KeyError
    | Some global_context =>
        match removelast global_context with
        | [] => Raise RuntimeError
        | global_context_step =>
            let window := Axis1.narrow_to INPUT_SEQUENCE_LENGTH (position feat) in
            let _ := inference (test_model st) window feat global_context_step in
            Ok {| loaded := true;
                  test_model :=
                    load_state_dict (test_model st) (FLAGS.model_path F);
                  test_device := if cuda_available then "cuda:0" else "cpu";
                  example_index := example_index st;
                  inference_inputs := inference_inputs st ++ (window :: nil);
                  files := files st |}
        end
    end.

(** Line 676: [torch.stack] rejects an empty list. *)
Definition stack {A} (xs : list A) : result (list A) :=
  match xs with
  | [] => Raise RuntimeError
  | _ => Ok xs
  end.

(** Lines 622-706: one trajectory, from its rollout to its JSON file, as the
    state reached and the exception that ended the example, if any: the
    calls of the network made before an exception stay made.
    [os.path.join] raises [TypeError] on the [None] of an [output_path] that
    was not given; for the empty path [os.path.exists] is false and
    [os.makedirs] raises [FileNotFoundError].  Any other directory is taken
    to be there or to be creatable, and the file to be writable: the state
    of the file system is not modelled. *)
Definition Test_example (F : Flags) (metadata : Metadata) (st : test_state)
    (feat : features) : test_state * option exn :=
  match load_model F st feat with
  | Raise e => (st, Some e)
  | Ok st =>
      let initial_positions :=
        Axis1.narrow_to INPUT_SEQUENCE_LENGTH (position feat) in
      let ground_truth_positions :=
        Axis1.narrow_from INPUT_SEQUENCE_LENGTH (position feat) in
      match step_context feat with
      | None => (st, Some KeyError)
      | Some global_context =>
          let '(records, raised) :=
            rollout Model inference F (test_model st) feat global_context in
          let st :=
            {| loaded := loaded st;
               test_model := test_model st;
               test_device := test_device st;
               example_index := example_index st;
               inference_inputs := inference_inputs st ++ map sr_input records;
               files := files st |} in
          match raised with
          | Some e => (st, Some e)
          | None =>
              match stack (map sr_next_position records) with
              | Raise e => (st, Some e)
              | Ok updated_predictions =>
                  let rollout_op : json_object Metadata :=
                    ("initial_positions"%string, JTensor3 initial_positions)
                    :: ("predicted_rollout"%string, JTensor3 updated_predictions)
                    :: ("ground_truth_rollout"%string,
                        JTensor3 ground_truth_positions)
                    :: ("particle_types"%string, JTypes (particle_type feat))
                    :: ("global_context"%string, JContext global_context)
                    :: nil in
                  let rollout_op :=
                    rollout_op ++ (("metadata"%string, JMetadata metadata) :: nil) in
                  let filename :=
                    ("rollout_" ++ split_name (FLAGS.eval_split F) ++ "_"
                     ++ str_of_nat (example_index st) ++ ".json")%string in
                  match FLAGS.output_path F with
                  | None => (st, Some TypeError)
                  | Some output_path =>
                      let filename := path_join output_path filename in
                      if String.eqb output_path ""
                      then (st, Some FileNotFoundError)
                      else
                        ({| loaded := loaded st;
                            test_model := test_model st;
                            test_device := test_device st;
                            example_index := S (example_index st);
                            inference_inputs := inference_inputs st;
                            files := files st ++ ((filename, rollout_op) :: nil) |},
                         None)
                  end
              end
          end
      end
  end.

(** Lines 591-707: the loop over the dataset; an exception leaves the files
    written and the calls made so far. *)
Fixpoint Test_loop (F : Flags) (metadata : Metadata) (st : test_state)
    (ds : dataset) : test_state * option exn :=
  match ds with
  | [] => (st, None)
  | (feat, _) :: ds' =>
      match Test_example F metadata st feat with
      | (st', Some e) => (st', Some e)
      | (st', None) => Test_loop F metadata st' ds'
      end
  end.

Definition Test_init (F : Flags) (metadata : Metadata) : test_state :=
  {| loaded := false;
     test_model := LearnedSimulator metadata (FLAGS.noise_std F);
     test_device := "cpu";
     example_index := 0%nat;
     inference_inputs := nil;
     files := nil |}.

(** Lines 569-707.  The dataset is built in the mode "rollout", which does
    not repeat it, so the constructor comes to an end whatever the flags. *)
Definition Test (F : Flags) : test_state * option exn :=
  let metadata := _read_metadata (FLAGS.data_path F) in
  match GraphDataset F "rollout" (split_name (FLAGS.eval_split F)) with
  | Raise e => (Test_init F metadata, Some e)
  | Ok ds => Test_loop F metadata (Test_init F metadata) ds
  end.

(** *** [Train] *)

(** The rest of the training collaborators.  [train_forward] stands for
    lines 320-355 (noise sampling, noise masking and the forward pass) and
    returns [(pred_acceleration, target_acceleration)]; [optimizer_step]
    stands for lines 494-500 (zero_grad, backward, step) and returns the new
    optimiser state and parameters; [test_metrics] stands for lines 525-552
    and returns [(test_mse, p_mse)].  A [Model] value is the parameter
    values of the network; where they live is [train_device]. *)
Variable Optimizer : Type.
Variable Adam : Model -> Optimizer.
Variable literal_eval : string -> option (list string).
Variable apex_available : bool.
Variable train_forward :
  Model -> nat -> features -> targets -> list (list Qc) * list (list Qc).
Variable optimizer_step :
  Optimizer -> Model -> nat -> features -> targets -> Optimizer * Model.
Variable test_metrics : Model -> features -> targets -> Qc * Qc.
Variable round5 : Qc -> Qc.
Variable weighted_square_error : list (list Qc) -> list (list Qc) -> Qc.
Variable cosine_similarity : list Qc -> list Qc -> Qc.
Variable random_choices : nat -> nat -> list nat.

Record train_state := {
  train_model : Model;
  optimizer : option Optimizer;
  amp_initialized : bool;
  train_device : string;
  step : Z;
  running_loss : Qc;
  best_loss : Qc;
  test_pos : nat;
  scheduler_steps : nat;
  (* writer.add_scalar calls and torch.save calls, oldest first *)
  scalars : list (string * Qc * Z);
  checkpoints : list (Qc * Z * Model);
  (* bookkeeping of the run: elements taken from the dataset, and calls of
     optimizer.step() *)
  elements_seen : nat;
  optimizer_steps : nat
}.

Definition decay_steps : Z := 5000000%Z.

(** Lines 357-379: the first element only sets the optimiser up. *)
Definition setup_optimizer (F : Flags) (st : train_state)
  : train_state * option exn :=
  let device := if cuda_available then FLAGS.device F else "cpu"%string in
  match literal_eval (FLAGS.message_passing_devices F) with
  | None => (st, Some SyntaxError)
  | Some message_passing_devices =>
      let model := train_model st in
      let optimizer := Adam model in
      if FLAGS.fp16 F && negb apex_available then
        ({| train_model := model; optimizer := Some optimizer;
            amp_initialized := false; train_device := device;
            step := step st; running_loss := running_loss st;
            best_loss := best_loss st; test_pos := test_pos st;
            scheduler_steps := scheduler_steps st; scalars := scalars st;
            checkpoints := checkpoints st;
            elements_seen := elements_seen st;
            optimizer_steps := optimizer_steps st |}, Some SystemExit)
      else
        ({| train_model := model; optimizer := Some optimizer;
            amp_initialized := FLAGS.fp16 F; train_device := device;
            step := step st; running_loss := running_loss st;
            best_loss := best_loss st; test_pos := test_pos st;
            scheduler_steps := scheduler_steps st; scalars := scalars st;
            checkpoints := checkpoints st;
            elements_seen := elements_seen st;
            optimizer_steps := optimizer_steps st |}, None)
  end.

(** Lines 521-554: [eval_steps] elements of the test dataset; [next] raises
    [StopIteration] past its end. *)
Fixpoint evaluate (model : Model) (testDataset : dataset) (pos : nat)
    (n : nat) (test_loss position_loss : Qc) : result (nat * Qc * Qc) :=
  match n with
  | O => Ok (pos, test_loss, position_loss)
  | S n' =>
      match nth_error testDataset pos with
      | None => Raise StopIteration
      | Some (feat, targ) =>
          let '(test_mse, p_mse) := test_metrics model feat targ in
          evaluate model testDataset (S pos) n'
                   (test_loss + test_mse) (position_loss + p_mse)
      end
  end.

(** Lines 506-564: what follows the optimiser step. *)
Definition after_step (F : Flags) (testDataset : dataset) (st : train_state)
  : train_state * option exn :=
  let sched :=
    if (step st mod decay_steps =? 0)%Z then S (scheduler_steps st)
    else scheduler_steps st in
  let '(log, running) :=
    if (step st mod 10 =? 0)%Z then
      (scalars st ++ (("loss"%string, round5 (running_loss st / Qc_of_nat 10), step st) :: nil),
       Q2Qc 0)
    else (scalars st, running_loss st) in
  let st1 :=
    {| train_model := train_model st; optimizer := optimizer st;
       amp_initialized := amp_initialized st; train_device := train_device st;
       step := step st; running_loss := running; best_loss := best_loss st;
       test_pos := test_pos st; scheduler_steps := sched; scalars := log;
       checkpoints := checkpoints st; elements_seen := elements_seen st;
       optimizer_steps := optimizer_steps st |} in
  if (step st mod 50 =? 0)%Z then
    match evaluate (train_model st) testDataset (test_pos st)
                   (FLAGS.eval_steps F) (Q2Qc 0) (Q2Qc 0) with
    | Raise e => (st1, Some e)
    | Ok (pos, test_loss, position_loss) =>
        let log := log ++ (("loss_mse"%string, test_loss, step st)
                           :: ("position_mse"%string, position_loss, step st) :: nil) in
        let better := match test_loss ?= best_loss st with Lt => true | _ => false end in
        ({| train_model := train_model st; optimizer := optimizer st;
            amp_initialized := amp_initialized st; train_device := train_device st;
            step := step st; running_loss := running;
            best_loss := if better then test_loss else best_loss st;
            test_pos := pos; scheduler_steps := sched; scalars := log;
            checkpoints :=
              if better
              then checkpoints st ++ ((test_loss, step st, train_model st) :: nil)
              else checkpoints st;
            elements_seen := elements_seen st;
            optimizer_steps := optimizer_steps st |}, None)
    end
  else (st1, None).

(** Lines 318-564: the body of the training loop for the element with index
    [idx]. *)
Definition Train_body (F : Flags) (testDataset : dataset) (st : train_state)
    (idx : nat) (feat : features) (targ : targets) : train_state * option exn :=
  let pred_target := train_forward (train_model st) idx feat targ in
  let st :=
    {| train_model := train_model st; optimizer := optimizer st;
       amp_initialized := amp_initialized st; train_device := train_device st;
       step := step st; running_loss := running_loss st;
       best_loss := best_loss st; test_pos := test_pos st;
       scheduler_steps := scheduler_steps st; scalars := scalars st;
       checkpoints := checkpoints st; elements_seen := S (elements_seen st);
       optimizer_steps := optimizer_steps st |} in
  match optimizer st with
  | None => setup_optimizer F st
  | Some opt =>
      let '(pred_acceleration, target_acceleration) := pred_target in
      match Train_loss weighted_square_error cosine_similarity F PREDICT_LENGTH
                       (random_choices idx (List.length target_acceleration))
                       (particle_type feat) pred_acceleration
                       target_acceleration with
      | Raise e => (st, Some e)
      | Ok loss =>
          let '(opt', model') :=
            optimizer_step opt (train_model st) idx feat targ in
          after_step F testDataset
            {| train_model := model'; optimizer := Some opt';
               amp_initialized := amp_initialized st;
               train_device := train_device st;
               step := (step st + 1)%Z;
               running_loss := running_loss st + loss;
               best_loss := best_loss st; test_pos := test_pos st;
               scheduler_steps := scheduler_steps st; scalars := scalars st;
               checkpoints := checkpoints st;
               elements_seen := elements_seen st;
               optimizer_steps := S (optimizer_steps st) |}
      end
  end.

(** Line 318: [for features, targets in dataset], stopped by the first
    exception. *)
Fixpoint Train_loop (F : Flags) (testDataset : dataset) (st : train_state)
    (idx : nat) (ds : dataset) : train_state * option exn :=
  match ds with
  | [] => (st, None)
  | (feat, targ) :: ds' =>
      match Train_body F testDataset st idx feat targ with
      | (st', Some e) => (st', Some e)
      | (st', None) => Train_loop F testDataset st' (S idx) ds'
      end
  end.

(** Lines 312-316. *)
Definition Train_init (F : Flags) (metadata : Metadata) : train_state :=
  {| train_model := LearnedSimulator metadata (FLAGS.noise_std F);
     optimizer := None;
     amp_initialized := false;
     train_device := "cpu";
     step := 0%Z;
     running_loss := Q2Qc 0;
     best_loss := Q2Qc 1000;
     test_pos := 0%nat;
     scheduler_steps := 0%nat;
     scalars := nil;
     checkpoints := nil;
     elements_seen := 0%nat;
     optimizer_steps := 0%nat |}.

(** Lines 290-566.  Both datasets are built in the mode "one_step_train",
    the default of [GraphDataset]; [None] is a run that never returns,
    a constructor being stuck in the walk over a dataset without end. *)
Definition Train (F : Flags) : option (train_state * option exn) :=
  let metadata := _read_metadata (FLAGS.data_path F) in
  if GraphDataset_ends F "one_step_train" "train" then
    match GraphDataset F "one_step_train" "train" with
    | Raise e => Some (Train_init F metadata, Some e)
    | Ok dataset =>
        if GraphDataset_ends F "one_step_train" "test" then
          match GraphDataset F "one_step_train" "test" with
          | Raise e => Some (Train_init F metadata, Some e)
          | Ok testDataset =>
              Some (Train_loop F testDataset (Train_init F metadata) 0 dataset)
          end
        else None
    end
  else None.

(** *** [main] (lines 710-714) *)

Inductive run :=
| RanTrain (r : option (train_state * option exn))
| RanTest (r : test_state * option exn).

Definition main (F : Flags) : run :=
  if String.eqb (mode_name (FLAGS.mode F)) "train" then RanTrain (Train F)
  else RanTest (Test F).

End Script.

(** ** Masking of the sampled noise (train.py lines 323-343) *)

(** [mask.to(dtype)] *)
Definition to_dtype (b : bool) : Qc := if b then Q2Qc 1 else Q2Qc 0.

(** Lines 324-341: the noise mask, one row per particle; the axis of size 1
    that the script inserts for the time steps is left to the broadcast.
    With an "anchor" flag the row has the three entries
    [metal + plane, metal + plane, metal], otherwise the single entry
    [non_kinematic]. *)
Definition noise_mask (F : Flags) (particle_types : list Z) : list (list Qc) :=
  if startswith (loss_name (FLAGS.loss F)) "anchor" then
    let non_kinematic_mask := get_metal_mask particle_types in
    let noise_mask := map (fun b => to_dtype b :: nil) non_kinematic_mask in
    let anchor_plane_mask := get_anchor_z_mask particle_types in
    let noise_anchor_plane_mask := map (fun b => to_dtype b :: nil) anchor_plane_mask in
    let zero_mask := map (fun r => Torch.zeros (List.length r)) noise_anchor_plane_mask in
    let noise_anchor_plane_mask :=
      Torch.zip_with (@app Qc)
        (Torch.zip_with (@app Qc) noise_anchor_plane_mask noise_anchor_plane_mask)
        zero_mask in
    let noise_mask := map (fun r => Torch.repeat_interleave r 3) noise_mask in
    Torch.zip_with (Torch.zip_with Qcplus) noise_mask noise_anchor_plane_mask
  else
    let non_kinematic_mask := Torch.logical_not (get_kinematic_mask particle_types) in
    map (fun b => to_dtype b :: nil) non_kinematic_mask.

(** [v * m] for a row [m] broadcast against a row [v] of a tensor: a row of
    one entry multiplies every entry of [v]. *)
Definition broadcast_mul (v m : list Qc) : list Qc :=
  match m with
  | x :: nil => map (fun y => y * x) v
  | _ => Torch.zip_with Qcmult v m
  end.

(** Line 343: [sampled_noise *= noise_mask], the noise of shape [N, T, 3]
    against the mask of shape [N, 1, 3] or [N, 1, 1]. *)
Definition mask_noise (sampled_noise : list (list (list Qc)))
    (noise_mask : list (list Qc)) : list (list (list Qc)) :=
  Torch.zip_with (fun traj m => map (fun v => broadcast_mul v m) traj)
                 sampled_noise noise_mask.

(** ** The claims in the words of the specification *)

(** The mean of [vals] over the particles whose type satisfies [sel]: the
    selected values are summed and divided by the number of selected
    particles. *)
Definition mean_over (sel : Z -> bool) (particle_types : list Z)
    (vals : list Qc) : Qc :=
  Torch.sum (map snd (filter (fun p => sel (fst p)) (combine particle_types vals)))
  / Qc_of_nat (List.length (filter sel particle_types)).

Definition is_kinematic (t : Z) : bool := Z.eqb t KINEMATIC_PARTICLE_ID.
Definition is_anchor_plane (t : Z) : bool := Z.eqb t ANCHOR_PLANE_PARTICLE_ID.

(** The squared error of one particle, coordinate [j] weighted by the decay
    factor of prediction step [j / 3]. *)
Definition decay_weighted_error (predict_length : nat) (p t : list Qc) : Qc :=
  Torch.sum
    (map (fun j => (nth j p 0 - nth j t 0) * (nth j p 0 - nth j t 0)
                   * Qcpower LOSS_DECAY_FACTOR (j / 3))
         (seq 0 (3 * predict_length))).

(** A position tensor of shape [N, T, D] with [T] time steps for every
    particle and [D] coordinates for every position. *)
Definition time_steps (T : nat) (t : list (list (list Qc))) : Prop :=
  Forall (fun traj => List.length traj = T) t.

Definition coordinates (D : nat) (t : list (list (list Qc))) : Prop :=
  Forall (Forall (fun p => List.length p = D)) t.

(** The window handed to the model at one step is the window of the step
    before with its oldest time step dropped and the position emitted by
    that step appended. *)
Definition autoregressive (trace : list step_record) : Prop :=
  forall k r r',
    nth_error trace k = Some r -> nth_error trace (S k) = Some r' ->
    sr_input r' = Axis1.cat (Axis1.narrow_from 1 (sr_input r))
                            (Axis1.unsqueeze (sr_next_position r)).

(** ** Concrete flags and data used in the examples *)

Definition qz (z : Z) : Qc := Q2Qc (inject_Z z).

(** The default flag values of lines 49-78, with the three paths given. *)
Definition default_flags : Flags :=
  {| FLAGS.mode := ModeTrain;
     FLAGS.eval_split := SplitTest;
     FLAGS.data_path := "data";
     FLAGS.batch_size := 2;
     FLAGS.num_steps := 20000000;
     FLAGS.eval_steps := 1;
     FLAGS.noise_std := Q2Qc (67 # 100000);
     FLAGS.model_path := "model.pt";
     FLAGS.output_path := Some "out"%string;
     FLAGS.loss := LossStandard;
     FLAGS.l_plane := qz 30;
     FLAGS.l_me := qz 3;
     FLAGS.prefetch_buffer_size := 100;
     FLAGS.device := "cuda:0";
     FLAGS.message_passing_devices := "['cuda:0', 'cuda:1]";
     FLAGS.fp16 := false;
     FLAGS.rollout_refine := false |}.

Definition set_mode (m : mode_flag) (F : Flags) : Flags :=
  {| FLAGS.mode := m;
     FLAGS.eval_split := FLAGS.eval_split F;
     FLAGS.data_path := FLAGS.data_path F;
     FLAGS.batch_size := FLAGS.batch_size F;
     FLAGS.num_steps := FLAGS.num_steps F;
     FLAGS.eval_steps := FLAGS.eval_steps F;
     FLAGS.noise_std := FLAGS.noise_std F;
     FLAGS.model_path := FLAGS.model_path F;
     FLAGS.output_path := FLAGS.output_path F;
     FLAGS.loss := FLAGS.loss F;
     FLAGS.l_plane := FLAGS.l_plane F;
     FLAGS.l_me := FLAGS.l_me F;
     FLAGS.prefetch_buffer_size := FLAGS.prefetch_buffer_size F;
     FLAGS.device := FLAGS.device F;
     FLAGS.message_passing_devices := FLAGS.message_passing_devices F;
     FLAGS.fp16 := FLAGS.fp16 F;
     FLAGS.rollout_refine := FLAGS.rollout_refine F |}.

Definition set_loss (l : loss_flag) (F : Flags) : Flags :=
  {| FLAGS.mode := FLAGS.mode F;
     FLAGS.eval_split := FLAGS.eval_split F;
     FLAGS.data_path := FLAGS.data_path F;
     FLAGS.batch_size := FLAGS.batch_size F;
     FLAGS.num_steps := FLAGS.num_steps F;
     FLAGS.eval_steps := FLAGS.eval_steps F;
     FLAGS.noise_std := FLAGS.noise_std F;
     FLAGS.model_path := FLAGS.model_path F;
     FLAGS.output_path := FLAGS.output_path F;
     FLAGS.loss := l;
     FLAGS.l_plane := FLAGS.l_plane F;
     FLAGS.l_me := FLAGS.l_me F;
     FLAGS.prefetch_buffer_size := FLAGS.prefetch_buffer_size F;
     FLAGS.device := FLAGS.device F;
     FLAGS.message_passing_devices := FLAGS.message_passing_devices F;
     FLAGS.fp16 := FLAGS.fp16 F;
     FLAGS.rollout_refine := FLAGS.rollout_refine F |}.

Definition set_batch_size (b : Z) (F : Flags) : Flags :=
  {| FLAGS.mode := FLAGS.mode F;
     FLAGS.eval_split := FLAGS.eval_split F;
     FLAGS.data_path := FLAGS.data_path F;
     FLAGS.batch_size := b;
     FLAGS.num_steps := FLAGS.num_steps F;
     FLAGS.eval_steps := FLAGS.eval_steps F;
     FLAGS.noise_std := FLAGS.noise_std F;
     FLAGS.model_path := FLAGS.model_path F;
     FLAGS.output_path := FLAGS.output_path F;
     FLAGS.loss := FLAGS.loss F;
     FLAGS.l_plane := FLAGS.l_plane F;
     FLAGS.l_me := FLAGS.l_me F;
     FLAGS.prefetch_buffer_size := FLAGS.prefetch_buffer_size F;
     FLAGS.device := FLAGS.device F;
     FLAGS.message_passing_devices := FLAGS.message_passing_devices F;
     FLAGS.fp16 := FLAGS.fp16 F;
     FLAGS.rollout_refine := FLAGS.rollout_refine F |}.


Definition set_rollout_refine (b : bool) (F : Flags) : Flags :=
  {| FLAGS.mode := FLAGS.mode F;
     FLAGS.eval_split := FLAGS.eval_split F;
     FLAGS.data_path := FLAGS.data_path F;
     FLAGS.batch_size := FLAGS.batch_size F;
     FLAGS.num_steps := FLAGS.num_steps F;
     FLAGS.eval_steps := FLAGS.eval_steps F;
     FLAGS.noise_std := FLAGS.noise_std F;
     FLAGS.model_path := FLAGS.model_path F;
     FLAGS.output_path := FLAGS.output_path F;
     FLAGS.loss := FLAGS.loss F;
     FLAGS.l_plane := FLAGS.l_plane F;
     FLAGS.l_me := FLAGS.l_me F;
     FLAGS.prefetch_buffer_size := FLAGS.prefetch_buffer_size F;
     FLAGS.device := FLAGS.device F;
     FLAGS.message_passing_devices := FLAGS.message_passing_devices F;
     FLAGS.fp16 := FLAGS.fp16 F;
     FLAGS.rollout_refine := b |}.

(** Three particles, one of each type, with one predicted step. *)
Definition ex_types : list Z := 0%Z :: 2%Z :: 1%Z :: nil.
Definition ex_pred : list (list Qc) :=
  (qz 1 :: qz 2 :: qz 3 :: nil) :: (qz 1 :: qz 0 :: qz 2 :: nil)
  :: (qz 0 :: qz 0 :: qz 4 :: nil) :: nil.
Definition ex_target : list (list Qc) :=
  (qz 0 :: qz 0 :: qz 0 :: nil) :: (qz 0 :: qz 0 :: qz 0 :: nil)
  :: (qz 0 :: qz 0 :: qz 0 :: nil) :: nil.
Definition ex_wse (_ _ : list (list Qc)) : Qc := qz 0.
Definition ex_cos (_ _ : list Qc) : Qc := qz 0.

(** A trajectory of two particles in the plane over seven time steps, the
    first particle kinematic, as the parsed record (time-major) and as the
    features of the rollout dataset; and a stand-in network that predicts
    the newest position of the window shifted by 10 in every coordinate. *)
Definition pt (x y : Z) : list Qc := qz x :: qz y :: nil.

Definition ex_raw : raw_example :=
  {| raw_position :=
       map (fun k => pt k 0 :: pt 0 k :: nil)
           (0 :: 1 :: 2 :: 3 :: 4 :: 5 :: 6 :: nil)%Z;
     raw_particle_type := 0%Z :: 2%Z :: nil;
     raw_senders := 0%Z :: nil;
     raw_receivers := 1%Z :: nil;
     raw_step_context :=
       Some (map qz (0 :: 0 :: 0 :: 0 :: 0 :: 0 :: 0 :: nil)%Z) |}.

(** The same trajectory cut to [INPUT_SEQUENCE_LENGTH] time steps. *)
Definition ex_raw_short : raw_example :=
  {| raw_position := firstn INPUT_SEQUENCE_LENGTH (raw_position ex_raw);
     raw_particle_type := raw_particle_type ex_raw;
     raw_senders := raw_senders ex_raw;
     raw_receivers := raw_receivers ex_raw;
     raw_step_context := Some (map qz (0 :: 0 :: 0 :: 0 :: 0 :: nil)%Z) |}.

(** The same trajectory cut to three time steps, fewer than the input
    window. *)
Definition ex_raw_tiny : raw_example :=
  {| raw_position := firstn 3 (raw_position ex_raw);
     raw_particle_type := raw_particle_type ex_raw;
     raw_senders := raw_senders ex_raw;
     raw_receivers := raw_receivers ex_raw;
     raw_step_context := Some (map qz (0 :: 0 :: 0 :: nil)%Z) |}.

Definition ex_feat : features := fst (prepare_rollout_inputs ex_raw).
Definition ex_context : list Qc :=
  map qz (0 :: 0 :: 0 :: 0 :: 0 :: 0 :: 0 :: nil)%Z.

Definition ex_inference (_ : unit) (window : list (list (list Qc)))
    (_ : features) (_ : list Qc) : list (list (list Qc)) :=
  map (fun traj => map (fun c => c + qz 10) (last traj nil) :: nil) window.

Definition ex_trace (F : Flags) : list step_record :=
  fst (rollout unit ex_inference F tt ex_feat ex_context).

Definition empty_record : step_record :=
  {| sr_step := 0%nat; sr_input := nil; sr_context := nil; sr_predicted := nil;
     sr_ground_truth := nil; sr_next_position := nil; sr_output := nil |}.

(** The record files of the examples: the test split of "data" holds the
    seven-step trajectory twice and its train split holds it once, the test
    split of "short" holds the five-step trajectory and the test split of
    "tiny" the three-step one.  There is no GPU. *)
Definition ex_records (path : string) (_ : unit) : list raw_example :=
  if String.eqb path "data/test.tfrecord" then ex_raw :: ex_raw :: nil
  else if String.eqb path "short/test.tfrecord" then ex_raw_short :: nil
  else if String.eqb path "tiny/test.tfrecord" then ex_raw_tiny :: nil
  else if String.eqb path "data/train.tfrecord" then ex_raw :: nil
  else nil.

(** A stand-in for [reading_utils.split_trajectory] that hands a trajectory
    on as its only window. *)
Definition ex_split_trajectory (_ _ : nat) (r : raw_example) : list raw_example :=
  r :: nil.

Definition ex_Test (F : Flags) : test_state unit unit * option exn :=
  Test unit (fun _ => tt) ex_records ex_split_trajectory
       unit (fun _ _ => tt) (fun m _ => m) ex_inference false F.

Definition eval_flags (data : string) : Flags :=
  {| FLAGS.mode := ModeEval;
     FLAGS.eval_split := SplitTest;
     FLAGS.data_path := data;
     FLAGS.batch_size := 1;
     FLAGS.num_steps := 20000000;
     FLAGS.eval_steps := 1;
     FLAGS.noise_std := Q2Qc (67 # 100000);
     FLAGS.model_path := "model.pt";
     FLAGS.output_path := Some "out"%string;
     FLAGS.loss := LossStandard;
     FLAGS.l_plane := qz 30;
     FLAGS.l_me := qz 3;
     FLAGS.prefetch_buffer_size := 100;
     FLAGS.device := "cuda:0";
     FLAGS.message_passing_devices := "['cuda:0', 'cuda:1]";
     FLAGS.fp16 := false;
     FLAGS.rollout_refine := false |}.

(** The name and the content of the file written for one trajectory. *)
Definition rollout_filename (output_path : string) (split : split_flag)
    (index : nat) : string :=
  path_join output_path
    ("rollout_" ++ split_name split ++ "_" ++ str_of_nat index ++ ".json")%string.

Definition rollout_keys : list string :=
  ("initial_positions" :: "predicted_rollout" :: "ground_truth_rollout"
   :: "particle_types" :: "global_context" :: "metadata" :: nil)%string.

(** [d[key]] of a dict in insertion order. *)
Fixpoint lookup {V} (key : string) (d : list (string * V)) : option V :=
  match d with
  | [] => None
  | (k, v) :: d' => if String.eqb k key then Some v else lookup key d'
  end.

(** The JSON object of a trajectory that was rolled out with [records]. *)
Definition artifact {Metadata : Type} (metadata : Metadata) (feat : features) (gc : list Qc)
    (records : list step_record) : json_object Metadata :=
  ("initial_positions"%string,
   JTensor3 (Axis1.narrow_to INPUT_SEQUENCE_LENGTH (position feat)))
  :: ("predicted_rollout"%string, JTensor3 (map sr_next_position records))
  :: ("ground_truth_rollout"%string,
      JTensor3 (Axis1.narrow_from INPUT_SEQUENCE_LENGTH (position feat)))
  :: ("particle_types"%string, JTypes (particle_type feat))
  :: ("global_context"%string, JContext gc)
  :: ("metadata"%string, JMetadata metadata) :: nil.

(** A trajectory the rollout can run on: [T] time steps for every particle,
    more than the input window, and a context row for each of them. *)
Definition rollout_ready (feat : features) : Prop :=
  exists T gc,
    time_steps T (position feat) /\ position feat <> [] /\
    (INPUT_SEQUENCE_LENGTH < T)%nat /\
    step_context feat = Some gc /\ (T <= List.length gc)%nat.

(** One position of [D] coordinates for each of [N] particles. *)
Definition positions_of (D N : nat) (p : list (list Qc)) : Prop :=
  List.length p = N /\ Forall (fun q => List.length q = D) p.

(** A network that answers a window of [INPUT_SEQUENCE_LENGTH] time steps
    of [D] coordinates with one predicted position of [D] coordinates for
    each particle of the window. *)
Definition answers_in_shape {Model : Type}
    (inference : Model -> list (list (list Qc)) -> features -> list Qc
                 -> list (list (list Qc)))
    (D : nat) : Prop :=
  forall model window feat ctx,
    time_steps INPUT_SEQUENCE_LENGTH window -> coordinates D window ->
    List.length (inference model window feat ctx) = List.length window /\
    Forall (fun traj => List.length (nth 0 traj []) = D)
           (inference model window feat ctx).

(** A ready trajectory of positions in [D] dimensions with a type for each
    particle. *)
Definition rollout_ready_in (D : nat) (feat : features) : Prop :=
  rollout_ready feat /\ coordinates D (position feat) /\
  List.length (particle_type feat) = List.length (position feat).




(** A training environment for the examples: the parameters are a counter
    of the updates made, there is no GPU, and three elements are drawn from
    the dataset.  The stand-in for [ast.literal_eval] reads the two device
    lists below and rejects every other string, the default of line 76
    among them, whose last quote is missing. *)
Definition ex_literal_eval (s : string) : option (list string) :=
  if String.eqb s "['cuda:0']" then Some ("cuda:0" :: nil)%string
  else if String.eqb s "['cuda:0', 'cuda:1']"
       then Some ("cuda:0" :: "cuda:1" :: nil)%string
  else None.

(** The default flags with a list of message-passing devices that parses. *)
Definition train_flags : Flags :=
  {| FLAGS.mode := ModeTrain; FLAGS.eval_split := SplitTest;
     FLAGS.data_path := "data"; FLAGS.batch_size := 2;
     FLAGS.num_steps := 20000000; FLAGS.eval_steps := 1;
     FLAGS.noise_std := Q2Qc (67 # 100000);
     FLAGS.model_path := "model.pt"; FLAGS.output_path := Some "out"%string;
     FLAGS.loss := LossStandard; FLAGS.l_plane := qz 30;
     FLAGS.l_me := qz 3; FLAGS.prefetch_buffer_size := 100;
     FLAGS.device := "cuda:0";
     FLAGS.message_passing_devices := "['cuda:0', 'cuda:1']";
     FLAGS.fp16 := false; FLAGS.rollout_refine := false |}.

Definition ex_train_feat : features :=
  {| position := nil; particle_type := ex_types; senders := nil;
     receivers := nil; n_particles_per_example := 3%nat :: nil;
     n_edges_per_example := 0%nat :: nil; step_context := Some nil |}.

Definition ex_train_dataset : dataset :=
  (ex_train_feat, Target3 nil) :: (ex_train_feat, Target3 nil)
  :: (ex_train_feat, Target3 nil) :: nil.

Definition ex_Train_loop (F : Flags) (ds : dataset)
  : train_state nat unit * option exn :=
  Train_loop nat false unit (fun _ => tt) ex_literal_eval false
    (fun _ _ _ _ => (ex_pred, ex_target))
    (fun o m _ _ _ => (o, S m))
    (fun _ _ _ => (qz 0, qz 0)) (fun q => q) ex_wse ex_cos (fun _ _ => nil)
    F nil (Train_init unit nat (fun _ _ => 0%nat) unit F tt) 0 ds.

Definition ex_main (F : Flags) : run unit unit unit :=
  main unit (fun _ => tt) ex_records ex_split_trajectory
       unit (fun _ _ => tt) (fun m _ => m) ex_inference false
       unit (fun _ => tt) ex_literal_eval false
       (fun _ _ _ _ => (ex_pred, ex_target)) (fun o m _ _ _ => (o, m))
       (fun _ _ _ => (qz 0, qz 0)) (fun q => q) ex_wse ex_cos (fun _ _ => nil)
       F.

(** Two tensors with one row per particle agree on the particles whose type
    satisfies [sel]. *)
Definition agree_on (sel : Z -> bool) (particle_types : list Z)
    (a b : list (list Qc)) : Prop :=
  List.length a = List.length b /\
  forall i t, nth_error particle_types i = Some t -> sel t = true ->
              nth_error a i = nth_error b i.

(** The loss of a training step leaves the kinematic particles out:
    predictions and targets that agree on every other particle give the
    same loss. *)
Definition kinematic_excluded
    (weighted_square_error : list (list Qc) -> list (list Qc) -> Qc)
    (cosine_similarity : list Qc -> list Qc -> Qc)
    (F : Flags) (P : nat) (random_pids : list nat) (types : list Z) : Prop :=
  forall pred pred' target target',
    agree_on (fun t => negb (is_kinematic t)) types pred pred' ->
    agree_on (fun t => negb (is_kinematic t)) types target target' ->
    Train_loss weighted_square_error cosine_similarity F P random_pids types
               pred target
    = Train_loss weighted_square_error cosine_similarity F P random_pids types
                 pred' target'.

(** The example prediction with the row of its kinematic particle, the
    first, replaced. *)
Definition ex_pred_moved : list (list Qc) :=
  (qz 7 :: qz 8 :: qz 9 :: nil) :: tl ex_pred.

Definition ex_Train (F : Flags)
  : option (train_state unit unit * option exn) :=
  Train unit (fun _ => tt) ex_records ex_split_trajectory
        unit (fun _ _ => tt) false
        unit (fun _ => tt) ex_literal_eval false
        (fun _ _ _ _ => (ex_pred, ex_target)) (fun o m _ _ _ => (o, m))
        (fun _ _ _ => (qz 0, qz 0)) (fun q => q) ex_wse ex_cos (fun _ _ => nil)
        F.

(** The window over the true positions that starts at time step [s]. *)
Definition true_window (feat : features) (s : nat) : list (list (list Qc)) :=
  map (fun traj => firstn INPUT_SEQUENCE_LENGTH (skipn s traj)) (position feat).

(** The default flags with mixed precision switched on and a list of
    message-passing devices that parses. *)
Definition fp16_flags : Flags :=
  {| FLAGS.mode := ModeTrain; FLAGS.eval_split := SplitTest;
     FLAGS.data_path := "data"; FLAGS.batch_size := 2;
     FLAGS.num_steps := 20000000; FLAGS.eval_steps := 1;
     FLAGS.noise_std := Q2Qc (67 # 100000);
     FLAGS.model_path := "model.pt"; FLAGS.output_path := Some "out"%string;
     FLAGS.loss := LossStandard; FLAGS.l_plane := qz 30;
     FLAGS.l_me := qz 3; FLAGS.prefetch_buffer_size := 100;
     FLAGS.device := "cuda:0";
     FLAGS.message_passing_devices := "['cuda:0']";
     FLAGS.fp16 := true; FLAGS.rollout_refine := false |}.

(** A [writer.add_scalar] call is on schedule: the running loss at a
    multiple of 10 steps, the test metrics at a multiple of 50. *)
Definition on_schedule (entry : string * Qc * Z) : Prop :=
  let '(tag, _, s) := entry in
  (tag = "loss"%string /\ (s mod 10 = 0)%Z) \/
  ((tag = "loss_mse"%string \/ tag = "position_mse"%string) /\ (s mod 50 = 0)%Z).

(** ** Facts about the tensor primitives *)

Section TensorFacts.

Context {A B C : Type}.

Lemma zip_with_length (f : A -> B -> C) (xs : list A) (ys : list B) :
  List.length (Torch.zip_with f xs ys) = Nat.min (List.length xs) (List.length ys).
Proof.
  revert ys; induction xs as [|x xs IH]; intros [|y ys]; simpl; auto.
Qed.

Lemma zip_with_nth_error (f : A -> B -> C) (xs : list A) (ys : list B) (n : nat) :
  nth_error (Torch.zip_with f xs ys) n =
  match nth_error xs n, nth_error ys n with
  | Some x, Some y => Some (f x y)
  | _, _ => None
  end.
Proof.
  revert ys n; induction xs as [|x xs IH]; intros [|y ys] [|n]; simpl; auto.
  - destruct (nth_error xs n); reflexivity.
Qed.

Lemma zip_with_nth (f : A -> B -> C) (xs : list A) (ys : list B) (n : nat) dx dy dz :
  (n < List.length xs)%nat -> (n < List.length ys)%nat ->
  nth n (Torch.zip_with f xs ys) dz = f (nth n xs dx) (nth n ys dy).
Proof.
  revert ys n; induction xs as [|x xs IH]; intros [|y ys] [|n]; simpl;
    intros; try lia; auto.
  apply IH; lia.
Qed.

Lemma repeat_interleave_length (xs : list A) (k : nat) :
  List.length (Torch.repeat_interleave xs k) = (List.length xs * k)%nat.
Proof.
  unfold Torch.repeat_interleave.
  induction xs as [|x xs IH]; simpl; auto.
  rewrite length_app, repeat_length, IH; reflexivity.
Qed.

Lemma repeat_interleave_nth (xs : list A) (k j : nat) (d : A) :
  (0 < k)%nat ->
  nth j (Torch.repeat_interleave xs k) d = nth (j / k) xs d.
Proof.
  intros Hk. unfold Torch.repeat_interleave.
  revert j; induction xs as [|x xs IH]; intros j; simpl.
  - destruct j, (_ / _)%nat; reflexivity.
  - destruct (Nat.lt_ge_cases j k) as [Hlt|Hge].
    + rewrite app_nth1 by (rewrite repeat_length; exact Hlt).
      rewrite Nat.div_small by exact Hlt.
      apply nth_repeat_lt; exact Hlt.
    + rewrite app_nth2 by (rewrite repeat_length; exact Hge).
      rewrite repeat_length, IH.
      replace j with ((j - k) + 1 * k)%nat at 2 by lia.
      rewrite Nat.div_add by lia.
      replace (((j - k) / k + 1))%nat with (S ((j - k) / k)) by lia.
      reflexivity.
Qed.

End TensorFacts.

(** ** Decay weighting *)

Lemma nth_map_lt {A B} (f : A -> B) (l : list A) (n : nat) (d : A) (d' : B) :
  (n < List.length l)%nat -> nth n (map f l) d' = f (nth n l d).
Proof.
  revert n; induction l as [|x l IH]; intros [|n]; simpl; intros H;
    try lia; auto.
  apply IH; lia.
Qed.

Lemma decay_fators_1_nth (P i : nat) :
  (i < P)%nat -> nth i (decay_fators_1 P) 0 = Qcpower LOSS_DECAY_FACTOR i.
Proof.
  intros Hi. unfold decay_fators_1.
  rewrite nth_map_lt with (d := 0%nat) by (rewrite length_seq; exact Hi).
  rewrite seq_nth by exact Hi. reflexivity.
Qed.

Lemma decay_fators_3_length (P : nat) :
  List.length (decay_fators_3 P) = (3 * P)%nat.
Proof.
  unfold decay_fators_3, decay_fators_1.
  rewrite repeat_interleave_length, length_map, length_seq. lia.
Qed.

Lemma decay_fators_3_nth (P j : nat) :
  (j < 3 * P)%nat ->
  nth j (decay_fators_3 P) 0 = Qcpower LOSS_DECAY_FACTOR (j / 3).
Proof.
  intros Hj. unfold decay_fators_3.
  rewrite repeat_interleave_nth by lia.
  apply decay_fators_1_nth.
  apply Nat.Div0.div_lt_upper_bound; lia.
Qed.

Lemma list_as_map_nth {A} (d : A) (l : list A) :
  l = map (fun j => nth j l d) (seq 0 (List.length l)).
Proof.
  apply nth_ext with (d := d) (d' := d).
  - rewrite length_map, length_seq; reflexivity.
  - intros n Hn.
    rewrite nth_map_lt with (d := 0%nat) by (rewrite length_seq; exact Hn).
    rewrite seq_nth by exact Hn. reflexivity.
Qed.

Lemma decayed_row (P : nat) (p t : list Qc) :
  List.length p = (3 * P)%nat -> List.length t = (3 * P)%nat ->
  Torch.sum
    (Torch.zip_with Qcmult
       (map (fun x => x * x) (Torch.zip_with Qcminus p t)) (decay_fators_3 P))
  = decay_weighted_error P p t.
Proof.
  intros Hp Ht. unfold decay_weighted_error. f_equal.
  set (row := Torch.zip_with Qcmult _ _).
  assert (Hlen : List.length row = (3 * P)%nat).
  { unfold row. rewrite zip_with_length, length_map, zip_with_length,
      decay_fators_3_length, Hp, Ht. lia. }
  rewrite (list_as_map_nth 0 row), Hlen.
  apply map_ext_in. intros j Hj. apply in_seq in Hj.
  unfold row.
  rewrite zip_with_nth with (dx := 0) (dy := 0)
    by (rewrite ?length_map, ?zip_with_length, ?decay_fators_3_length; lia).
  rewrite decay_fators_3_nth by lia.
  rewrite nth_map_lt with (d := 0) by (rewrite zip_with_length; lia).
  rewrite zip_with_nth with (dx := 0) (dy := 0) by lia.
  reflexivity.
Qed.

(** C5.  The squared acceleration error is decay weighted before the sum
    over coordinates: the factor tensor has one entry per coordinate, entry
    [j] being [LOSS_DECAY_FACTOR ^ (j / 3)] (the factor of prediction step
    [i] repeated over its 3 coordinates), with [LOSS_DECAY_FACTOR] = 6/10,
    and the loss of particle [n] is the sum over its coordinates of the
    squared error times that factor.  For the script's [PREDICT_LENGTH] the
    factors are [1; 1; 1]. *)
Theorem C5_decay_weighting (P : nat) :
  LOSS_DECAY_FACTOR = Q2Qc (6 # 10) /\
  decay_fators_3 PREDICT_LENGTH = Q2Qc 1 :: Q2Qc 1 :: Q2Qc 1 :: nil /\
  List.length (decay_fators_3 P) = (3 * P)%nat /\
  (forall i c, (i < P)%nat -> (c < 3)%nat ->
     nth (3 * i + c) (decay_fators_3 P) 0 = Qcpower LOSS_DECAY_FACTOR i) /\
  (forall pred target n p t,
     nth_error pred n = Some p -> nth_error target n = Some t ->
     List.length p = (3 * P)%nat -> List.length t = (3 * P)%nat ->
     nth_error (decayed_squared_error P pred target) n
     = Some (decay_weighted_error P p t)).
Proof.
  split; [reflexivity|].
  split; [reflexivity|].
  split; [apply decay_fators_3_length|].
  split.
  - intros i c Hi Hc. rewrite decay_fators_3_nth by lia.
    f_equal. rewrite Nat.mul_comm, Nat.div_add_l by lia.
    rewrite Nat.div_small by exact Hc. lia.
  - intros pred target n p t Hp Ht Lp Lt.
    unfold decayed_squared_error, Torch.sum_last, Torch.mul_rows,
      Torch.square2, Torch.sub2.
    rewrite !nth_error_map, zip_with_nth_error, Hp, Ht. simpl.
    f_equal. apply decayed_row; assumption.
Qed.

(** ** Masking of the loss *)

Lemma sum_bool_map (sel : Z -> bool) (types : list Z) :
  Torch.sum_bool (map sel types) = List.length (filter sel types).
Proof.
  unfold Torch.sum_bool.
  induction types as [|t types IH]; simpl; auto.
  destruct (sel t); simpl; auto.
Qed.

Lemma sum_where_zeros (sel : Z -> bool) (types : list Z) (vals : list Qc) :
  Torch.sum (masked (map sel types) vals)
  = Torch.sum (map snd (filter (fun p => sel (fst p)) (combine types vals))).
Proof.
  unfold masked, Torch.zeros.
  revert vals; induction types as [|t types IH]; intros [|v vals]; simpl; auto.
  specialize (IH vals). unfold Torch.sum in *.
  destruct (sel t); simpl; rewrite IH; auto.
  apply Qcplus_0_l.
Qed.

Lemma masked_mean_is_mean_over (sel : Z -> bool) (types : list Z) (vals : list Qc) :
  masked_mean (map sel types) vals = mean_over sel types vals.
Proof.
  unfold masked_mean, mean_over.
  rewrite sum_where_zeros, sum_bool_map. reflexivity.
Qed.

Lemma non_kinematic_mask_map (types : list Z) :
  Torch.logical_not (get_kinematic_mask types)
  = map (fun t => negb (is_kinematic t)) types.
Proof.
  unfold Torch.logical_not, get_kinematic_mask. rewrite map_map. reflexivity.
Qed.

Lemma masked_nth_off (mask : list bool) (vals : list Qc) (i : nat) :
  nth i mask false = false -> nth i (masked mask vals) 0 = 0.
Proof.
  unfold masked, Torch.zeros.
  revert vals i; induction mask as [|b mask IH]; intros vals i H.
  - destruct i; reflexivity.
  - destruct vals as [|v vals]; [destruct i; reflexivity|].
    destruct i as [|i]; simpl in *.
    + rewrite H; reflexivity.
    + apply IH; exact H.
Qed.

Lemma masked_nth_on (mask : list bool) (vals : list Qc) (i : nat) :
  nth i mask false = true -> nth i (masked mask vals) 0 = nth i vals 0.
Proof.
  unfold masked, Torch.zeros.
  revert vals i; induction mask as [|b mask IH]; intros vals i H.
  - destruct i; discriminate.
  - destruct vals as [|v vals]; [destruct i; reflexivity|].
    destruct i as [|i]; simpl in *.
    + rewrite H; reflexivity.
    + apply IH; exact H.
Qed.

(** Evaluation of the tests on the flag's name. *)
Ltac flag_tests :=
  repeat match goal with
  | |- context [startswith ?a ?b] =>
      let v := eval vm_compute in (startswith a b) in
      change (startswith a b) with v
  | |- context [String.eqb ?a ?b] =>
      let v := eval vm_compute in (String.eqb a b) in
      change (String.eqb a b) with v
  end; cbv iota.

Section LossVariants.

Variable weighted_square_error : list (list Qc) -> list (list Qc) -> Qc.
Variable cosine_similarity : list Qc -> list Qc -> Qc.
Variables (F : Flags) (P : nat) (random_pids : list nat) (types : list Z).
Variables pred target : list (list Qc).

Let non_kinematic (t : Z) : bool := negb (is_kinematic t).
Let errs := decayed_squared_error P pred target.
Let run := Train_loss weighted_square_error cosine_similarity F P random_pids
             types pred target.

Lemma Train_loss_standard :
  FLAGS.loss F = LossStandard -> run = Ok (mean_over non_kinematic types errs).
Proof.
  intros H. unfold run, Train_loss, noise_block_masks. rewrite H.
  cbn [loss_name]. flag_tests.
  rewrite non_kinematic_mask_map, masked_mean_is_mean_over. reflexivity.
Qed.

Lemma Train_loss_me :
  FLAGS.loss F = LossMe ->
  run = Ok (mean_over non_kinematic types errs
            + FLAGS.l_me F * me_l1_loss P pred target).
Proof.
  intros H. unfold run, Train_loss, noise_block_masks. rewrite H.
  cbn [loss_name]. flag_tests.
  rewrite non_kinematic_mask_map, masked_mean_is_mean_over. reflexivity.
Qed.

Lemma Train_loss_correlation :
  FLAGS.loss F = LossCorrelation ->
  run = Ok (mean_over non_kinematic types errs
            + Qc_of_nat 1 * correlation_loss cosine_similarity random_pids pred target).
Proof.
  intros H. unfold run, Train_loss, noise_block_masks. rewrite H.
  cbn [loss_name]. flag_tests.
  rewrite non_kinematic_mask_map, masked_mean_is_mean_over. reflexivity.
Qed.

Lemma Train_loss_anchor :
  FLAGS.loss F = LossAnchor ->
  run = Ok (mean_over non_kinematic types errs
            + FLAGS.l_plane F * anchor_plane_loss pred (get_anchor_z_mask types)).
Proof.
  intros H. unfold run, Train_loss, noise_block_masks. rewrite H.
  cbn [loss_name]. flag_tests.
  rewrite non_kinematic_mask_map, masked_mean_is_mean_over. reflexivity.
Qed.

Lemma Train_loss_anchor_me :
  FLAGS.loss F = LossAnchorMe ->
  run = Ok (mean_over non_kinematic types errs
            + FLAGS.l_plane F * anchor_plane_loss pred (get_anchor_z_mask types)
            + FLAGS.l_me F * anchor_me_l1_loss P pred target).
Proof.
  intros H. unfold run, Train_loss, noise_block_masks. rewrite H.
  cbn [loss_name]. flag_tests.
  rewrite non_kinematic_mask_map, masked_mean_is_mean_over. reflexivity.
Qed.

Lemma anchor_plane_loss_is_mean :
  anchor_plane_loss pred (get_anchor_z_mask types)
  = mean_over is_anchor_plane types
      (map (fun a => nth 2 a 0 * nth 2 a 0) pred).
Proof.
  unfold anchor_plane_loss, get_anchor_z_mask, Torch.select_last.
  change (fun t => (t =? ANCHOR_PLANE_PARTICLE_ID)%Z) with is_anchor_plane.
  rewrite masked_mean_is_mean_over. f_equal.
  rewrite !map_map. apply map_ext. intros a.
  cbn [Qcpower]. apply Qcmult_1_r.
Qed.

End LossVariants.

(** ** The anchor variants *)

Lemma nth_map_some {A B} (f : A -> B) (l : list A) (i : nat) (a : A) (d : B) :
  nth_error l i = Some a -> nth i (map f l) d = f a.
Proof.
  revert i; induction l as [|x l IH]; intros [|i]; simpl; intros H;
    try discriminate.
  - congruence.
  - apply IH; exact H.
Qed.



(** ** The rollout loop *)

Lemma zip_with_Forall {A B C} (f : A -> B -> C)
    (PA : A -> Prop) (PB : B -> Prop) (PC : C -> Prop)
    (xs : list A) (ys : list B) :
  (forall x y, PA x -> PB y -> PC (f x y)) ->
  Forall PA xs -> Forall PB ys -> Forall PC (Torch.zip_with f xs ys).
Proof.
  intros Hf Hxs. revert ys.
  induction Hxs as [|x xs Hx Hxs IH]; intros ys Hys;
    destruct Hys as [|y ys Hy Hys]; simpl; constructor; auto.
Qed.

Lemma unsqueeze_singletons {A} (x : list A) :
  Forall (fun r => List.length r = 1%nat) (Axis1.unsqueeze x).
Proof.
  unfold Axis1.unsqueeze. apply Forall_map.
  apply Forall_forall. intros; reflexivity.
Qed.

Lemma advance_window_time_steps (F : Flags) (L : nat)
    (cur : list (list (list Qc))) (next gt : list (list Qc)) :
  (0 < L)%nat -> time_steps L cur ->
  time_steps L (advance_window F cur next gt).
Proof.
  intros HL Hcur. unfold advance_window, Axis1.cat, Axis1.narrow_from,
    time_steps in *.
  assert (Hskip : Forall (fun traj : list (list Qc) =>
                            List.length traj = (L - 1)%nat) (map (skipn 1) cur)).
  { apply Forall_map. eapply Forall_impl; [|exact Hcur].
    intros traj Ht. simpl in Ht. rewrite length_skipn, Ht. reflexivity. }
  destruct (FLAGS.rollout_refine F);
    (eapply zip_with_Forall; [|exact Hskip|apply unsqueeze_singletons]);
    intros x y Hx Hy; simpl in *; rewrite length_app, Hx, Hy; lia.
Qed.

Section RolloutFacts.

Variable Model : Type.
Variable inference :
  Model -> list (list (list Qc)) -> features -> list Qc -> list (list (list Qc)).
Variables (F : Flags) (model : Model) (feat : features).
Variable global_context : list Qc.
Variable ground_truth_positions : list (list (list Qc)).

Let loop := rollout_loop Model inference F model feat global_context
              ground_truth_positions.

(** Every record of the loop is what the body computes from the window it
    was handed. *)
Lemma rollout_loop_records (steps : list nat) (cur : list (list (list Qc)))
    (r : step_record) :
  In r (fst (loop steps cur)) ->
  In (sr_step r) steps /\
  sr_ground_truth r = Axis1.select [] (sr_step r) ground_truth_positions /\
  sr_predicted r
  = Axis1.select [] 0 (inference model (sr_input r) feat (sr_context r)) /\
  sr_next_position r
  = masked_next_position (particle_type feat) (sr_ground_truth r)
                         (sr_predicted r) /\
  sr_output r
  = advance_window F (sr_input r) (sr_next_position r) (sr_ground_truth r).
Proof.
  unfold loop. revert cur; induction steps as [|s steps IH]; intros cur; simpl.
  - intros [].
  - unfold rollout_step.
    destruct (global_context_step global_context s) as [ctx|e]; simpl;
      [|intros []].
    match goal with
    | |- context [rollout_loop _ _ _ _ _ _ _ steps ?c] =>
        specialize (IH c); destruct (rollout_loop _ _ _ _ _ _ _ steps c) as [rs st]
    end.
    simpl in *. intros [<-|Hin].
    + simpl. repeat split; auto.
    + destruct (IH Hin) as (H1 & H2). split; [right; exact H1|exact H2].
Qed.

(** The first window is the one the loop starts from, and every later
    window is the one the step before left. *)
Lemma rollout_loop_chain (steps : list nat) (cur : list (list (list Qc))) :
  (forall r, nth_error (fst (loop steps cur)) 0 = Some r -> sr_input r = cur) /\
  (forall k r r',
     nth_error (fst (loop steps cur)) k = Some r ->
     nth_error (fst (loop steps cur)) (S k) = Some r' ->
     sr_input r' = sr_output r).
Proof.
  unfold loop. revert cur; induction steps as [|s steps IH]; intros cur; simpl.
  - split; intros; discriminate.
  - unfold rollout_step.
    destruct (global_context_step global_context s) as [ctx|e]; simpl;
      [|split; intros; discriminate].
    match goal with
    | |- context [rollout_loop _ _ _ _ _ _ _ steps ?c] =>
        specialize (IH c); destruct (rollout_loop _ _ _ _ _ _ _ steps c) as [rs st]
    end.
    simpl in *. destruct IH as [IH0 IHk]. split.
    + intros r [= <-]. reflexivity.
    + intros [|k] r r' Hr Hr'; simpl in *.
      * injection Hr as <-. simpl. apply IH0; exact Hr'.
      * eapply IHk; eassumption.
Qed.

(** The window length is kept by every step. *)
Lemma rollout_loop_time_steps (L : nat) (steps : list nat)
    (cur : list (list (list Qc))) (r : step_record) :
  (0 < L)%nat -> time_steps L cur ->
  In r (fst (loop steps cur)) ->
  time_steps L (sr_input r) /\ time_steps L (sr_output r).
Proof.
  intros HL. unfold loop.
  revert cur; induction steps as [|s steps IH]; intros cur Hcur; simpl.
  - intros [].
  - unfold rollout_step.
    destruct (global_context_step global_context s) as [ctx|e]; simpl;
      [|intros []].
    match goal with
    | |- context [rollout_loop _ _ _ _ _ _ _ steps ?c] =>
        specialize (IH c); destruct (rollout_loop _ _ _ _ _ _ _ steps c) as [rs st]
    end.
    simpl in *. intros [<-|Hin]; simpl.
    + split; [exact Hcur|apply advance_window_time_steps; assumption].
    + apply IH; [apply advance_window_time_steps; assumption|exact Hin].
Qed.

End RolloutFacts.

(** ** Kinematic masking of the emitted position *)

Lemma chunks_repeat_interleave {A} (xs : list A) (d : nat) :
  Torch.chunks (List.length xs) d (Torch.repeat_interleave xs d)
  = map (fun x => repeat x d) xs.
Proof.
  unfold Torch.repeat_interleave.
  induction xs as [|x xs IH]; simpl; auto.
  rewrite firstn_app, skipn_app, repeat_length, Nat.sub_diag.
  rewrite firstn_all2 by (rewrite repeat_length; lia).
  rewrite skipn_all2 by (rewrite repeat_length; lia).
  simpl. rewrite app_nil_r, IH. reflexivity.
Qed.

Lemma reshape_repeat_interleave {A} (xs : list A) (d : nat) :
  (0 < d)%nat ->
  Torch.reshape_rows (Torch.repeat_interleave xs d) d
  = map (fun x => repeat x d) xs.
Proof.
  intros Hd. unfold Torch.reshape_rows.
  rewrite repeat_interleave_length, Nat.div_mul by lia.
  apply chunks_repeat_interleave.
Qed.

Lemma where1_repeat {A} (b : bool) (g p : list A) :
  List.length g = List.length p ->
  Torch.where1 (repeat b (List.length p)) g p = if b then g else p.
Proof.
  revert g; induction p as [|y p IH]; intros [|x g]; simpl; intros H;
    try discriminate.
  - destruct b; reflexivity.
  - rewrite IH by lia. destruct b; reflexivity.
Qed.

Lemma nth_error_combine_some {A B} (xs : list A) (ys : list B) (i : nat) x y :
  nth_error xs i = Some x -> nth_error ys i = Some y ->
  nth_error (combine xs ys) i = Some (x, y).
Proof.
  revert ys i; induction xs as [|a xs IH]; intros [|b ys] [|i]; simpl;
    intros Hx Hy; try discriminate.
  - congruence.
  - apply IH; assumption.
Qed.

Lemma masked_next_position_nth (D : nat) (types : list Z)
    (gt pred : list (list Qc)) (i : nat) (t : Z) (g p : list Qc) :
  (0 < D)%nat ->
  Forall (fun q => List.length q = D) gt ->
  Forall (fun q => List.length q = D) pred ->
  nth_error types i = Some t ->
  nth_error gt i = Some g ->
  nth_error pred i = Some p ->
  nth_error (masked_next_position types gt pred) i
  = Some (if is_kinematic t then g else p).
Proof.
  intros HD Hgt Hpred Ht Hg Hp.
  assert (Hshape : Axis1.shape1 pred = D).
  { destruct pred as [|p0 pred]; [destruct i; discriminate|].
    simpl. inversion Hpred; assumption. }
  unfold masked_next_position. rewrite Hshape.
  rewrite reshape_repeat_interleave by exact HD.
  unfold Torch.where2, get_kinematic_mask.
  rewrite zip_with_nth_error, nth_error_map, nth_error_map, Ht.
  rewrite (nth_error_combine_some _ _ _ _ _ Hg Hp). simpl.
  assert (Lg : List.length g = D)
    by (eapply Forall_forall in Hgt; [exact Hgt|eapply nth_error_In; eassumption]).
  assert (Lp : List.length p = D)
    by (eapply Forall_forall in Hpred; [exact Hpred|eapply nth_error_In; eassumption]).
  rewrite <- Lp. rewrite where1_repeat by lia. reflexivity.
Qed.

Lemma initial_window_time_steps (T : nat) (pos : list (list (list Qc))) :
  time_steps T pos ->
  (0 < Axis1.shape1 (Axis1.narrow_from INPUT_SEQUENCE_LENGTH pos))%nat ->
  (INPUT_SEQUENCE_LENGTH < T)%nat /\
  time_steps INPUT_SEQUENCE_LENGTH (Axis1.narrow_to INPUT_SEQUENCE_LENGTH pos).
Proof.
  intros Hpos Hsteps. unfold time_steps in *.
  assert (HT : (INPUT_SEQUENCE_LENGTH < T)%nat).
  { unfold Axis1.shape1, Axis1.narrow_from in Hsteps.
    destruct pos as [|traj pos]; cbn [map] in Hsteps; [lia|].
    inversion Hpos as [|? ? Ht _]; subst.
    rewrite length_skipn in Hsteps. lia. }
  split; [exact HT|].
  unfold Axis1.narrow_to. apply Forall_map.
  eapply Forall_impl; [|exact Hpos].
  intros traj Ht. simpl in Ht. rewrite length_firstn, Ht. lia.
Qed.

Lemma shape1_narrow_from (T k : nat) (pos : list (list (list Qc))) :
  time_steps T pos -> pos <> [] ->
  Axis1.shape1 (Axis1.narrow_from k pos) = (T - k)%nat.
Proof.
  intros Hpos Hne. unfold Axis1.shape1, Axis1.narrow_from.
  destruct pos as [|traj pos]; [congruence|]. cbn [map].
  inversion Hpos; subst. apply length_skipn.
Qed.

Lemma rollout_records_in_range Model inference F (model : Model) feat gc r :
  In r (fst (rollout Model inference F model feat gc)) ->
  (sr_step r
   < Axis1.shape1 (Axis1.narrow_from INPUT_SEQUENCE_LENGTH (position feat)))%nat.
Proof.
  intros Hin. unfold rollout in Hin.
  apply rollout_loop_records in Hin. destruct Hin as [Hs _].
  apply in_seq in Hs. lia.
Qed.

(** The window handed to the network by a step of the rollout loop has
    exactly [INPUT_SEQUENCE_LENGTH] = 5 time steps for every particle, and so
    has the window the step leaves, whether the emitted or the ground-truth
    position was appended. *)
Theorem rollout_window_length (Model : Type)
    (inference : Model -> list (list (list Qc)) -> features -> list Qc
                 -> list (list (list Qc)))
    (F : Flags) (model : Model) (feat : features) (gc : list Qc)
    (T : nat) (r : step_record) :
  time_steps T (position feat) ->
  In r (fst (rollout Model inference F model feat gc)) ->
  INPUT_SEQUENCE_LENGTH = 5%nat /\
  sr_predicted r
  = Axis1.select [] 0 (inference model (sr_input r) feat (sr_context r)) /\
  time_steps INPUT_SEQUENCE_LENGTH (sr_input r) /\
  time_steps INPUT_SEQUENCE_LENGTH (sr_output r).
Proof.
  intros Hpos Hin. split; [reflexivity|].
  pose proof (rollout_records_in_range _ _ _ _ _ _ _ Hin) as Hrange.
  destruct (initial_window_time_steps T _ Hpos) as [_ Hinit]; [lia|].
  unfold rollout in Hin.
  split.
  - apply rollout_loop_records in Hin. tauto.
  - eapply rollout_loop_time_steps; [|exact Hinit|exact Hin].
    unfold INPUT_SEQUENCE_LENGTH; lia.
Qed.

Lemma rollout_window_length_witness :
  time_steps INPUT_SEQUENCE_LENGTH
    (sr_output (nth 1 (ex_trace (set_rollout_refine true default_flags))
                    empty_record)).
Proof.
  apply (rollout_window_length unit ex_inference
           (set_rollout_refine true default_flags) tt ex_feat ex_context 7
           (nth 1 (ex_trace (set_rollout_refine true default_flags))
                empty_record)).
  - repeat constructor.
  - right; left; reflexivity.
Defined.

(** C3.  At every rollout step the emitted position of a particle whose
    kinematic mask is true is its ground-truth position at that step, and
    the emitted position of any other particle is the position the network
    predicted for it at that step.  The network returns one row per particle
    with [D] coordinates, [D] being the dimension of the positions. *)
Theorem C3_kinematic_driven (Model : Type)
    (inference : Model -> list (list (list Qc)) -> features -> list Qc
                 -> list (list (list Qc)))
    (F : Flags) (model : Model) (feat : features) (gc : list Qc)
    (T D : nat) (r : step_record) (i : nat) (t : Z) :
  (1 < D)%nat ->
  time_steps T (position feat) ->
  coordinates D (position feat) ->
  In r (fst (rollout Model inference F model feat gc)) ->
  List.length (inference model (sr_input r) feat (sr_context r))
  = List.length (position feat) ->
  Forall (fun traj => List.length (nth 0 traj []) = D)
         (inference model (sr_input r) feat (sr_context r)) ->
  (i < List.length (position feat))%nat ->
  nth_error (particle_type feat) i = Some t ->
  nth_error (sr_next_position r) i
  = Some (if (t =? KINEMATIC_PARTICLE_ID)%Z
          then nth (sr_step r)
                   (nth i (Axis1.narrow_from INPUT_SEQUENCE_LENGTH (position feat)) [])
                   []
          else nth 0 (nth i (inference model (sr_input r) feat (sr_context r)) [])
                   []).
Proof.
  intros HD Htime Hcoord Hin Hrows Hdim Hi Ht.
  pose proof (rollout_records_in_range _ _ _ _ _ _ _ Hin) as Hrange.
  destruct (initial_window_time_steps T _ Htime) as [HT _]; [lia|].
  unfold rollout in Hin. apply rollout_loop_records in Hin.
  destruct Hin as (Hstep & Hgt & Hpred & Hnext & _).
  apply in_seq in Hstep.
  rewrite (shape1_narrow_from T INPUT_SEQUENCE_LENGTH) in Hstep;
    [|exact Htime|intros E; rewrite E in Hi; simpl in Hi; lia].
  rewrite Hnext, Hgt, Hpred.
  apply masked_next_position_nth with (D := D); try assumption; try lia.
  - unfold Axis1.select, Axis1.narrow_from. rewrite map_map.
    apply Forall_map. apply Forall_forall. intros traj Htraj.
    unfold time_steps, coordinates in *.
    rewrite Forall_forall in Htime, Hcoord.
    specialize (Htime _ Htraj). specialize (Hcoord _ Htraj).
    rewrite Forall_forall in Hcoord.
    rewrite nth_skipn. apply Hcoord. apply nth_In. lia.
  - unfold Axis1.select. apply Forall_map. apply Hdim.
  - unfold Axis1.select, Axis1.narrow_from. rewrite map_map, nth_error_map.
    destruct (nth_error (position feat) i) as [traj|] eqn:E.
    + simpl. f_equal. rewrite nth_map_lt with (d := []) by exact Hi.
      rewrite (nth_error_nth _ _ _ E). reflexivity.
    + apply nth_error_None in E. lia.
  - unfold Axis1.select. rewrite nth_error_map.
    destruct (nth_error (inference model (sr_input r) feat (sr_context r)) i)
      as [traj|] eqn:E.
    + simpl. f_equal. rewrite (nth_error_nth _ _ _ E). reflexivity.
    + apply nth_error_None in E. rewrite Hrows in E. lia.
Qed.

Lemma C3_witness :
  nth_error (sr_next_position (nth 0 (ex_trace default_flags) empty_record)) 0
  = Some (nth 0 (nth 0 (Axis1.narrow_from INPUT_SEQUENCE_LENGTH
                                          (position ex_feat)) []) []).
Proof.
  apply (C3_kinematic_driven unit ex_inference default_flags tt ex_feat
           ex_context 7 2 (nth 0 (ex_trace default_flags) empty_record)
           0%nat 0%Z).
  - lia.
  - repeat constructor.
  - repeat constructor.
  - left; reflexivity.
  - reflexivity.
  - repeat constructor.
  - simpl; lia.
  - reflexivity.
Defined.

(** ** Autoregression *)

(** With [rollout_refine] set, the second window of the example trajectory
    ends in the ground-truth position [(0, 5)] of the free particle, not in
    the position [(10, 14)] emitted for it by the first step. *)
Lemma C2_counterexample :
  ~ autoregressive (ex_trace (set_rollout_refine true default_flags)).
Proof.
  intros H.
  pose proof (H 0%nat _ _ eq_refl eq_refl) as E.
  vm_compute in E. discriminate E.
Qed.

(** C2, amended.  The rollout starts from the first [INPUT_SEQUENCE_LENGTH]
    time steps; the window of every later step is the window of the step
    before with its oldest time step dropped and one position appended: the
    position emitted by that step (the network's prediction after kinematic
    masking) when [rollout_refine] is false, the ground-truth position of
    that step when it is true.  So the rollout is autoregressive exactly
    when [rollout_refine] is false, its default. *)
Theorem C2_autoregressive_unless_refine (Model : Type)
    (inference : Model -> list (list (list Qc)) -> features -> list Qc
                 -> list (list (list Qc)))
    (F : Flags) (model : Model) (feat : features) (gc : list Qc) :
  let trace := fst (rollout Model inference F model feat gc) in
  (forall r, nth_error trace 0 = Some r ->
     sr_input r = Axis1.narrow_to INPUT_SEQUENCE_LENGTH (position feat)) /\
  (forall r, In r trace ->
     sr_next_position r
     = masked_next_position (particle_type feat) (sr_ground_truth r)
         (Axis1.select [] 0 (inference model (sr_input r) feat (sr_context r)))) /\
  (forall k r r',
     nth_error trace k = Some r -> nth_error trace (S k) = Some r' ->
     sr_input r'
     = Axis1.cat (Axis1.narrow_from 1 (sr_input r))
         (Axis1.unsqueeze (if FLAGS.rollout_refine F then sr_ground_truth r
                           else sr_next_position r))) /\
  (FLAGS.rollout_refine F = false -> autoregressive trace).
Proof.
  intros trace. unfold trace, rollout.
  match goal with
  | |- context [rollout_loop _ _ _ _ _ _ ?g ?s ?c] =>
      pose proof (rollout_loop_chain Model inference F model feat gc g s c)
        as [H0 Hk];
      pose proof (rollout_loop_records Model inference F model feat gc g s c)
        as Hrec
  end.
  assert (Hstep : forall k r r',
    nth_error (fst (rollout_loop Model inference F model feat gc
                      (Axis1.narrow_from INPUT_SEQUENCE_LENGTH (position feat))
                      (seq 0 (Axis1.shape1 (Axis1.narrow_from INPUT_SEQUENCE_LENGTH
                                                              (position feat))))
                      (Axis1.narrow_to INPUT_SEQUENCE_LENGTH (position feat)))) k
    = Some r ->
    nth_error (fst (rollout_loop Model inference F model feat gc
                      (Axis1.narrow_from INPUT_SEQUENCE_LENGTH (position feat))
                      (seq 0 (Axis1.shape1 (Axis1.narrow_from INPUT_SEQUENCE_LENGTH
                                                              (position feat))))
                      (Axis1.narrow_to INPUT_SEQUENCE_LENGTH (position feat)))) (S k)
    = Some r' ->
    sr_input r'
    = Axis1.cat (Axis1.narrow_from 1 (sr_input r))
        (Axis1.unsqueeze (if FLAGS.rollout_refine F then sr_ground_truth r
                          else sr_next_position r))).
  { intros k r r' Hr Hr'.
    rewrite (Hk k r r' Hr Hr').
    destruct (Hrec r (nth_error_In _ _ Hr)) as (_ & _ & _ & _ & Hout).
    rewrite Hout. unfold advance_window.
    destruct (FLAGS.rollout_refine F); reflexivity. }
  split; [exact H0|]. split; [|split; [exact Hstep|]].
  - intros r Hin. destruct (Hrec r Hin) as (_ & _ & Hp & Hn & _).
    rewrite Hn, Hp. reflexivity.
  - intros Hflag k r r' Hr Hr'.
    rewrite (Hstep k r r' Hr Hr'), Hflag. reflexivity.
Qed.

Lemma C2_witness : autoregressive (ex_trace default_flags).
Proof.
  apply (C2_autoregressive_unless_refine unit ex_inference default_flags tt
           ex_feat ex_context).
  reflexivity.
Defined.

(** ** The shape of the emitted positions *)

Lemma Forall_firstn_keep {A} (P : A -> Prop) (k : nat) (l : list A) :
  Forall P l -> Forall P (firstn k l).
Proof.
  intros H. revert k; induction H as [|x l Hx Hl IH]; intros [|k]; simpl;
    constructor; auto.
Qed.

Lemma Forall_skipn_keep {A} (P : A -> Prop) (k : nat) (l : list A) :
  Forall P l -> Forall P (skipn k l).
Proof.
  intros H. revert k; induction H as [|x l Hx Hl IH]; intros [|k]; simpl;
    auto.
Qed.

Lemma combine_Forall {A B} (PA : A -> Prop) (PB : B -> Prop)
    (xs : list A) (ys : list B) :
  Forall PA xs -> Forall PB ys ->
  Forall (fun ab => PA (fst ab) /\ PB (snd ab)) (combine xs ys).
Proof.
  intros Hx. revert ys; induction Hx as [|x xs Hx Hxs IH]; intros ys Hy;
    destruct Hy as [|y ys Hy Hys]; simpl; constructor; auto.
Qed.

(** With more than no coordinate per position, the kinematic masking keeps
    the shape of the ground truth and the prediction. *)
Lemma masked_next_position_shape (D N : nat) (types : list Z)
    (gt pred : list (list Qc)) :
  (0 < D)%nat -> List.length types = N ->
  positions_of D N gt -> positions_of D N pred ->
  positions_of D N (masked_next_position types gt pred).
Proof.
  intros HD Ht [Lg Hg] [Lp Hp].
  destruct pred as [|p0 pred].
  - simpl in Lp.
    destruct gt as [|g gt]; [|simpl in Lg; lia].
    destruct types as [|t types]; [|simpl in Ht; lia].
    split; [exact Lp|constructor].
  - assert (Hshape : Axis1.shape1 (p0 :: pred) = D)
      by (inversion Hp; assumption).
    unfold masked_next_position. rewrite Hshape.
    rewrite reshape_repeat_interleave by exact HD.
    unfold Torch.where2, get_kinematic_mask. rewrite map_map. split.
    + rewrite zip_with_length, length_map, length_combine. lia.
    + eapply zip_with_Forall
        with (PA := fun mr => exists b : bool, mr = repeat b D)
             (PB := fun ab : list Qc * list Qc =>
                      List.length (fst ab) = D /\ List.length (snd ab) = D).
      * intros mr [g p] [b ->] [Hg' Hp']. cbn [fst snd] in *.
        rewrite <- Hp'. rewrite where1_repeat by lia. destruct b; lia.
      * apply Forall_map, Forall_forall. intros t _. eexists; reflexivity.
      * exact (combine_Forall (fun q : list Qc => List.length q = D)
                 (fun q : list Qc => List.length q = D) _ _ Hg Hp).
Qed.

Lemma advance_window_shape (F : Flags) (D N : nat)
    (cur : list (list (list Qc))) (next gt : list (list Qc)) :
  List.length cur = N -> coordinates D cur ->
  positions_of D N next -> positions_of D N gt ->
  List.length (advance_window F cur next gt) = N /\
  coordinates D (advance_window F cur next gt).
Proof.
  intros Lc Hc Hn Hg.
  assert (H : forall x, positions_of D N x ->
            List.length (Axis1.cat (Axis1.narrow_from 1 cur) (Axis1.unsqueeze x))
            = N /\
            coordinates D (Axis1.cat (Axis1.narrow_from 1 cur)
                                     (Axis1.unsqueeze x))).
  { intros x [Lx Hx].
    unfold Axis1.cat, Axis1.narrow_from, Axis1.unsqueeze, coordinates. split.
    - rewrite zip_with_length, !length_map. lia.
    - eapply zip_with_Forall
        with (PA := Forall (fun p : list Qc => List.length p = D))
             (PB := Forall (fun p : list Qc => List.length p = D)).
      + intros a b Ha Hb. apply Forall_app; split; assumption.
      + apply Forall_map. eapply Forall_impl; [|exact Hc].
        intros traj Htraj. apply Forall_skipn_keep; exact Htraj.
      + apply Forall_map. eapply Forall_impl; [|exact Hx].
        intros q Hq. constructor; [exact Hq|constructor]. }
  unfold advance_window. destruct (FLAGS.rollout_refine F); apply H; assumption.
Qed.

Section RolloutShape.

Variable Model : Type.
Variable inference :
  Model -> list (list (list Qc)) -> features -> list Qc -> list (list (list Qc)).
Variables (F : Flags) (model : Model) (feat : features).
Variable global_context : list Qc.
Variables D N : nat.

Hypothesis HD : (0 < D)%nat.
Hypothesis Hnetwork : answers_in_shape inference D.
Hypothesis Htypes : List.length (particle_type feat) = N.

(** Every step of the loop emits one position of [D] coordinates per
    particle, the windows keeping their shape. *)
Lemma rollout_loop_shape (gt : list (list (list Qc))) (steps : list nat)
    (cur : list (list (list Qc))) (r : step_record) :
  (forall s, In s steps -> positions_of D N (Axis1.select [] s gt)) ->
  List.length cur = N -> time_steps INPUT_SEQUENCE_LENGTH cur ->
  coordinates D cur ->
  In r (fst (rollout_loop Model inference F model feat global_context gt
                          steps cur)) ->
  positions_of D N (sr_next_position r).
Proof.
  revert cur; induction steps as [|s steps IH];
    intros cur Hgt Lc Ht Hc; simpl.
  - intros [].
  - unfold rollout_step.
    destruct (global_context_step global_context s) as [ctx|e]; simpl;
      [|intros []].
    assert (Hpred : positions_of D N
                      (Axis1.select [] 0 (inference model cur feat ctx))).
    { destruct (Hnetwork model cur feat ctx Ht Hc) as [Ln Hn].
      unfold Axis1.select. split; [rewrite length_map; lia|].
      apply Forall_map. exact Hn. }
    assert (Hnext : positions_of D N
              (masked_next_position (particle_type feat)
                 (Axis1.select [] s gt)
                 (Axis1.select [] 0 (inference model cur feat ctx)))).
    { apply masked_next_position_shape; auto. apply Hgt. left; reflexivity. }
    match goal with
    | |- context [rollout_loop _ _ _ _ _ _ _ steps ?c] =>
        specialize (IH c); destruct (rollout_loop _ _ _ _ _ _ _ steps c) as [rs st]
    end.
    simpl in *. intros [<-|Hin]; simpl; [exact Hnext|].
    destruct (advance_window_shape F D N cur _ (Axis1.select [] s gt) Lc Hc Hnext)
      as [Lc' Hc']; [apply Hgt; left; reflexivity|].
    apply IH; auto.
    apply advance_window_time_steps; [unfold INPUT_SEQUENCE_LENGTH; lia|exact Ht].
Qed.

(** On a ready trajectory in [D] dimensions every emitted position has [D]
    coordinates for each particle. *)
Lemma rollout_shape (r : step_record) :
  rollout_ready_in D feat -> N = List.length (position feat) ->
  In r (fst (rollout Model inference F model feat global_context)) ->
  positions_of D N (sr_next_position r).
Proof.
  intros ((T & gc & Htime & Hne & HT & Hctx & Hgc) & Hcoord & _) HN.
  unfold rollout.
  rewrite (shape1_narrow_from T INPUT_SEQUENCE_LENGTH) by assumption.
  apply rollout_loop_shape.
  - intros s Hs. apply in_seq in Hs.
    unfold Axis1.select, Axis1.narrow_from. rewrite map_map. split.
    + rewrite length_map. symmetry; exact HN.
    + apply Forall_map. apply Forall_forall. intros traj Htraj.
      unfold time_steps, coordinates in *.
      rewrite Forall_forall in Htime, Hcoord.
      specialize (Htime _ Htraj). specialize (Hcoord _ Htraj).
      rewrite Forall_forall in Hcoord.
      rewrite nth_skipn. apply Hcoord. apply nth_In. lia.
  - unfold Axis1.narrow_to. rewrite length_map. symmetry; exact HN.
  - apply (initial_window_time_steps T); [exact Htime|].
    rewrite (shape1_narrow_from T) by assumption. lia.
  - unfold Axis1.narrow_to, coordinates. apply Forall_map.
    eapply Forall_impl; [|exact Hcoord].
    intros traj Htraj. apply Forall_firstn_keep; exact Htraj.
Qed.

End RolloutShape.

(** ** The files written by [Test] *)

Lemma global_context_step_ok (gc : list Qc) (s : nat) :
  (s + INPUT_SEQUENCE_LENGTH < List.length gc)%nat ->
  exists ctx, global_context_step gc s = Ok ctx.
Proof.
  intros H. unfold global_context_step.
  rewrite length_firstn.
  destruct (Z.ltb_spec (Z.of_nat (List.length gc)
                        - Z.of_nat (Nat.min (s + INPUT_SEQUENCE_LENGTH)
                                            (List.length gc)) - 1) 0) as [Hneg|_].
  - lia.
  - eexists; reflexivity.
Qed.

Lemma rollout_loop_complete Model inference F (model : Model) feat gc gt
    (steps : list nat) (cur : list (list (list Qc))) :
  (forall s, In s steps -> (s + INPUT_SEQUENCE_LENGTH < List.length gc)%nat) ->
  snd (rollout_loop Model inference F model feat gc gt steps cur) = None /\
  map sr_step (fst (rollout_loop Model inference F model feat gc gt steps cur))
  = steps.
Proof.
  revert cur; induction steps as [|s steps IH]; intros cur Hs; simpl.
  - split; reflexivity.
  - unfold rollout_step.
    destruct (global_context_step_ok gc s) as [ctx Hctx];
      [apply Hs; left; reflexivity|].
    rewrite Hctx. simpl.
    match goal with
    | |- context [rollout_loop _ _ _ _ _ _ _ steps ?c] =>
        specialize (IH c); destruct (rollout_loop _ _ _ _ _ _ _ steps c) as [rs st]
    end.
    simpl in *. destruct IH as [IH1 IH2]; [intros; apply Hs; right; assumption|].
    split; [exact IH1|]. rewrite IH2. reflexivity.
Qed.

Lemma rollout_complete Model inference F (model : Model) feat T gc :
  time_steps T (position feat) -> position feat <> [] ->
  (INPUT_SEQUENCE_LENGTH < T)%nat -> (T <= List.length gc)%nat ->
  exists records,
    rollout Model inference F model feat gc = (records, None) /\
    map sr_step records = seq 0 (T - INPUT_SEQUENCE_LENGTH) /\
    records <> [].
Proof.
  intros Htime Hne HT Hgc. unfold rollout.
  rewrite (shape1_narrow_from T INPUT_SEQUENCE_LENGTH) by assumption.
  match goal with
  | |- context [rollout_loop _ _ _ _ _ _ ?g ?s ?c] =>
      destruct (rollout_loop_complete Model inference F model feat gc g s c)
        as [Hnone Hsteps];
      [intros k Hk; apply in_seq in Hk; lia|];
      destruct (rollout_loop Model inference F model feat gc g s c)
        as [records st]
  end.
  simpl in *. subst st. exists records. split; [reflexivity|].
  split; [exact Hsteps|].
  intros ->. simpl in Hsteps.
  destruct (T - INPUT_SEQUENCE_LENGTH)%nat eqn:E; [lia|discriminate].
Qed.

Section TestFacts.

Variable Metadata : Type.
Variable Model : Type.
Variable load_state_dict : Model -> string -> Model.
Variable inference :
  Model -> list (list (list Qc)) -> features -> list Qc -> list (list (list Qc)).
Variable cuda_available : bool.

Let example := Test_example Metadata Model load_state_dict inference cuda_available.
Let loop := Test_loop Metadata Model load_state_dict inference cuda_available.

Lemma stack_nonempty {A} (xs : list A) : xs <> [] -> stack xs = Ok xs.
Proof. destruct xs; [congruence|reflexivity]. Qed.

Lemma removelast_nonempty {A} (l : list A) :
  (2 <= List.length l)%nat -> removelast l <> [].
Proof.
  destruct l as [|a [|b l]]; simpl; intros H; try lia; discriminate.
Qed.

(** With a context of two rows or more the first example loads the
    checkpoint after one call of the network on the first window; later
    examples find the checkpoint loaded. *)
Lemma load_model_ready (F : Flags) (st : test_state Metadata Model)
    (feat : features) (gc : list Qc) :
  step_context feat = Some gc -> (2 <= List.length gc)%nat ->
  exists st1,
    load_model Metadata Model load_state_dict inference cuda_available F st feat
    = Ok st1 /\
    loaded _ _ st1 = true /\
    example_index _ _ st1 = example_index _ _ st /\
    files _ _ st1 = files _ _ st /\
    inference_inputs _ _ st1
    = inference_inputs _ _ st
      ++ (if loaded _ _ st then nil
          else Axis1.narrow_to INPUT_SEQUENCE_LENGTH (position feat) :: nil).
Proof.
  intros Hctx Hgc. unfold load_model.
  destruct (loaded _ _ st) eqn:Hloaded.
  - exists st. rewrite app_nil_r. repeat split; assumption.
  - rewrite Hctx.
    destruct (removelast gc) as [|c cs] eqn:E;
      [exfalso; exact (removelast_nonempty gc Hgc E)|].
    eexists. repeat split.
Qed.

(** A ready trajectory gets one file, named after the split and the index
    of the trajectory, holding the six entries. *)
Lemma Test_example_artifact (F : Flags) (metadata : Metadata)
    (st : test_state Metadata Model) (feat : features) (out : string) :
  FLAGS.output_path F = Some out -> out <> ""%string ->
  rollout_ready feat ->
  exists st' gc records,
    example F metadata st feat = (st', None) /\
    example_index _ _ st' = S (example_index _ _ st) /\
    loaded _ _ st' = true /\
    step_context feat = Some gc /\
    rollout Model inference F (test_model _ _ st') feat gc = (records, None) /\
    List.length records
    = (Axis1.shape1 (position feat) - INPUT_SEQUENCE_LENGTH)%nat /\
    files _ _ st'
    = files _ _ st
      ++ (rollout_filename out (FLAGS.eval_split F) (example_index _ _ st),
          artifact metadata feat gc records) :: nil.
Proof.
  intros Hout Hnonempty (T & gc & Htime & Hne & HT & Hctx & Hgc).
  assert (Hshape : Axis1.shape1 (position feat) = T).
  { destruct (position feat) as [|traj pos]; [congruence|].
    inversion Htime; assumption. }
  destruct (load_model_ready F st feat gc Hctx)
    as (st1 & Hload & Hloaded & Hidx & Hfiles & _);
    [unfold INPUT_SEQUENCE_LENGTH in HT; lia|].
  unfold example, Test_example. rewrite Hload, Hctx.
  destruct (rollout_complete Model inference F (test_model _ _ st1) feat T gc)
    as (records & Hroll & Hsteps & Hrec); try assumption.
  rewrite Hroll.
  rewrite stack_nonempty by (destruct records; [congruence|discriminate]).
  rewrite Hout.
  apply String.eqb_neq in Hnonempty. rewrite Hnonempty.
  eexists _, gc, records. cbn [example_index loaded test_model files].
  rewrite Hidx, Hfiles.
  repeat split; try assumption; try reflexivity.
  rewrite <- (length_map sr_step), Hsteps, length_seq, Hshape. reflexivity.
Qed.

(** A dataset of ready trajectories is processed to its end, and one file is
    written per trajectory, numbered in dataset order; the positions in it
    have the coordinates of the trajectory. *)
Lemma Test_loop_files (F : Flags) (metadata : Metadata) (ds : dataset)
    (st : test_state Metadata Model) (out : string) (D : nat) :
  FLAGS.output_path F = Some out -> out <> ""%string ->
  (0 < D)%nat -> answers_in_shape inference D ->
  Forall (fun e => rollout_ready_in D (fst e)) ds ->
  exists st' new,
    loop F metadata st ds = (st', None) /\
    files _ _ st' = files _ _ st ++ new /\
    map fst new
    = map (fun k => rollout_filename out (FLAGS.eval_split F)
                      (example_index _ _ st + k))
          (seq 0 (List.length ds)) /\
    Forall (fun f => map fst (snd f) = rollout_keys) new /\
    Forall (fun f => exists preds,
              lookup "predicted_rollout" (snd f) = Some (JTensor3 preds) /\
              coordinates D preds) new.
Proof.
  intros Hout Hnonempty HD Hnetwork Hds. revert st.
  induction Hds as [|[feat targ] ds Hready Hds IH]; intros st.
  - exists st, nil. simpl. rewrite app_nil_r. repeat split; constructor.
  - cbn [fst] in Hready.
    destruct (Test_example_artifact F metadata st feat out Hout Hnonempty
                (proj1 Hready))
      as (st1 & gc & records & Hex & Hidx & _ & _ & Hroll & _ & Hfiles).
    destruct (IH st1) as (st' & new & Hloop & Hnew & Hnames & Hkeys & Hpreds).
    exists st', ((rollout_filename out (FLAGS.eval_split F)
                    (example_index _ _ st),
                  artifact metadata feat gc records) :: new).
    unfold loop in *. cbn [Test_loop].
    unfold example in Hex. rewrite Hex. split; [exact Hloop|].
    split; [rewrite Hnew, Hfiles, <- app_assoc; reflexivity|].
    split; [|split].
    + cbn [map fst List.length seq]. rewrite Nat.add_0_r. f_equal.
      rewrite Hnames, <- seq_shift, map_map, Hidx.
      apply map_ext. intros k. f_equal. lia.
    + constructor; [reflexivity|exact Hkeys].
    + constructor; [|exact Hpreds].
      exists (map sr_next_position records). split; [reflexivity|].
      unfold coordinates. apply Forall_map, Forall_forall. intros r Hr.
      refine (proj2 (rollout_shape Model inference F _ feat gc D
                       (List.length (position feat)) HD Hnetwork
                       (proj2 (proj2 Hready)) r Hready eq_refl _)).
      rewrite Hroll. exact Hr.
Qed.


(** On a ready trajectory every call of the network, the one before the
    checkpoint is loaded included, is handed [INPUT_SEQUENCE_LENGTH] time
    steps, however the example ends. *)
Lemma Test_example_windows (F : Flags) (metadata : Metadata)
    (st : test_state Metadata Model) (feat : features) :
  rollout_ready feat ->
  Forall (time_steps INPUT_SEQUENCE_LENGTH) (inference_inputs _ _ st) ->
  Forall (time_steps INPUT_SEQUENCE_LENGTH)
         (inference_inputs _ _ (fst (example F metadata st feat))).
Proof.
  intros (T & gc & Htime & Hne & HT & Hctx & Hgc) Hst.
  assert (Hinit : time_steps INPUT_SEQUENCE_LENGTH
                    (Axis1.narrow_to INPUT_SEQUENCE_LENGTH (position feat))).
  { apply (initial_window_time_steps T); [exact Htime|].
    rewrite (shape1_narrow_from T) by assumption. lia. }
  destruct (load_model_ready F st feat gc Hctx)
    as (st1 & Hload & _ & _ & _ & Hin);
    [unfold INPUT_SEQUENCE_LENGTH in HT; lia|].
  assert (Hst1 : Forall (time_steps INPUT_SEQUENCE_LENGTH)
                        (inference_inputs _ _ st1)).
  { rewrite Hin. apply Forall_app. split; [exact Hst|].
    destruct (loaded _ _ st); constructor; [exact Hinit|constructor]. }
  unfold example, Test_example. rewrite Hload, Hctx.
  destruct (rollout Model inference F (test_model _ _ st1) feat gc)
    as [records raised] eqn:Hroll.
  assert (Hsteps : Forall (time_steps INPUT_SEQUENCE_LENGTH)
                          (inference_inputs _ _ st1 ++ map sr_input records)).
  { apply Forall_app. split; [exact Hst1|].
    apply Forall_map, Forall_forall. intros r Hr. unfold rollout in Hroll.
    eapply (rollout_loop_time_steps Model inference F (test_model _ _ st1)
              feat gc);
      [|exact Hinit|rewrite Hroll; exact Hr].
    unfold INPUT_SEQUENCE_LENGTH; lia. }
  destruct raised; [exact Hsteps|].
  destruct (stack _) as [updated|e]; [|exact Hsteps].
  destruct (FLAGS.output_path F) as [out|]; [|exact Hsteps].
  destruct (String.eqb out ""); exact Hsteps.
Qed.

Lemma Test_loop_windows (F : Flags) (metadata : Metadata) (ds : dataset)
    (st : test_state Metadata Model) :
  Forall (fun e => rollout_ready (fst e)) ds ->
  Forall (time_steps INPUT_SEQUENCE_LENGTH) (inference_inputs _ _ st) ->
  Forall (time_steps INPUT_SEQUENCE_LENGTH)
         (inference_inputs _ _ (fst (loop F metadata st ds))).
Proof.
  intros Hds. revert st.
  induction Hds as [|[feat targ] ds Hready Hds IH]; intros st Hst;
    unfold loop in *; cbn [Test_loop]; auto.
  pose proof (Test_example_windows F metadata st feat Hready Hst) as Hex.
  unfold example in Hex.
  destruct (Test_example _ _ _ _ _ F metadata st feat) as [st1 [e|]];
    cbn [fst] in *; [exact Hex|].
  apply IH. exact Hex.
Qed.

(** [Test] never reads the mode flag. *)
Lemma rollout_loop_set_mode (m : mode_flag) (F : Flags)
    (model : Model) feat gc gt steps cur :
  rollout_loop Model inference (set_mode m F) model feat gc gt steps cur
  = rollout_loop Model inference F model feat gc gt steps cur.
Proof.
  revert cur; induction steps as [|s steps IH]; intros cur; simpl; auto.
  change (rollout_step Model inference (set_mode m F) model feat gc gt cur s)
    with (rollout_step Model inference F model feat gc gt cur s).
  destruct (rollout_step Model inference F model feat gc gt cur s); auto.
  rewrite IH. reflexivity.
Qed.

Lemma Test_example_set_mode (m : mode_flag) (F : Flags) (metadata : Metadata)
    (st : test_state Metadata Model) (feat : features) :
  example (set_mode m F) metadata st feat = example F metadata st feat.
Proof.
  unfold example, Test_example.
  change (load_model Metadata Model load_state_dict inference cuda_available
            (set_mode m F) st feat)
    with (load_model Metadata Model load_state_dict inference cuda_available
            F st feat).
  destruct (load_model _ _ _ _ _ F st feat) as [st0|e]; auto.
  destruct (step_context feat) as [gc|]; auto.
  unfold rollout. rewrite rollout_loop_set_mode. reflexivity.
Qed.

Lemma Test_loop_set_mode (m : mode_flag) (F : Flags) (metadata : Metadata)
    (ds : dataset) (st : test_state Metadata Model) :
  loop (set_mode m F) metadata st ds = loop F metadata st ds.
Proof.
  unfold loop. revert st; induction ds as [|[feat targ] ds IH]; intros st;
    simpl; auto.
  pose proof (Test_example_set_mode m F metadata st feat) as E.
  unfold example in E. rewrite E.
  destruct (Test_example _ _ _ _ _ F metadata st feat) as [st' [e|]]; auto.
Qed.

End TestFacts.

(** ** Dispatch on the mode and the batch-size assertion *)

(** [prepare_inputs] goes through on a dataset of windows that all carry a
    context, and fails on the first window without one. *)
Lemma map_prepare_inputs (P : nat) (windows : list raw_example) :
  (Forall (fun w => raw_step_context w <> None) windows ->
   exists elements,
     map_result (prepare_inputs P) windows = Ok elements /\
     List.length elements = List.length windows) /\
  (Exists (fun w => raw_step_context w = None) windows ->
   map_result (prepare_inputs P) windows = Raise KeyError).
Proof.
  induction windows as [|w windows [IHok IHfail]].
  - split; [intros _; exists nil; split; reflexivity|].
    intros H. inversion H.
  - split.
    + intros H. inversion H as [|? ? Hw Hrest]; subst.
      destruct (IHok Hrest) as (elements & Heq & Hlen).
      cbn [map_result]. unfold prepare_inputs at 1.
      destruct (raw_step_context w) as [c|]; [|congruence].
      cbn [bind]. rewrite Heq. cbn [bind].
      eexists. split; [reflexivity|]. cbn [List.length]. rewrite Hlen.
      reflexivity.
    + intros H. cbn [map_result]. unfold prepare_inputs at 1.
      destruct (raw_step_context w) as [c|] eqn:Hw; [|reflexivity].
      cbn [bind]. inversion H as [? ? Hhere|? ? Hlater]; subst;
        [congruence|].
      rewrite (IHfail Hlater). reflexivity.
Qed.

(** A dataset that is not empty has a first batch. *)
Lemma window_nonempty {A} (size : nat) (ds : list A) :
  (0 < size)%nat -> ds <> [] -> window size ds <> [].
Proof.
  intros Hsize Hds. unfold window.
  assert (Hrows : (0 < (List.length ds + size - 1) / size)%nat).
  { apply Nat.div_str_pos. destruct ds; [congruence|]. simpl. lia. }
  destruct ((List.length ds + size - 1) / size)%nat; [lia|discriminate].
Qed.

Section MainFacts.

Variable Metadata : Type.
Variable _read_metadata : string -> Metadata.
Variable read_records : string -> Metadata -> list raw_example.
Variable split_trajectory : nat -> nat -> raw_example -> list raw_example.
Variable Model : Type.
Variable LearnedSimulator : Metadata -> Qc -> Model.
Variable load_state_dict : Model -> string -> Model.
Variable inference :
  Model -> list (list (list Qc)) -> features -> list Qc -> list (list (list Qc)).
Variable cuda_available : bool.
Variable Optimizer : Type.
Variable Adam : Model -> Optimizer.
Variable literal_eval : string -> option (list string).
Variable apex_available : bool.
Variable train_forward :
  Model -> nat -> features -> targets -> list (list Qc) * list (list Qc).
Variable optimizer_step :
  Optimizer -> Model -> nat -> features -> targets -> Optimizer * Model.
Variable test_metrics : Model -> features -> targets -> Qc * Qc.
Variable round5 : Qc -> Qc.
Variable weighted_square_error : list (list Qc) -> list (list Qc) -> Qc.
Variable cosine_similarity : list Qc -> list Qc -> Qc.
Variable random_choices : nat -> nat -> list nat.

Let the_Test :=
  Test Metadata _read_metadata read_records split_trajectory Model
       LearnedSimulator load_state_dict inference cuda_available.
Let the_Train :=
  Train Metadata _read_metadata read_records split_trajectory Model
        LearnedSimulator cuda_available Optimizer Adam literal_eval
        apex_available train_forward optimizer_step test_metrics round5
        weighted_square_error cosine_similarity random_choices.
Let the_main :=
  main Metadata _read_metadata read_records split_trajectory Model
       LearnedSimulator load_state_dict inference cuda_available Optimizer
       Adam literal_eval apex_available train_forward optimizer_step
       test_metrics round5 weighted_square_error cosine_similarity
       random_choices.
Let the_GraphDataset :=
  GraphDataset Metadata _read_metadata read_records split_trajectory.

Lemma Test_set_mode (m : mode_flag) (F : Flags) :
  the_Test (set_mode m F) = the_Test F.
Proof.
  unfold the_Test, Test.
  change (GraphDataset Metadata _read_metadata read_records split_trajectory
            (set_mode m F) "rollout" (split_name (FLAGS.eval_split (set_mode m F))))
    with (GraphDataset Metadata _read_metadata read_records split_trajectory
            F "rollout" (split_name (FLAGS.eval_split F))).
  destruct (GraphDataset _ _ _ _ F _ _) as [ds|e]; [|reflexivity].
  apply Test_loop_set_mode.
Qed.

Lemma main_dispatch (F : Flags) :
  the_main F = match FLAGS.mode F with
               | ModeTrain => RanTrain _ _ _ (the_Train F)
               | _ => RanTest _ _ _ (the_Test F)
               end.
Proof.
  unfold the_main, main. destruct (FLAGS.mode F); reflexivity.
Qed.

(** C10.  [main] runs [Train] for the mode "train" and [Test] for any other
    mode, and [Test] never reads the mode: runs with the modes "eval" and
    "eval_rollout" and otherwise equal flags are the same run of [Test], with
    the same files, the same calls of the network and the same ending. *)
Theorem C10_eval_modes_identical (F : Flags) :
  (forall m, the_main (set_mode m F)
             = match m with
               | ModeTrain => RanTrain _ _ _ (the_Train (set_mode m F))
               | _ => RanTest _ _ _ (the_Test (set_mode m F))
               end) /\
  the_main (set_mode ModeEval F) = the_main (set_mode ModeEvalRollout F) /\
  the_main (set_mode ModeEval F) = RanTest _ _ _ (the_Test F).
Proof.
  split; [|split].
  - intros m. rewrite main_dispatch. destruct m; reflexivity.
  - rewrite !main_dispatch. cbn [FLAGS.mode set_mode].
    rewrite !Test_set_mode. reflexivity.
  - rewrite main_dispatch. cbn [FLAGS.mode set_mode].
    rewrite Test_set_mode. reflexivity.
Qed.

(** C9.  In the modes "eval" and "eval_rollout" the dataset is built in mode
    "rollout", whose input function asserts [batch_size == 1]: with any other
    batch size the run ends in that assertion before an example is read, no
    call of the network made and no file written; with batch size 1 the
    input function returns the dataset and the assertion does not fire. *)
Theorem C9_rollout_needs_batch_size_one (F : Flags) :
  FLAGS.mode F = ModeEval \/ FLAGS.mode F = ModeEvalRollout ->
  (FLAGS.batch_size F <> 1%Z ->
   the_GraphDataset F "rollout" (split_name (FLAGS.eval_split F))
   = Raise AssertionError /\
   exists st,
     the_main F = RanTest _ _ _ (st, Some AssertionError) /\
     files _ _ st = [] /\ inference_inputs _ _ st = [] /\
     example_index _ _ st = 0%nat /\ loaded _ _ st = false) /\
  (FLAGS.batch_size F = 1%Z ->
   exists ds,
     the_GraphDataset F "rollout" (split_name (FLAGS.eval_split F)) = Ok ds /\
     the_main F
     = RanTest _ _ _
         (Test_loop Metadata Model load_state_dict inference cuda_available F
            (_read_metadata (FLAGS.data_path F))
            (Test_init Metadata Model LearnedSimulator F
               (_read_metadata (FLAGS.data_path F))) ds)).
Proof.
  intros Hmode.
  assert (Hmain : the_main F = RanTest _ _ _ (the_Test F)).
  { rewrite main_dispatch. destruct Hmode as [-> | ->]; reflexivity. }
  unfold the_GraphDataset, GraphDataset, get_input_fn.
  change (startswith "rollout" "one_step") with false.
  change (String.eqb "rollout" "rollout") with true. cbv iota.
  split; intros Hb.
  - apply Z.eqb_neq in Hb.
    split; [rewrite Hb; reflexivity|].
    eexists. split.
    + rewrite Hmain. unfold the_Test, Test, GraphDataset, get_input_fn.
      change (startswith "rollout" "one_step") with false.
      change (String.eqb "rollout" "rollout") with true. cbv iota.
      rewrite Hb. reflexivity.
    + repeat split.
  - eexists. split; [rewrite Hb; reflexivity|].
    rewrite Hmain. unfold the_Test, Test, GraphDataset, get_input_fn.
    change (startswith "rollout" "one_step") with false.
    change (String.eqb "rollout" "rollout") with true. cbv iota.
    rewrite Hb. reflexivity.
Qed.

(** The constructor of the rollout dataset always comes to an end. *)
Lemma GraphDataset_rollout_ends (F : Flags) (split : string) :
  GraphDataset_ends Metadata _read_metadata read_records split_trajectory
                    F "rollout" split = true.
Proof.
  unfold GraphDataset_ends, get_input_fn.
  change (startswith "rollout" "one_step") with false.
  change (String.eqb "rollout" "rollout") with true. cbv iota.
  destruct (FLAGS.batch_size F =? 1)%Z; reflexivity.
Qed.

(** What the mode "one_step_train" hands back is a repeated dataset. *)
Lemma get_input_fn_train_repeated (data_path : string) (batch_size : Z)
    (split : string) (d : tf_dataset) :
  get_input_fn Metadata _read_metadata read_records split_trajectory
               data_path batch_size "one_step_train" split = Ok d ->
  repeated d = true.
Proof.
  unfold get_input_fn.
  change (startswith "one_step_train" "one_step") with true. cbv iota.
  destruct (map_result _ _) as [elements_|e]; cbn [bind]; [|discriminate].
  destruct (batch_size <? 1)%Z; [discriminate|].
  intros [= <-]. reflexivity.
Qed.

(** A training dataset whose constructor comes to an end has no element. *)
Lemma GraphDataset_train_empty (F : Flags) (split : string) (ds : dataset) :
  GraphDataset_ends Metadata _read_metadata read_records split_trajectory
                    F "one_step_train" split = true ->
  the_GraphDataset F "one_step_train" split = Ok ds ->
  ds = [].
Proof.
  unfold the_GraphDataset, GraphDataset, GraphDataset_ends.
  destruct (get_input_fn _ _ _ _ _ _ _ _) as [d|e] eqn:Hinput;
    cbn [bind]; [|discriminate].
  apply get_input_fn_train_repeated in Hinput.
  unfold ends. rewrite Hinput. cbn [negb orb].
  intros Hends [= <-]. destruct (elements d); [reflexivity|discriminate].
Qed.

(** [Train] never trains.  A call of [Train] that comes to an end has
    handed no element to the loop: the state is the initial one, no optimiser
    was created and no step made.  On a training split with at least one
    window, every window with a context, and a batch size of at least 1,
    [Train] does not come to an end at all: the dataset is repeated without
    end and [len(list(self.dataset))] walks it for ever.  A window without
    context ends the run in [KeyError], a batch size below 1 in the
    exception of [dataset.window]. *)
Theorem Train_processes_no_element (F : Flags) :
  let init :=
    Train_init Metadata Model LearnedSimulator Optimizer F
               (_read_metadata (FLAGS.data_path F)) in
  let windows :=
    flat_map (split_trajectory INPUT_SEQUENCE_LENGTH PREDICT_LENGTH)
      (read_records (path_join (FLAGS.data_path F) "train.tfrecord")
                    (_read_metadata (FLAGS.data_path F))) in
  (forall r, the_Train F = Some r ->
     fst r = init /\ optimizer _ _ (fst r) = None /\
     elements_seen _ _ (fst r) = 0%nat /\ optimizer_steps _ _ (fst r) = 0%nat) /\
  (windows <> [] ->
   Forall (fun w => raw_step_context w <> None) windows ->
   (1 <= FLAGS.batch_size F)%Z ->
   the_Train F = None) /\
  (Exists (fun w => raw_step_context w = None) windows ->
   the_Train F = Some (init, Some KeyError)) /\
  (Forall (fun w => raw_step_context w <> None) windows ->
   (FLAGS.batch_size F < 1)%Z ->
   the_Train F = Some (init, Some InvalidArgumentError)).
Proof.
  intros init windows.
  assert (Hinput : get_input_fn Metadata _read_metadata read_records
                     split_trajectory (FLAGS.data_path F) (FLAGS.batch_size F)
                     "one_step_train" "train"
                   = (ds <- map_result (prepare_inputs PREDICT_LENGTH) windows ;;
                      if (FLAGS.batch_size F <? 1)%Z
                      then Raise InvalidArgumentError
                      else Ok {| elements :=
                                   batch_concat_elements ds
                                     (Z.to_nat (FLAGS.batch_size F));
                                 repeated := true |})).
  { reflexivity. }
  split; [|split; [|split]].
  - intros r. unfold the_Train, Train. fold init.
    destruct (GraphDataset_ends _ _ _ _ F "one_step_train" "train") eqn:Hends;
      [|discriminate].
    pose proof (GraphDataset_train_empty F "train") as Hempty.
    unfold the_GraphDataset in Hempty.
    destruct (GraphDataset _ _ _ _ F "one_step_train" "train") as [ds|e].
    + rewrite (Hempty ds Hends eq_refl).
      destruct (GraphDataset_ends _ _ _ _ F "one_step_train" "test");
        [|discriminate].
      destruct (GraphDataset _ _ _ _ F "one_step_train" "test") as [tds|e];
        intros [= <-]; repeat split.
    + intros [= <-]. repeat split.
  - intros Hne Hctx Hb.
    destruct (proj1 (map_prepare_inputs PREDICT_LENGTH windows) Hctx)
      as (es & Hes & Hlen).
    unfold the_Train, Train, GraphDataset_ends. rewrite Hinput, Hes.
    cbn [bind]. apply Z.ltb_ge in Hb. rewrite Hb.
    unfold ends. cbn [repeated elements negb orb].
    assert (Hbatches : batch_concat_elements es (Z.to_nat (FLAGS.batch_size F))
                       <> []).
    { unfold batch_concat_elements. intros Hnil.
      apply map_eq_nil in Hnil. revert Hnil. apply window_nonempty; [lia|].
      destruct es; [|discriminate].
      destruct windows; [congruence|discriminate Hlen]. }
    destruct (batch_concat_elements _ _); [congruence|reflexivity].
  - intros Hmissing.
    unfold the_Train, Train, GraphDataset_ends, GraphDataset. fold init.
    rewrite Hinput.
    rewrite (proj2 (map_prepare_inputs PREDICT_LENGTH windows) Hmissing).
    reflexivity.
  - intros Hctx Hb.
    destruct (proj1 (map_prepare_inputs PREDICT_LENGTH windows) Hctx)
      as (es & Hes & Hlen).
    unfold the_Train, Train, GraphDataset_ends, GraphDataset. fold init.
    rewrite Hinput, Hes. cbn [bind].
    apply Z.ltb_lt in Hb. rewrite Hb. reflexivity.
Qed.

End MainFacts.

(** ** The training loop *)

Section TrainFacts.

Variable Model : Type.
Variable cuda_available : bool.
Variable Optimizer : Type.
Variable Adam : Model -> Optimizer.
Variable literal_eval : string -> option (list string).
Variable apex_available : bool.
Variable train_forward :
  Model -> nat -> features -> targets -> list (list Qc) * list (list Qc).
Variable optimizer_step :
  Optimizer -> Model -> nat -> features -> targets -> Optimizer * Model.
Variable test_metrics : Model -> features -> targets -> Qc * Qc.
Variable round5 : Qc -> Qc.
Variable weighted_square_error : list (list Qc) -> list (list Qc) -> Qc.
Variable cosine_similarity : list Qc -> list Qc -> Qc.
Variable random_choices : nat -> nat -> list nat.

Let body :=
  Train_body Model cuda_available Optimizer Adam literal_eval apex_available
    train_forward optimizer_step test_metrics round5 weighted_square_error
    cosine_similarity random_choices.
Let loop :=
  Train_loop Model cuda_available Optimizer Adam literal_eval apex_available
    train_forward optimizer_step test_metrics round5 weighted_square_error
    cosine_similarity random_choices.

Let state : Type := train_state Model Optimizer.


(** The first element: the optimiser is set up and nothing else happens. *)
Lemma Train_body_first (F : Flags) (testDataset : dataset) (st : state)
    (idx : nat) (feat : features) (targ : targets) :
  optimizer _ _ st = None ->
  let r := body F testDataset st idx feat targ in
  train_model _ _ (fst r) = train_model _ _ st /\
  optimizer_steps _ _ (fst r) = optimizer_steps _ _ st /\
  step _ _ (fst r) = step _ _ st /\
  elements_seen _ _ (fst r) = S (elements_seen _ _ st) /\
  (snd r = None ->
   optimizer _ _ (fst r) = Some (Adam (train_model _ _ st)) /\
   train_device _ _ (fst r)
   = (if cuda_available then FLAGS.device F else "cpu"%string)).
Proof.
  intros Hopt. unfold body, Train_body. cbn [optimizer]. rewrite Hopt.
  unfold setup_optimizer. cbn [train_model].
  destruct (literal_eval _); cbn.
  - destruct (FLAGS.fp16 F && negb apex_available); cbn;
      repeat split; auto; discriminate.
  - repeat split; auto; discriminate.
Qed.










End TrainFacts.


Lemma C9_witness :
  exists st,
    ex_main (set_batch_size 2 (eval_flags "data"))
    = RanTest _ _ _ (st, Some AssertionError) /\
    files _ _ st = [] /\ inference_inputs _ _ st = [] /\
    example_index _ _ st = 0%nat /\ loaded _ _ st = false.
Proof.
  apply (C9_rollout_needs_batch_size_one unit (fun _ => tt) ex_records
           ex_split_trajectory
           unit (fun _ _ => tt) (fun m _ => m) ex_inference false
           unit (fun _ => tt) ex_literal_eval false
           (fun _ _ _ _ => (ex_pred, ex_target)) (fun o m _ _ _ => (o, m))
           (fun _ _ _ => (qz 0, qz 0)) (fun q => q) ex_wse ex_cos
           (fun _ _ => nil)
           (set_batch_size 2 (eval_flags "data")) (or_introl eq_refl)).
  discriminate.
Defined.

Lemma Train_processes_no_element_witness : ex_Train train_flags = None.
Proof.
  refine (proj1 (proj2
            (Train_processes_no_element unit (fun _ => tt) ex_records
               ex_split_trajectory unit (fun _ _ => tt) false
               unit (fun _ => tt) ex_literal_eval false
               (fun _ _ _ _ => (ex_pred, ex_target)) (fun o m _ _ _ => (o, m))
               (fun _ _ _ => (qz 0, qz 0)) (fun q => q) ex_wse ex_cos
               (fun _ _ => nil) train_flags)) _ _ _).
  - discriminate.
  - repeat constructor; discriminate.
  - simpl; lia.
Defined.

Lemma C5_witness :
  nth 5 (decay_fators_3 2) 0 = Qcpower LOSS_DECAY_FACTOR 1.
Proof.
  apply (proj1 (proj2 (proj2 (proj2 (C5_decay_weighting 2)))) 1%nat 2%nat); lia.
Defined.

(** ** The rollout files at work *)

(** Two seven-step trajectories give two files, numbered 0 and 1. *)
Example Test_writes_two_files :
  snd (ex_Test (eval_flags "data")) = None /\
  map fst (files _ _ (fst (ex_Test (eval_flags "data"))))
  = ("out/rollout_test_0.json" :: "out/rollout_test_1.json" :: nil)%string /\
  map (fun f => map fst (snd f)) (files _ _ (fst (ex_Test (eval_flags "data"))))
  = rollout_keys :: rollout_keys :: nil.
Proof. vm_compute. repeat split. Qed.

(** C7, at a trajectory of three time steps, fewer than
    [INPUT_SEQUENCE_LENGTH]: the call of the network that precedes the
    loading of the checkpoint is handed the whole trajectory, a window of
    three time steps and not of five; the step loop does not run and the
    run ends in [torch.stack] without a file. *)
Theorem C7_short_trajectory_window :
  Axis1.shape1 (position (fst (prepare_rollout_inputs ex_raw_tiny))) = 3%nat /\
  (exists window,
     inference_inputs _ _ (fst (ex_Test (eval_flags "tiny"))) = window :: nil /\
     window = position (fst (prepare_rollout_inputs ex_raw_tiny)) /\
     time_steps 3 window /\
     ~ time_steps INPUT_SEQUENCE_LENGTH window) /\
  snd (ex_Test (eval_flags "tiny")) = Some RuntimeError /\
  files _ _ (fst (ex_Test (eval_flags "tiny"))) = [].
Proof.
  split; [reflexivity|]. split; [|split; vm_compute; reflexivity].
  exists (position (fst (prepare_rollout_inputs ex_raw_tiny))).
  split; [vm_compute; reflexivity|]. split; [reflexivity|]. split.
  - repeat constructor.
  - intros H. inversion H as [|traj rest Hlen _]. discriminate Hlen.
Qed.

(** C6, at a trajectory with exactly [INPUT_SEQUENCE_LENGTH] time steps:
    the step loop does not run, [torch.stack] is handed an empty list and
    raises, and the run ends without a file for that trajectory. *)
Theorem C6_short_trajectory_leaves_no_file :
  Axis1.shape1 (position (fst (prepare_rollout_inputs ex_raw_short)))
  = INPUT_SEQUENCE_LENGTH /\
  snd (ex_Test (eval_flags "short")) = Some RuntimeError /\
  files _ _ (fst (ex_Test (eval_flags "short"))) = [].
Proof. vm_compute. repeat split. Qed.

(** ** More on the loss *)

Lemma where1_length {A} (m : list bool) (a b : list A) :
  List.length (Torch.where1 m a b)
  = Nat.min (List.length m) (Nat.min (List.length a) (List.length b)).
Proof.
  revert a b; induction m as [|c m IH]; intros [|x a] [|y b]; simpl; auto.
Qed.

Lemma masked_length (mask : list bool) (vals : list Qc) :
  List.length (masked mask vals)
  = Nat.min (List.length mask) (List.length vals).
Proof.
  unfold masked, Torch.zeros. rewrite where1_length, repeat_length. lia.
Qed.

(** The masked tensor only depends on the entries the mask selects. *)
Lemma masked_ext (mask : list bool) (a b : list Qc) :
  List.length a = List.length b ->
  (forall i, nth i mask false = true -> nth i a 0 = nth i b 0) ->
  masked mask a = masked mask b.
Proof.
  intros Hlen Hsel. apply nth_ext with (d := 0) (d' := 0).
  - rewrite !masked_length, Hlen. reflexivity.
  - intros i _. destruct (nth i mask false) eqn:E.
    + rewrite !masked_nth_on by exact E. apply Hsel; exact E.
    + rewrite !masked_nth_off by exact E. reflexivity.
Qed.

Lemma decayed_squared_error_nth_error (P : nat) (pred target : list (list Qc))
    (i : nat) :
  nth_error (decayed_squared_error P pred target) i
  = match nth_error pred i, nth_error target i with
    | Some p, Some t =>
        Some (Torch.sum (Torch.zip_with Qcmult
                (map (fun x => x * x) (Torch.zip_with Qcminus p t))
                (decay_fators_3 P)))
    | _, _ => None
    end.
Proof.
  unfold decayed_squared_error, Torch.sum_last, Torch.mul_rows, Torch.square2,
    Torch.sub2.
  rewrite !nth_error_map, zip_with_nth_error.
  destruct (nth_error pred i), (nth_error target i); reflexivity.
Qed.

Lemma decayed_squared_error_length (P : nat) (pred target : list (list Qc)) :
  List.length (decayed_squared_error P pred target)
  = Nat.min (List.length pred) (List.length target).
Proof.
  unfold decayed_squared_error, Torch.sum_last, Torch.mul_rows, Torch.square2,
    Torch.sub2.
  rewrite !length_map, zip_with_length. reflexivity.
Qed.

Lemma nth_of_nth_error {A} (l l' : list A) (i : nat) (d : A) :
  nth_error l i = nth_error l' i -> nth i l d = nth i l' d.
Proof.
  intros H. rewrite <- !nth_default_eq. unfold nth_default. rewrite H.
  reflexivity.
Qed.

Lemma mask_selects (sel : Z -> bool) (types : list Z) (i : nat) :
  nth i (map sel types) false = true ->
  exists t, nth_error types i = Some t /\ sel t = true.
Proof.
  revert i; induction types as [|t types IH]; intros [|i]; simpl; intros H;
    try discriminate.
  - exists t. split; [reflexivity|exact H].
  - apply IH; exact H.
Qed.

Lemma mean_over_ext (sel : Z -> bool) (types : list Z) (a b : list Qc) :
  List.length a = List.length b ->
  (forall i t, nth_error types i = Some t -> sel t = true ->
               nth_error a i = nth_error b i) ->
  mean_over sel types a = mean_over sel types b.
Proof.
  intros Hlen Hsel. rewrite <- !masked_mean_is_mean_over. unfold masked_mean.
  f_equal. f_equal. apply masked_ext; [exact Hlen|].
  intros i Hi. apply mask_selects in Hi. destruct Hi as (t & Ht & Hs).
  apply nth_of_nth_error. eapply Hsel; eassumption.
Qed.

(** The squared-error term and the anchor-plane term read the rows of the
    non-kinematic particles only. *)
Lemma Train_loss_agree
    (weighted_square_error : list (list Qc) -> list (list Qc) -> Qc)
    (cosine_similarity : list Qc -> list Qc -> Qc)
    (F : Flags) (P : nat) (random_pids : list nat) (types : list Z)
    (pred pred' target target' : list (list Qc)) :
  FLAGS.loss F = LossStandard \/ FLAGS.loss F = LossAnchor ->
  agree_on (fun t => negb (is_kinematic t)) types pred pred' ->
  agree_on (fun t => negb (is_kinematic t)) types target target' ->
  Train_loss weighted_square_error cosine_similarity F P random_pids types
             pred target
  = Train_loss weighted_square_error cosine_similarity F P random_pids types
               pred' target'.
Proof.
  intros Hflag [Lp Hp] [Lt Ht].
  assert (Hsq : mean_over (fun t => negb (is_kinematic t)) types
                          (decayed_squared_error P pred target)
                = mean_over (fun t => negb (is_kinematic t)) types
                            (decayed_squared_error P pred' target')).
  { apply mean_over_ext.
    - rewrite !decayed_squared_error_length, Lp, Lt. reflexivity.
    - intros i t Hi Hs. rewrite !decayed_squared_error_nth_error.
      rewrite (Hp i t Hi Hs), (Ht i t Hi Hs). reflexivity. }
  destruct Hflag as [H|H].
  - rewrite !(Train_loss_standard _ _ F P random_pids types _ _ H), Hsq.
    reflexivity.
  - rewrite !(Train_loss_anchor _ _ F P random_pids types _ _ H), Hsq.
    rewrite !anchor_plane_loss_is_mean. do 3 f_equal.
    apply mean_over_ext.
    + rewrite !length_map. exact Lp.
    + intros i t Hi Hs. rewrite !nth_error_map.
      rewrite (Hp i t Hi); [reflexivity|].
      unfold is_anchor_plane, is_kinematic in *.
      apply Z.eqb_eq in Hs. subst t. reflexivity.
Qed.

(** The "standard" and the "anchor" loss do not look at the kinematic
    particles: predictions and targets that agree on every other particle
    give the same loss. *)
Theorem loss_ignores_kinematic_particles
    (weighted_square_error : list (list Qc) -> list (list Qc) -> Qc)
    (cosine_similarity : list Qc -> list Qc -> Qc)
    (F : Flags) (P : nat) (random_pids : list nat) (types : list Z)
    (pred pred' target target' : list (list Qc)) :
  FLAGS.loss F = LossStandard \/ FLAGS.loss F = LossAnchor ->
  agree_on (fun t => negb (is_kinematic t)) types pred pred' ->
  agree_on (fun t => negb (is_kinematic t)) types target target' ->
  Train_loss weighted_square_error cosine_similarity F P random_pids types
             pred target
  = Train_loss weighted_square_error cosine_similarity F P random_pids types
               pred' target'.
Proof.
  apply Train_loss_agree.
Qed.

Lemma loss_ignores_kinematic_particles_witness :
  Train_loss ex_wse ex_cos (set_loss LossAnchor default_flags) PREDICT_LENGTH
             nil ex_types ex_pred ex_target
  = Train_loss ex_wse ex_cos (set_loss LossAnchor default_flags) PREDICT_LENGTH
               nil ex_types
               ((qz 7 :: qz 8 :: qz 9 :: nil) :: tl ex_pred)
               ((qz 5 :: qz 5 :: qz 5 :: nil) :: tl ex_target).
Proof.
  apply (loss_ignores_kinematic_particles ex_wse ex_cos
           (set_loss LossAnchor default_flags) PREDICT_LENGTH nil ex_types).
  - right; reflexivity.
  - split; [reflexivity|].
    intros [|i] t Hi Hs; [injection Hi as <-; discriminate Hs|reflexivity].
  - split; [reflexivity|].
    intros [|i] t Hi Hs; [injection Hi as <-; discriminate Hs|reflexivity].
Defined.

(** ** Kinematic particles and the whole loss *)

(** With the flags "me" and "anchor_me" the loss moves with the kinematic
    particle: replacing the predicted row of the kinematic particle of the
    example, and nothing else, changes the loss, through the L1 term, which
    is taken over every particle. *)
Lemma C1_counterexample :
  ~ kinematic_excluded ex_wse ex_cos (set_loss LossMe default_flags)
      PREDICT_LENGTH nil ex_types /\
  ~ kinematic_excluded ex_wse ex_cos (set_loss LossAnchorMe default_flags)
      PREDICT_LENGTH nil ex_types.
Proof.
  assert (Hpred : agree_on (fun t => negb (is_kinematic t)) ex_types
                           ex_pred ex_pred_moved).
  { split; [reflexivity|].
    intros [|i] t Hi Hs; [injection Hi as <-; discriminate Hs|reflexivity]. }
  assert (Htarget : agree_on (fun t => negb (is_kinematic t)) ex_types
                             ex_target ex_target).
  { split; reflexivity. }
  split; intros H;
    specialize (H ex_pred ex_pred_moved ex_target ex_target Hpred Htarget);
    vm_compute in H; discriminate H.
Qed.

(** C1, amended.  In the "standard", "anchor", "anchor_me", "me" and
    "correlation" variants the squared-error part of the loss excludes the
    particles of type [KINEMATIC_PARTICLE_ID]: the per-particle
    decay-weighted squared error is replaced by zero wherever the kinematic
    mask is true and kept elsewhere, and the sum is divided by the number of
    non-kinematic particles; the result is the mean over the non-kinematic
    particles.  The "standard" loss is that term and the "anchor" loss adds
    the anchor-plane term to it, and neither depends on the kinematic
    particles.  The "me" and "anchor_me" losses add an L1 term and the
    "correlation" loss a correlation term that are taken over the whole
    prediction and target, kinematic rows included. *)
Theorem C1_kinematic_excluded_from_loss
    (weighted_square_error : list (list Qc) -> list (list Qc) -> Qc)
    (cosine_similarity : list Qc -> list Qc -> Qc)
    (F : Flags) (P : nat) (random_pids : list nat) (types : list Z)
    (pred target : list (list Qc)) :
  let errs := decayed_squared_error P pred target in
  let per_particle :=
    masked (Torch.logical_not (get_kinematic_mask types)) errs in
  let term :=
    Torch.sum per_particle
    / Qc_of_nat (List.length
                   (filter (fun t => negb (t =? KINEMATIC_PARTICLE_ID)%Z) types)) in
  let run := Train_loss weighted_square_error cosine_similarity F P
               random_pids types pred target in
  (forall i, nth_error types i = Some KINEMATIC_PARTICLE_ID ->
             nth i per_particle 0 = 0) /\
  (forall i t, nth_error types i = Some t -> t <> KINEMATIC_PARTICLE_ID ->
               nth i per_particle 0 = nth i errs 0) /\
  term = mean_over (fun t => negb (is_kinematic t)) types errs /\
  (FLAGS.loss F = LossStandard -> run = Ok term) /\
  (FLAGS.loss F = LossAnchor ->
   run = Ok (term + FLAGS.l_plane F
                    * anchor_plane_loss pred (get_anchor_z_mask types))) /\
  (FLAGS.loss F = LossAnchorMe ->
   run = Ok (term + FLAGS.l_plane F
                    * anchor_plane_loss pred (get_anchor_z_mask types)
             + FLAGS.l_me F * anchor_me_l1_loss P pred target)) /\
  (FLAGS.loss F = LossMe ->
   run = Ok (term + FLAGS.l_me F * me_l1_loss P pred target)) /\
  (FLAGS.loss F = LossCorrelation ->
   run = Ok (term + Qc_of_nat 1
                    * correlation_loss cosine_similarity random_pids pred target)) /\
  (FLAGS.loss F = LossStandard \/ FLAGS.loss F = LossAnchor ->
   kinematic_excluded weighted_square_error cosine_similarity F P random_pids
                      types).
Proof.
  intros errs per_particle term run.
  assert (Hterm : term = mean_over (fun t => negb (is_kinematic t)) types errs).
  { unfold term, per_particle. rewrite non_kinematic_mask_map.
    rewrite <- masked_mean_is_mean_over. unfold masked_mean.
    rewrite sum_bool_map. reflexivity. }
  split; [|split; [|split; [exact Hterm|]]].
  - intros i Hi. apply masked_nth_off.
    rewrite non_kinematic_mask_map.
    rewrite (nth_map_some _ _ _ _ _ Hi). reflexivity.
  - intros i t Hi Ht. apply masked_nth_on.
    rewrite non_kinematic_mask_map.
    rewrite (nth_map_some _ _ _ _ _ Hi).
    unfold is_kinematic. apply Z.eqb_neq in Ht. rewrite Ht. reflexivity.
  - rewrite Hterm. unfold run.
    repeat split; intros H.
    + apply Train_loss_standard; exact H.
    + apply Train_loss_anchor; exact H.
    + apply Train_loss_anchor_me; exact H.
    + apply Train_loss_me; exact H.
    + apply Train_loss_correlation; exact H.
    + intros p p' t t' Hp Ht. apply Train_loss_agree; assumption.
Qed.

Lemma C1_witness :
  Train_loss ex_wse ex_cos (set_loss LossMe default_flags) PREDICT_LENGTH nil
             ex_types ex_pred ex_target
  = Ok (Torch.sum (masked (Torch.logical_not (get_kinematic_mask ex_types))
                          (decayed_squared_error PREDICT_LENGTH ex_pred ex_target))
        / Qc_of_nat 2
        + qz 3 * me_l1_loss PREDICT_LENGTH ex_pred ex_target) /\
  kinematic_excluded ex_wse ex_cos default_flags PREDICT_LENGTH nil ex_types.
Proof.
  split.
  - refine (proj1 (proj2 (proj2 (proj2 (proj2 (proj2 (proj2
              (C1_kinematic_excluded_from_loss ex_wse ex_cos
                 (set_loss LossMe default_flags) PREDICT_LENGTH nil ex_types
                 ex_pred ex_target))))))) _).
    reflexivity.
  - refine (proj2 (proj2 (proj2 (proj2 (proj2 (proj2 (proj2 (proj2
              (C1_kinematic_excluded_from_loss ex_wse ex_cos default_flags
                 PREDICT_LENGTH nil ex_types ex_pred ex_target)))))))) _).
    left; reflexivity.
Defined.

(** The "weighted_anchor" variant never yields a loss: the noise block binds
    [anchor_plane_mask] only for flags that start with "anchor", and line
    426 reads it. *)
Lemma weighted_anchor_unbound
    (weighted_square_error : list (list Qc) -> list (list Qc) -> Qc)
    (cosine_similarity : list Qc -> list Qc -> Qc)
    (F : Flags) (P : nat) (random_pids : list nat) (types : list Z)
    (pred target : list (list Qc)) :
  FLAGS.loss F = LossWeightedAnchor ->
  Train_loss weighted_square_error cosine_similarity F P random_pids types
             pred target
  = Raise UnboundLocalError.
Proof.
  intros H. unfold Train_loss, noise_block_masks. rewrite H.
  cbn [loss_name]. flag_tests. reflexivity.
Qed.

(** ** More on the training loop *)

Section TrainMore.

Variable Model : Type.
Variable cuda_available : bool.
Variable Optimizer : Type.
Variable Adam : Model -> Optimizer.
Variable literal_eval : string -> option (list string).
Variable apex_available : bool.
Variable train_forward :
  Model -> nat -> features -> targets -> list (list Qc) * list (list Qc).
Variable optimizer_step :
  Optimizer -> Model -> nat -> features -> targets -> Optimizer * Model.
Variable test_metrics : Model -> features -> targets -> Qc * Qc.
Variable round5 : Qc -> Qc.
Variable weighted_square_error : list (list Qc) -> list (list Qc) -> Qc.
Variable cosine_similarity : list Qc -> list Qc -> Qc.
Variable random_choices : nat -> nat -> list nat.

Let body :=
  Train_body Model cuda_available Optimizer Adam literal_eval apex_available
    train_forward optimizer_step test_metrics round5 weighted_square_error
    cosine_similarity random_choices.
Let loop :=
  Train_loop Model cuda_available Optimizer Adam literal_eval apex_available
    train_forward optimizer_step test_metrics round5 weighted_square_error
    cosine_similarity random_choices.
Let state : Type := train_state Model Optimizer.

(** [next(testDataset)] is called [n] times: the cursor moves by [n], or
    the dataset runs out and [StopIteration] ends the evaluation. *)
Theorem evaluate_consumes (model : Model) (testDataset : dataset)
    (n pos : nat) (test_loss position_loss : Qc) :
  (pos <= List.length testDataset)%nat ->
  ((pos + n <= List.length testDataset)%nat ->
   exists t p,
     evaluate Model test_metrics model testDataset pos n test_loss position_loss
     = Ok (pos + n, t, p)%nat) /\
  ((List.length testDataset < pos + n)%nat ->
   evaluate Model test_metrics model testDataset pos n test_loss position_loss
   = Raise StopIteration).
Proof.
  revert pos test_loss position_loss.
  induction n as [|n IH]; intros pos a b Hpos; simpl.
  - split; [intros _; exists a, b; rewrite Nat.add_0_r; reflexivity|lia].
  - destruct (nth_error testDataset pos) as [[feat targ]|] eqn:E.
    + assert (pos < List.length testDataset)%nat
        by (apply nth_error_Some; congruence).
      destruct (test_metrics model feat targ) as [m1 m2].
      destruct (IH (S pos) (a + m1) (b + m2)) as [IH1 IH2]; [lia|].
      split; intros Hlen.
      * destruct IH1 as (t & p & Heq); [lia|].
        exists t, p. rewrite Heq.
        replace (pos + S n)%nat with (S pos + n)%nat by lia. reflexivity.
      * apply IH2. lia.
    + apply nth_error_None in E. split; [lia|reflexivity].
Qed.

(** A later element under the flag "weighted_anchor" ends the run. *)
Lemma Train_body_weighted_anchor (F : Flags) (testDataset : dataset)
    (st : state) (idx : nat) (feat : features) (targ : targets) :
  FLAGS.loss F = LossWeightedAnchor ->
  optimizer _ _ st <> None ->
  snd (body F testDataset st idx feat targ) = Some UnboundLocalError /\
  optimizer_steps _ _ (fst (body F testDataset st idx feat targ))
  = optimizer_steps _ _ st /\
  train_model _ _ (fst (body F testDataset st idx feat targ))
  = train_model _ _ st.
Proof.
  intros Hflag Hopt. unfold body, Train_body. cbn [optimizer].
  destruct (optimizer _ _ st) as [opt|]; [|congruence].
  destruct (train_forward _ _ _ _) as [pred target].
  rewrite weighted_anchor_unbound by exact Hflag.
  repeat split.
Qed.

Lemma Train_loop_weighted_anchor (F : Flags) (testDataset ds : dataset)
    (st : state) (idx : nat) :
  FLAGS.loss F = LossWeightedAnchor ->
  optimizer_steps _ _ (fst (loop F testDataset st idx ds))
  = optimizer_steps _ _ st /\
  train_model _ _ (fst (loop F testDataset st idx ds)) = train_model _ _ st /\
  (optimizer _ _ st <> None -> ds <> [] ->
   snd (loop F testDataset st idx ds) = Some UnboundLocalError).
Proof.
  intros Hflag. unfold loop.
  revert st idx; induction ds as [|[feat targ] ds IH]; intros st idx.
  - simpl. repeat split. congruence.
  - cbn [Train_loop].
    destruct (optimizer _ _ st) as [opt|] eqn:Hopt.
    + destruct (Train_body_weighted_anchor F testDataset st idx feat targ Hflag)
        as (Hs & Hn & Hm); [congruence|].
      unfold body in *.
      destruct (Train_body _ _ _ _ _ _ _ _ _ _ _ _ _ F testDataset st idx feat targ)
        as [st1 status]. cbn [fst snd] in *. subst status.
      cbn [fst snd]. repeat split; assumption.
    + destruct (Train_body_first Model cuda_available Optimizer Adam literal_eval
                  apex_available train_forward optimizer_step test_metrics
                  round5 weighted_square_error cosine_similarity random_choices
                  F testDataset st idx feat targ Hopt)
        as (Hm & Hn & _).
      destruct (Train_body _ _ _ _ _ _ _ _ _ _ _ _ _ F testDataset st idx feat targ)
        as [st1 [e|]]; cbn [fst snd] in *.
      * repeat split; try assumption. congruence.
      * destruct (IH st1 (S idx)) as (IHn & IHm & _).
        rewrite IHn, IHm. repeat split; try assumption. congruence.
Qed.

(** A run with the loss flag "weighted_anchor" never takes an optimiser
    step and never changes the parameters; once the first element has set
    the optimiser up, the second ends the run with [UnboundLocalError]. *)
Theorem weighted_anchor_run_never_steps (Metadata : Type)
    (LearnedSimulator : Metadata -> Qc -> Model) (F : Flags)
    (metadata : Metadata) (testDataset ds : dataset) :
  FLAGS.loss F = LossWeightedAnchor ->
  let init := Train_init Metadata Model LearnedSimulator Optimizer F metadata in
  let final := loop F testDataset init 0 ds in
  optimizer_steps _ _ (fst final) = 0%nat /\
  train_model _ _ (fst final) = train_model _ _ init /\
  (forall e1 e2 rest, ds = e1 :: e2 :: rest ->
     snd (body F testDataset init 0 (fst e1) (snd e1)) = None ->
     snd final = Some UnboundLocalError).
Proof.
  intros Hflag init final.
  destruct (Train_loop_weighted_anchor F testDataset ds init 0 Hflag)
    as (Hn & Hm & _).
  split; [exact Hn|]. split; [exact Hm|].
  intros [feat targ] e2 rest -> Hfirst. unfold final, loop. cbn [Train_loop].
  cbn [fst snd] in Hfirst.
  destruct (Train_body_first Model cuda_available Optimizer Adam literal_eval
              apex_available train_forward optimizer_step test_metrics
              round5 weighted_square_error cosine_similarity random_choices
              F testDataset init 0 feat targ eq_refl)
    as (_ & _ & _ & _ & Hsetup).
  unfold body in Hfirst.
  destruct (Train_body _ _ _ _ _ _ _ _ _ _ _ _ _ F testDataset init 0 feat targ)
    as [st1 status]. cbn [fst snd] in *. subst status.
  destruct (Hsetup eq_refl) as [Hopt _].
  apply (Train_loop_weighted_anchor F testDataset (e2 :: rest) st1 1 Hflag);
    [rewrite Hopt|]; discriminate.
Qed.

(** Apex missing under [--fp16]: the first element creates the optimiser
    and then exits; nothing has been trained. *)
Theorem fp16_without_apex_exits (Metadata : Type)
    (LearnedSimulator : Metadata -> Qc -> Model) (F : Flags)
    (metadata : Metadata) (testDataset rest : dataset) (feat : features)
    (targ : targets) (devices : list string) :
  FLAGS.fp16 F = true -> apex_available = false ->
  literal_eval (FLAGS.message_passing_devices F) = Some devices ->
  let init := Train_init Metadata Model LearnedSimulator Optimizer F metadata in
  let final := loop F testDataset init 0 ((feat, targ) :: rest) in
  snd final = Some SystemExit /\
  elements_seen _ _ (fst final) = 1%nat /\
  optimizer_steps _ _ (fst final) = 0%nat /\
  train_model _ _ (fst final) = train_model _ _ init /\
  optimizer _ _ (fst final) = Some (Adam (train_model _ _ init)).
Proof.
  intros Hfp Hapex Hdev init final. unfold final, loop. cbn [Train_loop].
  unfold Train_body. cbn [optimizer init Train_init].
  unfold setup_optimizer. cbn [train_model].
  rewrite Hdev, Hfp, Hapex. cbn. repeat split.
Qed.

Lemma after_step_best_loss (F : Flags) (testDataset : dataset) (st : state) :
  let st' := fst (after_step Model Optimizer test_metrics round5 F testDataset st) in
  best_loss _ _ st' <= best_loss _ _ st /\
  exists new,
    checkpoints _ _ st' = checkpoints _ _ st ++ new /\
    Forall (fun c => fst (fst c) < best_loss _ _ st) new.
Proof.
  assert (Hsame : forall b : Qc, b <= b /\
            exists new : list (Qc * Z * Model),
              checkpoints _ _ st = checkpoints _ _ st ++ new /\
              Forall (fun c => fst (fst c) < best_loss _ _ st) new).
  { intros b. split; [apply Qcle_refl|].
    exists nil. rewrite app_nil_r. split; [reflexivity|constructor]. }
  unfold after_step.
  destruct (step _ _ st mod 10 =? 0)%Z;
  destruct (step _ _ st mod 50 =? 0)%Z;
    cbn [fst snd best_loss checkpoints]; try apply Hsame.
  all: destruct (evaluate _ _ _ _ _ _ _) as [[[pos tl] pl]|e];
    cbn [fst snd best_loss checkpoints]; try apply Hsame.
  all: destruct (tl ?= best_loss _ _ st) eqn:C; try apply Hsame.
  all: assert (Hlt : tl < best_loss _ _ st) by (apply Qlt_alt; exact C).
  all: split; [apply Qclt_le_weak; exact Hlt|].
  all: eexists; split; [reflexivity|]; constructor; [exact Hlt|constructor].
Qed.

Lemma Train_body_best_loss (F : Flags) (testDataset : dataset) (st : state)
    (idx : nat) (feat : features) (targ : targets) :
  let st' := fst (body F testDataset st idx feat targ) in
  best_loss _ _ st' <= best_loss _ _ st /\
  exists new,
    checkpoints _ _ st' = checkpoints _ _ st ++ new /\
    Forall (fun c => fst (fst c) < best_loss _ _ st) new.
Proof.
  assert (Hsame : best_loss _ _ st <= best_loss _ _ st /\
            exists new : list (Qc * Z * Model),
              checkpoints _ _ st = checkpoints _ _ st ++ new /\
              Forall (fun c => fst (fst c) < best_loss _ _ st) new).
  { split; [apply Qcle_refl|].
    exists nil. rewrite app_nil_r. split; [reflexivity|constructor]. }
  unfold body, Train_body. cbn [optimizer].
  destruct (optimizer _ _ st) as [opt|].
  - destruct (train_forward _ _ _ _) as [pred target].
    destruct (Train_loss _ _ _ _ _ _ _ _) as [loss|e]; [|exact Hsame].
    cbn [train_model].
    destruct (optimizer_step _ _ _ _ _) as [opt' model'].
    match goal with
    | |- context [after_step _ _ _ _ _ _ ?s] =>
        exact (after_step_best_loss F testDataset s)
    end.
  - unfold setup_optimizer. cbn [train_model].
    destruct (literal_eval _); [|exact Hsame].
    destruct (FLAGS.fp16 F && negb apex_available); exact Hsame.
Qed.

(** The best test loss never goes up during a run, and a checkpoint is only
    saved for a test loss below the best one so far: every checkpoint of
    the run lies below the best loss the run started with. *)
Theorem best_loss_never_increases (F : Flags) (testDataset ds : dataset)
    (st : state) (idx : nat) :
  let st' := fst (loop F testDataset st idx ds) in
  best_loss _ _ st' <= best_loss _ _ st /\
  exists new,
    checkpoints _ _ st' = checkpoints _ _ st ++ new /\
    Forall (fun c => fst (fst c) < best_loss _ _ st) new.
Proof.
  unfold loop. revert st idx; induction ds as [|[feat targ] ds IH];
    intros st idx; cbn [Train_loop].
  - split; [apply Qcle_refl|].
    exists nil. rewrite app_nil_r. split; [reflexivity|constructor].
  - pose proof (Train_body_best_loss F testDataset st idx feat targ) as Hb.
    unfold body in Hb. cbv zeta in Hb.
    destruct (Train_body _ _ _ _ _ _ _ _ _ _ _ _ _ F testDataset st idx feat targ)
      as [st1 [e|]]; cbn [fst snd] in *; [exact Hb|].
    destruct Hb as (Hle & new1 & Hc1 & Hf1).
    destruct (IH st1 (S idx)) as (Hle' & new2 & Hc2 & Hf2).
    split; [exact (Qcle_trans _ _ _ Hle' Hle)|].
    exists (new1 ++ new2). split; [rewrite Hc2, Hc1, app_assoc; reflexivity|].
    apply Forall_app. split; [exact Hf1|].
    eapply Forall_impl; [|exact Hf2].
    intros c Hc. exact (Qclt_le_trans _ _ _ Hc Hle).
Qed.

End TrainMore.

(** ** The noise mask *)

Lemma Qc_one_plus_zero : 1 + 0 = 1.
Proof. apply Qc_is_canon; reflexivity. Qed.

Lemma Qc_zero_plus_one : 0 + 1 = 1.
Proof. apply Qc_is_canon; reflexivity. Qed.

Lemma Qc_zero_plus_zero : 0 + 0 = 0.
Proof. apply Qc_is_canon; reflexivity. Qed.

(** The rows of the noise mask, by particle type. *)
Lemma noise_mask_rows (F : Flags) (types : list Z) (i : nat) (t : Z) :
  nth_error types i = Some t ->
  nth_error (noise_mask F types) i
  = Some (if startswith (loss_name (FLAGS.loss F)) "anchor" then
            if (t =? METAL_PARTICLE_ID)%Z then 1 :: 1 :: 1 :: nil
            else if (t =? ANCHOR_PLANE_PARTICLE_ID)%Z then 1 :: 1 :: 0 :: nil
            else 0 :: 0 :: 0 :: nil
          else if (t =? KINEMATIC_PARTICLE_ID)%Z then 0 :: nil else 1 :: nil).
Proof.
  intros Ht. unfold noise_mask.
  destruct (startswith (loss_name (FLAGS.loss F)) "anchor").
  - unfold get_metal_mask, get_anchor_z_mask.
    repeat (rewrite zip_with_nth_error || rewrite nth_error_map).
    rewrite Ht. cbn [option_map]. f_equal.
    unfold METAL_PARTICLE_ID, ANCHOR_PLANE_PARTICLE_ID.
    destruct (Z.eqb_spec t 2) as [->|H2]; cbn.
    + rewrite Qc_one_plus_zero. reflexivity.
    + destruct (t =? 1)%Z; cbn;
        rewrite ?Qc_zero_plus_one, ?Qc_zero_plus_zero; reflexivity.
  - unfold Torch.logical_not, get_kinematic_mask.
    rewrite !nth_error_map, Ht. cbn [option_map]. f_equal.
    destruct (t =? KINEMATIC_PARTICLE_ID)%Z; reflexivity.
Qed.

(** What line 343 leaves of the sampled noise: nothing for a kinematic
    particle, whatever the loss flag; with an "anchor" flag, the x and y
    noise of an anchor-plane particle but not its z noise, and nothing for a
    particle that is neither metal nor anchor plane; the noise untouched in
    every other case. *)
Theorem noise_masking (F : Flags) (types : list Z)
    (sampled_noise : list (list (list Qc))) (i : nat) (t : Z)
    (traj : list (list Qc)) :
  nth_error types i = Some t ->
  nth_error sampled_noise i = Some traj ->
  Forall (fun v => List.length v = 3%nat) traj ->
  nth_error (mask_noise sampled_noise (noise_mask F types)) i
  = Some (map (fun v =>
       if (t =? KINEMATIC_PARTICLE_ID)%Z then 0 :: 0 :: 0 :: nil
       else if startswith (loss_name (FLAGS.loss F)) "anchor" then
         if (t =? METAL_PARTICLE_ID)%Z then v
         else if (t =? ANCHOR_PLANE_PARTICLE_ID)%Z
              then nth 0 v 0 :: nth 1 v 0 :: 0 :: nil
              else 0 :: 0 :: 0 :: nil
       else v) traj).
Proof.
  intros Ht Hn Hlen. unfold mask_noise.
  rewrite zip_with_nth_error, Hn, (noise_mask_rows F types i t Ht).
  f_equal. apply map_ext_in. intros v Hv.
  rewrite Forall_forall in Hlen. specialize (Hlen v Hv).
  destruct v as [|x [|y [|z [|w v]]]]; try discriminate Hlen.
  unfold KINEMATIC_PARTICLE_ID, METAL_PARTICLE_ID, ANCHOR_PLANE_PARTICLE_ID.
  destruct (startswith (loss_name (FLAGS.loss F)) "anchor");
    destruct (Z.eqb_spec t 0) as [->|H0]; cbn;
    rewrite ?Qcmult_0_r, ?Qcmult_1_r; try reflexivity.
  destruct (t =? 2)%Z; cbn; rewrite ?Qcmult_0_r, ?Qcmult_1_r; try reflexivity.
  destruct (t =? 1)%Z; cbn; rewrite ?Qcmult_0_r, ?Qcmult_1_r; reflexivity.
Qed.

(** ** Signs and sizes *)

Lemma Qc_square_nonneg (x : Qc) : 0 <= x * x.
Proof.
  destruct (Qclt_le_dec x 0) as [Hneg|Hpos].
  - assert (H : 0 <= - x).
    { apply Qclt_le_weak in Hneg. apply Qcopp_le_compat in Hneg.
      replace (- 0) with 0 in Hneg by (apply Qc_is_canon; reflexivity).
      exact Hneg. }
    pose proof (Qcmult_le_compat_r 0 (- x) (- x) H H) as Hsq.
    rewrite Qcmult_0_l in Hsq.
    replace (- x * - x) with (x * x) in Hsq by ring. exact Hsq.
  - pose proof (Qcmult_le_compat_r 0 x x Hpos Hpos) as Hsq.
    rewrite Qcmult_0_l in Hsq. exact Hsq.
Qed.

Lemma Qc_mult_nonneg (x y : Qc) : 0 <= x -> 0 <= y -> 0 <= x * y.
Proof.
  intros Hx Hy. pose proof (Qcmult_le_compat_r 0 x y Hx Hy) as H.
  rewrite Qcmult_0_l in H. exact H.
Qed.

Lemma Qc_of_nat_nonneg (n : nat) : 0 <= Qc_of_nat n.
Proof.
  unfold Qc_of_nat, Qcle. cbn [this Q2Qc]. rewrite !Qred_correct.
  unfold Qle. cbn. lia.
Qed.

Lemma Qc_inv_nonneg (y : Qc) : 0 <= y -> 0 <= / y.
Proof.
  unfold Qcle, Qcinv. cbn [this Q2Qc]. rewrite !Qred_correct.
  apply Qinv_le_0_compat.
Qed.

Lemma sum_nonneg (xs : list Qc) : Forall (fun x => 0 <= x) xs -> 0 <= Torch.sum xs.
Proof.
  unfold Torch.sum. induction 1 as [|x xs Hx Hxs IH]; simpl.
  - apply Qcle_refl.
  - rewrite <- (Qcplus_0_l 0). apply Qcplus_le_compat; assumption.
Qed.

Lemma LOSS_DECAY_FACTOR_bounds : 0 < LOSS_DECAY_FACTOR /\ LOSS_DECAY_FACTOR < 1.
Proof. split; reflexivity. Qed.

Lemma decay_fators_3_nonneg (P : nat) :
  Forall (fun d => 0 <= d) (decay_fators_3 P).
Proof.
  unfold decay_fators_3, decay_fators_1, Torch.repeat_interleave.
  apply Forall_flat_map. apply Forall_map. apply Forall_forall.
  intros i _. apply Forall_forall. intros d Hd. apply repeat_spec in Hd.
  subst d. apply Qcpower_pos. apply Qclt_le_weak, LOSS_DECAY_FACTOR_bounds.
Qed.

Lemma decayed_squared_error_nonneg (P : nat) (pred target : list (list Qc)) :
  Forall (fun e => 0 <= e) (decayed_squared_error P pred target).
Proof.
  unfold decayed_squared_error, Torch.sum_last, Torch.mul_rows, Torch.square2.
  rewrite !map_map. apply Forall_map. apply Forall_forall. intros row _.
  apply sum_nonneg.
  apply zip_with_Forall with (PA := fun x => 0 <= x) (PB := fun d => 0 <= d).
  - intros; apply Qc_mult_nonneg; assumption.
  - apply Forall_map. apply Forall_forall. intros; apply Qc_square_nonneg.
  - apply decay_fators_3_nonneg.
Qed.

Lemma masked_nonneg (mask : list bool) (vals : list Qc) :
  Forall (fun e => 0 <= e) vals -> Forall (fun e => 0 <= e) (masked mask vals).
Proof.
  unfold masked, Torch.zeros. intros H. revert mask.
  induction H as [|v vals Hv Hvals IH]; intros [|b mask]; simpl;
    try constructor.
  - destruct b; [exact Hv|apply Qcle_refl].
  - apply IH.
Qed.

(** The squared-error term is never negative, whatever the mask; so the
    "standard" loss is never negative. *)
Theorem standard_loss_nonnegative
    (weighted_square_error : list (list Qc) -> list (list Qc) -> Qc)
    (cosine_similarity : list Qc -> list Qc -> Qc)
    (F : Flags) (P : nat) (random_pids : list nat) (types : list Z)
    (pred target : list (list Qc)) :
  (forall mask, 0 <= masked_mean mask (decayed_squared_error P pred target)) /\
  (FLAGS.loss F = LossStandard ->
   exists l,
     Train_loss weighted_square_error cosine_similarity F P random_pids types
                pred target = Ok l /\ 0 <= l).
Proof.
  assert (Hmean : forall mask,
            0 <= masked_mean mask (decayed_squared_error P pred target)).
  { intros mask. unfold masked_mean, Qcdiv. apply Qc_mult_nonneg.
    - apply sum_nonneg, masked_nonneg, decayed_squared_error_nonneg.
    - apply Qc_inv_nonneg, Qc_of_nat_nonneg. }
  split; [exact Hmean|].
  intros H. eexists. split.
  - apply Train_loss_standard; exact H.
  - rewrite <- masked_mean_is_mean_over. apply Hmean.
Qed.

Lemma standard_loss_nonnegative_witness :
  exists l,
    Train_loss ex_wse ex_cos default_flags PREDICT_LENGTH nil ex_types
               ex_pred ex_target = Ok l /\ 0 <= l.
Proof.
  apply (standard_loss_nonnegative ex_wse ex_cos default_flags PREDICT_LENGTH
           nil ex_types ex_pred ex_target).
  reflexivity.
Defined.

Lemma decay_step (n : nat) :
  0 < LOSS_DECAY_FACTOR ^ n /\ LOSS_DECAY_FACTOR ^ S n <= LOSS_DECAY_FACTOR ^ n.
Proof.
  destruct LOSS_DECAY_FACTOR_bounds as [H0 H1].
  assert (Hpos : forall k, 0 < LOSS_DECAY_FACTOR ^ k).
  { induction k as [|k IH]; [reflexivity|]. cbn [Qcpower].
    pose proof (Qcmult_lt_compat_r 0 LOSS_DECAY_FACTOR _ IH H0) as H.
    rewrite Qcmult_0_l in H. exact H. }
  split; [apply Hpos|]. cbn [Qcpower].
  pose proof (Qcmult_le_compat_r LOSS_DECAY_FACTOR 1 (LOSS_DECAY_FACTOR ^ n)
                (Qclt_le_weak _ _ H1) (Qclt_le_weak _ _ (Hpos n))) as H.
  rewrite Qcmult_1_l in H. exact H.
Qed.

(** Later prediction steps weigh less: the decay factors are positive, at
    most 1 and do not grow with the step. *)
Theorem decay_factors_decrease (i j : nat) :
  (i <= j)%nat ->
  0 < LOSS_DECAY_FACTOR ^ j /\
  LOSS_DECAY_FACTOR ^ j <= LOSS_DECAY_FACTOR ^ i /\
  LOSS_DECAY_FACTOR ^ i <= 1.
Proof.
  intros Hij. split; [apply decay_step|].
  assert (Hmono : forall a b, (a <= b)%nat ->
            LOSS_DECAY_FACTOR ^ b <= LOSS_DECAY_FACTOR ^ a).
  { intros a b Hab. induction Hab as [|b Hab IH]; [apply Qcle_refl|].
    eapply Qcle_trans; [apply decay_step|exact IH]. }
  split; [apply Hmono; exact Hij|].
  apply (Hmono 0%nat i). lia.
Qed.

Lemma decay_factors_decrease_witness :
  LOSS_DECAY_FACTOR ^ 4 <= LOSS_DECAY_FACTOR ^ 1.
Proof.
  apply (decay_factors_decrease 1 4). lia.
Defined.

(** ** File names *)

Lemma string_length_append (a b : string) :
  String.length (a ++ b) = (String.length a + String.length b)%nat.
Proof. induction a as [|c a IH]; simpl; auto. Qed.

Lemma string_append_inj_l (a b c : string) :
  (a ++ b)%string = (a ++ c)%string -> b = c.
Proof.
  induction a as [|x a IH]; simpl; intros H; [exact H|].
  injection H as H. apply IH; exact H.
Qed.

Lemma string_append_inj_r (s a b : string) :
  (a ++ s)%string = (b ++ s)%string -> a = b.
Proof.
  revert b; induction a as [|x a IH]; intros [|y b] H; simpl in H.
  - reflexivity.
  - apply (f_equal String.length) in H. simpl in H.
    rewrite string_length_append in H. lia.
  - apply (f_equal String.length) in H. simpl in H.
    rewrite string_length_append in H. lia.
  - injection H as -> H. f_equal. apply IH; exact H.
Qed.

Lemma str_of_nat_inj (i j : nat) : str_of_nat i = str_of_nat j -> i = j.
Proof.
  unfold str_of_nat. intros H.
  apply (f_equal NilEmpty.uint_of_string) in H.
  rewrite !NilEmpty.usu in H. injection H as H.
  apply (f_equal Nat.of_uint) in H.
  rewrite !DecimalNat.Unsigned.of_to in H. exact H.
Qed.

Lemma rollout_filename_inj (out : string) (split : split_flag) (i j : nat) :
  rollout_filename out split i = rollout_filename out split j -> i = j.
Proof.
  unfold rollout_filename, path_join.
  assert (Hrel : forall s, startswith ("rollout_" ++ s) "/" = false)
    by reflexivity.
  rewrite !Hrel.
  intros H. apply str_of_nat_inj.
  apply (string_append_inj_r ".json").
  apply (string_append_inj_l "_").
  apply (string_append_inj_l (split_name split)).
  apply (string_append_inj_l "rollout_").
  destruct (String.eqb out ""); [exact H|].
  destruct (ends_with_slash out).
  - apply (string_append_inj_l _ _ _ H).
  - apply (string_append_inj_l "/").
    apply (string_append_inj_l _ _ _ H).
Qed.

(** Distinct trajectories get distinct files: two indices that differ give
    file names that differ, whatever the output path and the split, so no
    rollout overwrites another. *)
Theorem rollout_filenames_distinct (out : string) (split : split_flag)
    (i j : nat) :
  i <> j -> rollout_filename out split i <> rollout_filename out split j.
Proof.
  intros Hij Heq. apply Hij. exact (rollout_filename_inj out split i j Heq).
Qed.

Lemma rollout_filenames_distinct_witness :
  rollout_filename "out" SplitTest 9 <> rollout_filename "out" SplitTest 10.
Proof.
  apply (rollout_filenames_distinct "out" SplitTest 9 10). lia.
Defined.

Lemma rollout_filenames_NoDup (out : string) (split : split_flag)
    (start n : nat) :
  NoDup (map (fun k => rollout_filename out split (start + k)) (seq 0 n)).
Proof.
  assert (H : forall l, NoDup l ->
            NoDup (map (fun k => rollout_filename out split (start + k)) l)).
  { induction 1 as [|k l Hk Hl IH]; simpl; constructor; [|exact IH].
    intros Hin. apply in_map_iff in Hin. destruct Hin as (k' & Heq & Hk').
    apply rollout_filename_inj in Heq.
    assert (k' = k) by lia. subst k'. contradiction. }
  apply H, seq_NoDup.
Qed.

(** ** The context handed to the network *)

(** The context of a step is the rows read so far, [step + 5] of them,
    followed by zeros up to one row less than the full context; if the
    context has no row beyond those read, [torch.zeros] is asked for a
    negative size and raises. *)
Theorem global_context_step_shape (gc : list Qc) (step : nat) :
  ((step + INPUT_SEQUENCE_LENGTH < List.length gc)%nat ->
   exists ctx,
     global_context_step gc step = Ok ctx /\
     List.length ctx = (List.length gc - 1)%nat /\
     (forall i, (i < step + INPUT_SEQUENCE_LENGTH)%nat ->
                nth i ctx 0 = nth i gc 0) /\
     (forall i, (step + INPUT_SEQUENCE_LENGTH <= i)%nat -> nth i ctx 0 = 0)) /\
  ((List.length gc <= step + INPUT_SEQUENCE_LENGTH)%nat ->
   global_context_step gc step = Raise RuntimeError).
Proof.
  unfold global_context_step. rewrite length_firstn.
  split; intros H.
  - destruct (Z.ltb_spec (Z.of_nat (List.length gc)
                          - Z.of_nat (Nat.min (step + INPUT_SEQUENCE_LENGTH)
                                              (List.length gc)) - 1) 0)
      as [Hneg|Hpos]; [lia|].
    eexists. split; [reflexivity|].
    unfold Torch.zeros. split; [|split].
    + rewrite length_app, length_firstn, repeat_length. lia.
    + intros i Hi. rewrite app_nth1 by (rewrite length_firstn; lia).
      rewrite <- (firstn_skipn (step + INPUT_SEQUENCE_LENGTH) gc) at 2.
      rewrite app_nth1 by (rewrite length_firstn; lia). reflexivity.
    + intros i Hi. rewrite app_nth2 by (rewrite length_firstn; lia).
      destruct (Nat.lt_ge_cases
                  (i - List.length (firstn (step + INPUT_SEQUENCE_LENGTH) gc))
                  (Z.to_nat (Z.of_nat (List.length gc)
                     - Z.of_nat (Nat.min (step + INPUT_SEQUENCE_LENGTH)
                                         (List.length gc)) - 1))) as [Hlt|Hge].
      * apply nth_repeat_lt; exact Hlt.
      * apply nth_overflow. rewrite repeat_length. exact Hge.
  - destruct (Z.ltb_spec (Z.of_nat (List.length gc)
                          - Z.of_nat (Nat.min (step + INPUT_SEQUENCE_LENGTH)
                                              (List.length gc)) - 1) 0)
      as [Hneg|Hpos]; [reflexivity|lia].
Qed.

Lemma global_context_step_shape_witness :
  exists ctx,
    global_context_step ex_context 1 = Ok ctx /\
    List.length ctx = 6%nat /\
    (forall i, (i < 6)%nat -> nth i ctx 0 = nth i ex_context 0) /\
    (forall i, (6 <= i)%nat -> nth i ctx 0 = 0).
Proof.
  apply (global_context_step_shape ex_context 1).
  unfold INPUT_SEQUENCE_LENGTH, ex_context. cbn [List.length map]. lia.
Defined.

(** ** More on the rollout *)

Lemma zip_with_map_same {A B C D} (h : B -> C -> D) (f : A -> B) (g : A -> C)
    (l : list A) :
  Torch.zip_with h (map f l) (map g l) = map (fun x => h (f x) (g x)) l.
Proof. induction l as [|x l IH]; simpl; [|rewrite IH]; reflexivity. Qed.

(** The input window and the ground truth split the trajectory along the
    time axis: concatenated they give back the positions. *)
Theorem window_and_ground_truth_partition {A} (k : nat)
    (pos : list (list A)) :
  Axis1.cat (Axis1.narrow_to k pos) (Axis1.narrow_from k pos) = pos.
Proof.
  unfold Axis1.cat, Axis1.narrow_to, Axis1.narrow_from.
  rewrite zip_with_map_same. rewrite <- (map_id pos) at 2.
  apply map_ext. intros traj. apply firstn_skipn.
Qed.

Lemma firstn_snoc_nth {A} (w : nat) (l : list A) (d : A) :
  (w < List.length l)%nat ->
  firstn w l ++ (nth w l d :: nil) = firstn (S w) l.
Proof.
  revert l; induction w as [|w IH]; intros [|x l] H; simpl in *; try lia.
  - reflexivity.
  - f_equal. apply IH. lia.
Qed.

(** The window slides by one along a trajectory when the next true position
    is appended. *)
Lemma slide_window {A} (w s : nat) (l : list A) (d : A) :
  (s + S w < List.length l)%nat ->
  skipn 1 (firstn (S w) (skipn s l)) ++ (nth s (skipn (S w) l) d :: nil)
  = firstn (S w) (skipn (S s) l).
Proof.
  intros H.
  replace (skipn (S s) l) with (skipn 1 (skipn s l))
    by (rewrite skipn_skipn; reflexivity).
  rewrite nth_skipn.
  replace (nth (S w + s) l d) with (nth w (skipn 1 (skipn s l)) d)
    by (rewrite skipn_skipn, nth_skipn; f_equal; lia).
  assert (Hlen : (S w < List.length (skipn s l))%nat)
    by (rewrite length_skipn; lia).
  destruct (skipn s l) as [|x l']; [simpl in Hlen; lia|].
  cbn [firstn skipn]. apply firstn_snoc_nth. simpl in Hlen. lia.
Qed.

Section RolloutMore.

Variable Model : Type.
Variable inference :
  Model -> list (list (list Qc)) -> features -> list Qc -> list (list (list Qc)).
Variables (F : Flags) (model : Model) (feat : features).
Variable global_context : list Qc.

Lemma refine_loop_windows (T n s : nat) :
  FLAGS.rollout_refine F = true ->
  time_steps T (position feat) ->
  (s + n + INPUT_SEQUENCE_LENGTH <= T)%nat ->
  forall k r,
    nth_error
      (fst (rollout_loop Model inference F model feat global_context
              (Axis1.narrow_from INPUT_SEQUENCE_LENGTH (position feat))
              (seq s n) (true_window feat s))) k = Some r ->
    sr_input r = true_window feat (s + k).
Proof.
  intros Hflag Htime. revert s.
  induction n as [|n IH]; intros s Hs k r; cbn [seq rollout_loop].
  - destruct k; discriminate.
  - unfold rollout_step.
    destruct (global_context_step global_context s) as [ctx|e]; cbn [bind];
      [|destruct k; discriminate].
    match goal with
    | |- context [rollout_loop _ _ _ _ _ _ _ _ ?c] =>
        assert (Hnext : c = true_window feat (S s))
    end.
    { cbn [sr_output]. unfold advance_window. rewrite Hflag.
      unfold Axis1.cat, Axis1.narrow_from, Axis1.unsqueeze, Axis1.select,
        true_window.
      rewrite !map_map, zip_with_map_same.
      apply map_ext_in. intros traj Htraj.
      unfold time_steps in Htime. rewrite Forall_forall in Htime.
      specialize (Htime traj Htraj).
      apply (slide_window 4 s traj []).
      unfold INPUT_SEQUENCE_LENGTH in Hs. lia. }
    rewrite Hnext.
    specialize (IH (S s)).
    destruct (rollout_loop Model inference F model feat global_context
                (Axis1.narrow_from INPUT_SEQUENCE_LENGTH (position feat))
                (seq (S s) n) (true_window feat (S s))) as [rs st].
    cbn [fst] in *. destruct k as [|k]; cbn [nth_error].
    + intros [= <-]. cbn [sr_input]. rewrite Nat.add_0_r. reflexivity.
    + intros Hr. rewrite (IH ltac:(lia) k r Hr). f_equal. lia.
Qed.

(** With [rollout_refine] set the network never sees its own output: the
    window of step [k] is the true positions of the time steps [k] to
    [k + 4]. *)
Theorem refine_windows_are_ground_truth (T k : nat) (r : step_record) :
  FLAGS.rollout_refine F = true ->
  time_steps T (position feat) ->
  nth_error (fst (rollout Model inference F model feat global_context)) k
  = Some r ->
  sr_input r = true_window feat k.
Proof.
  intros Hflag Htime Hr. unfold rollout in Hr.
  destruct (position feat) as [|traj0 pos] eqn:Epos.
  - cbn in Hr. destruct k; discriminate.
  - rewrite <- Epos in *.
    assert (Hne : position feat <> []) by (rewrite Epos; discriminate).
    rewrite (shape1_narrow_from T INPUT_SEQUENCE_LENGTH _ Htime Hne) in Hr.
    destruct (Nat.le_gt_cases T INPUT_SEQUENCE_LENGTH) as [Hshort|Hlong].
    + replace (T - INPUT_SEQUENCE_LENGTH)%nat with 0%nat in Hr by lia.
      cbn in Hr. destruct k; discriminate.
    + apply (refine_loop_windows T (T - INPUT_SEQUENCE_LENGTH) 0 Hflag Htime
               ltac:(lia) k r).
      exact Hr.
Qed.

End RolloutMore.

Lemma refine_windows_are_ground_truth_witness :
  sr_input (nth 1 (ex_trace (set_rollout_refine true default_flags))
                empty_record)
  = true_window ex_feat 1.
Proof.
  apply (refine_windows_are_ground_truth unit ex_inference
           (set_rollout_refine true default_flags) tt ex_feat ex_context 7 1).
  - reflexivity.
  - repeat constructor.
  - reflexivity.
Defined.

(** ** A whole evaluation run *)

Section TestMore.

Variable Metadata : Type.
Variable _read_metadata : string -> Metadata.
Variable read_records : string -> Metadata -> list raw_example.
Variable split_trajectory : nat -> nat -> raw_example -> list raw_example.
Variable Model : Type.
Variable LearnedSimulator : Metadata -> Qc -> Model.
Variable load_state_dict : Model -> string -> Model.
Variable inference :
  Model -> list (list (list Qc)) -> features -> list Qc -> list (list (list Qc)).
Variable cuda_available : bool.

(** With batch size 1, a directory to write to, a network that answers in
    shape and a split whose trajectories are all ready, in more than one
    dimension, the dataset is built and [Test] runs to the end and leaves
    one file per trajectory, named after the split and numbered from 0 in
    dataset order, no two with the same name, each with the six entries and
    with predictions of the dimension of the trajectory; and every call of
    the network was handed [INPUT_SEQUENCE_LENGTH] time steps. *)
Theorem Test_writes_one_file_per_trajectory (F : Flags) (out : string)
    (D : nat) :
  FLAGS.batch_size F = 1%Z ->
  FLAGS.output_path F = Some out -> out <> ""%string ->
  (1 < D)%nat -> answers_in_shape inference D ->
  let records :=
    read_records
      (path_join (FLAGS.data_path F)
                 (split_name (FLAGS.eval_split F) ++ ".tfrecord"))
      (_read_metadata (FLAGS.data_path F)) in
  Forall (fun r => rollout_ready_in D (fst (prepare_rollout_inputs r))) records ->
  GraphDataset_ends Metadata _read_metadata read_records split_trajectory F
                    "rollout" (split_name (FLAGS.eval_split F)) = true /\
  exists st,
    Test Metadata _read_metadata read_records split_trajectory Model
         LearnedSimulator load_state_dict inference cuda_available F
    = (st, None) /\
    map fst (files _ _ st)
    = map (rollout_filename out (FLAGS.eval_split F))
          (seq 0 (List.length records)) /\
    NoDup (map fst (files _ _ st)) /\
    Forall (fun f => map fst (snd f) = rollout_keys) (files _ _ st) /\
    Forall (fun f => exists preds,
              lookup "predicted_rollout" (snd f) = Some (JTensor3 preds) /\
              coordinates D preds) (files _ _ st) /\
    Forall (time_steps INPUT_SEQUENCE_LENGTH) (inference_inputs _ _ st).
Proof.
  intros Hb Hout Hnonempty HD Hnetwork records Hready.
  set (ds := map (fun r => let '(f, t) := prepare_rollout_inputs r in
                           (f, Target2 t)) records).
  assert (Hds : Forall (fun e => rollout_ready_in D (fst e)) ds).
  { unfold ds. apply Forall_map. eapply Forall_impl; [|exact Hready].
    intros r Hr. exact Hr. }
  assert (Hds' : Forall (fun e => rollout_ready (fst e)) ds).
  { eapply Forall_impl; [|exact Hds]. intros e He. exact (proj1 He). }
  assert (Hinput : get_input_fn Metadata _read_metadata read_records
                     split_trajectory (FLAGS.data_path F) (FLAGS.batch_size F)
                     "rollout" (split_name (FLAGS.eval_split F))
                   = Ok {| elements := ds; repeated := false |}).
  { unfold get_input_fn.
    change (startswith "rollout" "one_step") with false.
    change (String.eqb "rollout" "rollout") with true. cbv iota.
    rewrite Hb. reflexivity. }
  split; [unfold GraphDataset_ends; rewrite Hinput; reflexivity|].
  unfold Test, GraphDataset. rewrite Hinput. cbn [bind elements].
  set (init := Test_init Metadata Model LearnedSimulator F
                 (_read_metadata (FLAGS.data_path F))).
  destruct (Test_loop_files Metadata Model load_state_dict inference
              cuda_available F (_read_metadata (FLAGS.data_path F)) ds init
              out D Hout Hnonempty)
    as (st & new & Hloop & Hfiles & Hnames & Hkeys & Hpreds);
    [lia|exact Hnetwork|exact Hds|].
  pose proof (Test_loop_windows Metadata Model load_state_dict inference
                cuda_available F (_read_metadata (FLAGS.data_path F)) ds init
                Hds' (Forall_nil _)) as Hwin.
  rewrite Hloop in Hwin. cbn [fst] in Hwin.
  exists st. split; [exact Hloop|].
  cbn [files init Test_init app] in Hfiles. rewrite Hfiles.
  cbn [example_index init Test_init] in Hnames.
  replace (List.length ds) with (List.length records) in Hnames
    by (unfold ds; rewrite length_map; reflexivity).
  repeat split; try assumption.
  rewrite Hnames. apply (rollout_filenames_NoDup out (FLAGS.eval_split F) 0).
Qed.


End TestMore.

Lemma Test_writes_one_file_per_trajectory_witness :
  exists st,
    ex_Test (eval_flags "data") = (st, None) /\
    map fst (files _ _ st)
    = map (rollout_filename "out" SplitTest) (seq 0 2) /\
    NoDup (map fst (files _ _ st)) /\
    Forall (fun f => map fst (snd f) = rollout_keys) (files _ _ st) /\
    Forall (fun f => exists preds,
              lookup "predicted_rollout" (snd f) = Some (JTensor3 preds) /\
              coordinates 2 preds) (files _ _ st) /\
    Forall (time_steps INPUT_SEQUENCE_LENGTH) (inference_inputs _ _ st).
Proof.
  refine (proj2 (Test_writes_one_file_per_trajectory unit (fun _ => tt)
                   ex_records ex_split_trajectory unit (fun _ _ => tt)
                   (fun m _ => m) ex_inference false (eval_flags "data")
                   "out" 2 eq_refl eq_refl _ _ _ _)).
  - discriminate.
  - lia.
  - intros model window feat ctx Htime Hcoord. unfold ex_inference. split.
    + apply length_map.
    + apply Forall_map. unfold time_steps, coordinates in *.
      rewrite Forall_forall in *. intros traj Hin.
      specialize (Htime traj Hin). specialize (Hcoord traj Hin).
      cbn [nth]. rewrite length_map.
      destruct traj as [|a [|b [|c [|d [|e [|f traj]]]]]]; try discriminate Htime.
      cbn [last].
      repeat match goal with
             | H : Forall _ (_ :: _) |- _ => inversion H; clear H; subst
             end.
      assumption.
  - repeat constructor; try (exists 7%nat, ex_context; repeat split);
      try discriminate; try (repeat constructor);
      try (unfold INPUT_SEQUENCE_LENGTH; simpl; lia).
Defined.


(** A ready trajectory is rolled out and written: with a directory to write
    to, [Test_example] returns, the index goes up by one and one file is
    added, named after the split and the index, whose entries are, in this
    order, the first [INPUT_SEQUENCE_LENGTH] time steps, the positions
    emitted by the steps of the rollout in step order, one per remaining
    time step and each with the coordinates of the trajectory for every
    particle, the remaining time steps themselves, the particle types, the
    context and the metadata. *)
Theorem Test_example_file_content (Metadata Model : Type)
    (load_state_dict : Model -> string -> Model)
    (inference : Model -> list (list (list Qc)) -> features -> list Qc
                 -> list (list (list Qc)))
    (cuda_available : bool) (F : Flags) (metadata : Metadata)
    (st : test_state Metadata Model) (feat : features) (out : string)
    (D : nat) :
  FLAGS.output_path F = Some out -> out <> ""%string ->
  (1 < D)%nat -> answers_in_shape inference D ->
  rollout_ready_in D feat ->
  exists st' gc records obj,
    Test_example Metadata Model load_state_dict inference cuda_available
                 F metadata st feat = (st', None) /\
    example_index _ _ st' = S (example_index _ _ st) /\
    files _ _ st'
    = files _ _ st
      ++ (rollout_filename out (FLAGS.eval_split F) (example_index _ _ st), obj)
         :: nil /\
    map fst obj = rollout_keys /\
    step_context feat = Some gc /\
    rollout Model inference F (test_model _ _ st') feat gc = (records, None) /\
    List.length records
    = (Axis1.shape1 (position feat) - INPUT_SEQUENCE_LENGTH)%nat /\
    Forall (positions_of D (List.length (position feat)))
           (map sr_next_position records) /\
    lookup "initial_positions" obj
    = Some (JTensor3 (Axis1.narrow_to INPUT_SEQUENCE_LENGTH (position feat))) /\
    lookup "predicted_rollout" obj
    = Some (JTensor3 (map sr_next_position records)) /\
    lookup "ground_truth_rollout" obj
    = Some (JTensor3 (Axis1.narrow_from INPUT_SEQUENCE_LENGTH (position feat))) /\
    lookup "particle_types" obj = Some (JTypes (particle_type feat)) /\
    lookup "global_context" obj = Some (JContext gc) /\
    lookup "metadata" obj = Some (JMetadata metadata).
Proof.
  intros Hout Hnonempty HD Hnetwork Hready.
  destruct (Test_example_artifact Metadata Model load_state_dict inference
              cuda_available F metadata st feat out Hout Hnonempty
              (proj1 Hready))
    as (st' & gc & records & Hex & Hidx & _ & Hctx & Hroll & Hlen & Hfiles).
  exists st', gc, records, (artifact metadata feat gc records).
  repeat split; try (assumption || reflexivity).
  apply Forall_map, Forall_forall; intros r Hr;
    refine (rollout_shape Model inference F _ feat gc D
              (List.length (position feat)) _ Hnetwork
              (proj2 (proj2 Hready)) r Hready eq_refl _);
    [lia|rewrite Hroll; exact Hr].
Qed.

Lemma Test_example_file_content_witness :
  exists st' gc records obj,
    Test_example unit unit (fun m _ => m) ex_inference false
      (eval_flags "data") tt
      (Test_init unit unit (fun _ _ => tt) (eval_flags "data") tt) ex_feat
    = (st', None) /\
    example_index _ _ st' = 1%nat /\
    files _ _ st' = (rollout_filename "out" SplitTest 0, obj) :: nil /\
    map fst obj = rollout_keys /\
    step_context ex_feat = Some gc /\
    rollout unit ex_inference (eval_flags "data") (test_model _ _ st') ex_feat gc
    = (records, None) /\
    List.length records = 2%nat /\
    Forall (positions_of 2 2) (map sr_next_position records) /\
    lookup "initial_positions" obj
    = Some (JTensor3 (Axis1.narrow_to INPUT_SEQUENCE_LENGTH (position ex_feat))) /\
    lookup "predicted_rollout" obj
    = Some (JTensor3 (map sr_next_position records)) /\
    lookup "ground_truth_rollout" obj
    = Some (JTensor3 (Axis1.narrow_from INPUT_SEQUENCE_LENGTH (position ex_feat))) /\
    lookup "particle_types" obj = Some (JTypes (particle_type ex_feat)) /\
    lookup "global_context" obj = Some (JContext gc) /\
    lookup "metadata" obj = Some (JMetadata tt).
Proof.
  refine (Test_example_file_content unit unit (fun m _ => m) ex_inference false
            (eval_flags "data") tt
            (Test_init unit unit (fun _ _ => tt) (eval_flags "data") tt)
            ex_feat "out" 2 eq_refl _ _ _ _).
  - discriminate.
  - lia.
  - intros model window feat ctx Htime Hcoord. unfold ex_inference. split.
    + apply length_map.
    + apply Forall_map. unfold time_steps, coordinates in *.
      rewrite Forall_forall in *. intros traj Hin.
      specialize (Htime traj Hin). specialize (Hcoord traj Hin).
      cbn [nth]. rewrite length_map.
      destruct traj as [|a [|b [|c [|d [|e [|f traj]]]]]]; try discriminate Htime.
      cbn [last].
      repeat match goal with
             | H : Forall _ (_ :: _) |- _ => inversion H; clear H; subst
             end.
      assumption.
  - repeat split; try (exists 7%nat, ex_context; repeat split);
      try discriminate; try (repeat constructor);
      try (unfold INPUT_SEQUENCE_LENGTH; simpl; lia).
Defined.

(** ** The one-step input pipeline *)

Lemma transpose_shape {A} (n : nat) (t : list (list A)) :
  Forall (fun f => (n <= List.length f)%nat) t ->
  List.length (transpose n t) = n /\
  Forall (fun row => List.length row = List.length t) (transpose n t).
Proof.
  revert t; induction n as [|n IH]; intros t Ht; cbn [transpose].
  - split; [reflexivity|constructor].
  - destruct (IH (map (skipn 1) t)) as [Hlen Hrows].
    { apply Forall_map. eapply Forall_impl; [|exact Ht].
      intros f Hf. simpl in Hf. rewrite length_skipn. lia. }
    split; [cbn [List.length]; rewrite Hlen; reflexivity|].
    constructor.
    + clear IH Hlen Hrows. induction Ht as [|f t Hf Ht IH]; [reflexivity|].
      destruct f as [|x f]; [simpl in Hf; lia|].
      cbn [flat_map firstn app List.length]. f_equal. exact IH.
    + rewrite length_map in Hrows. exact Hrows.
Qed.

Lemma slices_partition {A} (p : nat) (l : list A) :
  slice_but_last p l ++ slice_last p l = l.
Proof.
  unfold slice_but_last, slice_last.
  destruct (p =? 0)%nat; [reflexivity|apply firstn_skipn].
Qed.

(** [prepare_inputs] splits a window of [T] time steps into the first
    [T - predict_length] steps, the input, and the last [predict_length]
    steps, the target, for every particle; together they are the window.
    A window without [step_context] raises [KeyError] at line 155. *)
Theorem prepare_inputs_splits_window (p T N : nat) (r : raw_example) :
  (raw_step_context r = None -> prepare_inputs p r = Raise KeyError) /\
  (forall c,
     raw_step_context r = Some c ->
     raw_position r <> [] ->
     List.length (raw_position r) = T ->
     Forall (fun frame => List.length frame = N) (raw_position r) ->
     (0 < p <= T)%nat ->
     exists feat target,
       prepare_inputs p r = Ok (feat, target) /\
       List.length (position feat) = N /\
       n_particles_per_example feat = N :: nil /\
       time_steps (T - p) (position feat) /\
       time_steps p target /\
       Axis1.cat (position feat) target = transpose N (raw_position r)).
Proof.
  split.
  - intros H. unfold prepare_inputs. rewrite H. reflexivity.
  - intros c Hc Hne HT HN Hp. unfold prepare_inputs. rewrite Hc.
    assert (Hshape : Axis1.shape1 (raw_position r) = N).
    { destruct (raw_position r) as [|f t]; [congruence|].
      inversion HN; assumption. }
    rewrite Hshape.
    destruct (transpose_shape N (raw_position r)) as [Hlen Hrows].
    { eapply Forall_impl; [|exact HN]. intros f Hf. simpl in *. lia. }
    rewrite HT in Hrows.
    eexists _, _. split; [reflexivity|]. cbn [position n_particles_per_example].
    rewrite length_map, Hlen.
    split; [reflexivity|]. split; [reflexivity|].
    assert (Hp0 : (p =? 0)%nat = false) by (apply Nat.eqb_neq; lia).
    split; [|split].
    + apply Forall_map. eapply Forall_impl; [|exact Hrows].
      intros row Hrow. simpl in Hrow. unfold slice_but_last.
      rewrite Hp0, length_firstn, Hrow. lia.
    + apply Forall_map. eapply Forall_impl; [|exact Hrows].
      intros row Hrow. simpl in Hrow. unfold slice_last.
      rewrite Hp0, length_skipn, Hrow. lia.
    + unfold Axis1.cat. rewrite zip_with_map_same.
      transitivity (map (fun row => row) (transpose N (raw_position r)));
        [|apply map_id].
      apply map_ext. intros row. apply slices_partition.
Qed.

Lemma prepare_inputs_splits_window_witness :
  exists feat target,
    prepare_inputs PREDICT_LENGTH ex_raw = Ok (feat, target) /\
    List.length (position feat) = 2%nat /\
    n_particles_per_example feat = 2%nat :: nil /\
    time_steps 6 (position feat) /\
    time_steps PREDICT_LENGTH target /\
    Axis1.cat (position feat) target = transpose 2 (raw_position ex_raw).
Proof.
  apply (proj2 (prepare_inputs_splits_window PREDICT_LENGTH 7 2 ex_raw)
           (map qz (0 :: 0 :: 0 :: 0 :: 0 :: 0 :: 0 :: nil)%Z)).
  - reflexivity.
  - discriminate.
  - reflexivity.
  - repeat constructor.
  - unfold PREDICT_LENGTH; lia.
Defined.

Lemma reduce_window_concat {A} (init : list A) (ds : list (list A)) :
  reduce_window init ds = init ++ List.concat ds.
Proof.
  unfold reduce_window. revert init.
  induction ds as [|d ds IH]; intros init; simpl.
  - rewrite app_nil_r. reflexivity.
  - rewrite IH, app_assoc. reflexivity.
Qed.

Lemma chunks_nth_error {A} (rows k : nat) (xs : list A) (i : nat) :
  (i < rows)%nat ->
  nth_error (Torch.chunks rows k xs) i = Some (firstn k (skipn (i * k) xs)).
Proof.
  revert xs i; induction rows as [|rows IH]; intros xs [|i] Hi; simpl;
    try lia.
  - reflexivity.
  - rewrite IH by lia. rewrite skipn_skipn.
    replace (i * k + k)%nat with (k + i * k)%nat by lia. reflexivity.
Qed.

Lemma chunks_length {A} (rows k : nat) (xs : list A) :
  List.length (Torch.chunks rows k xs) = rows.
Proof.
  revert xs; induction rows as [|rows IH]; intros xs; simpl; auto.
Qed.

Lemma firstn_add_skipn {A} (k n : nat) (xs : list A) :
  firstn (k + n) xs = firstn k xs ++ firstn n (skipn k xs).
Proof.
  revert xs; induction k as [|k IH]; intros [|x xs]; simpl; auto.
  - rewrite firstn_nil. reflexivity.
  - rewrite IH. reflexivity.
Qed.

Lemma chunks_concat {A} (rows k : nat) (xs : list A) :
  List.concat (Torch.chunks rows k xs) = firstn (rows * k) xs.
Proof.
  revert xs; induction rows as [|rows IH]; intros xs; simpl; auto.
  rewrite IH, firstn_add_skipn. reflexivity.
Qed.

Lemma concat_map_concat {A} (l : list (list (list A))) :
  List.concat (map (@List.concat A) l) = List.concat (List.concat l).
Proof.
  induction l as [|x l IH]; simpl; auto.
  rewrite concat_app, IH. reflexivity.
Qed.

Lemma window_covers {A} (size : nat) (ds : list A) :
  (0 < size)%nat ->
  (List.length ds <= (List.length ds + size - 1) / size * size)%nat.
Proof.
  intros Hs.
  pose proof (Nat.div_mod_eq (List.length ds + size - 1) size) as E.
  pose proof (Nat.mod_upper_bound (List.length ds + size - 1) size) as B.
  nia.
Qed.

(** Batching by concatenation loses nothing and keeps the order: batch [i]
    is the concatenation of the elements [i * batch_size] to
    [(i + 1) * batch_size - 1], the last batch holding what is left, and
    all batches concatenated are all elements concatenated.  With batch
    size 1 the batches are the elements. *)
Theorem batch_concat_keeps_rows {A} (ds : list (list A)) (batch_size : nat) :
  (0 < batch_size)%nat ->
  List.length (batch_concat ds batch_size)
  = ((List.length ds + batch_size - 1) / batch_size)%nat /\
  (forall i, (i < List.length (batch_concat ds batch_size))%nat ->
     nth_error (batch_concat ds batch_size) i
     = Some (List.concat (firstn batch_size (skipn (i * batch_size) ds)))) /\
  List.concat (batch_concat ds batch_size) = List.concat ds /\
  batch_concat ds 1 = ds.
Proof.
  intros Hb. unfold batch_concat, window.
  split; [rewrite length_map, chunks_length; reflexivity|].
  split; [|split].
  - intros i Hi. rewrite length_map, chunks_length in Hi.
    rewrite nth_error_map, chunks_nth_error by exact Hi.
    cbn [option_map]. rewrite reduce_window_concat. reflexivity.
  - rewrite (map_ext _ (@List.concat A))
      by (intros w; rewrite reduce_window_concat; reflexivity).
    rewrite concat_map_concat, chunks_concat.
    rewrite firstn_all2 by (apply window_covers; exact Hb). reflexivity.
  - replace ((List.length ds + 1 - 1) / 1)%nat with (List.length ds)
      by (rewrite Nat.div_1_r; lia).
    induction ds as [|d ds IH]; [reflexivity|].
    cbn [List.length Torch.chunks map firstn skipn].
    rewrite IH, reduce_window_concat. simpl. rewrite app_nil_r. reflexivity.
Qed.

Lemma batch_concat_keeps_rows_witness :
  List.concat (batch_concat ((1 :: 2 :: nil) :: (3 :: nil) :: (4 :: 5 :: nil) :: nil)%nat 2)
  = (1 :: 2 :: 3 :: 4 :: 5 :: nil)%nat.
Proof.
  apply (batch_concat_keeps_rows
           ((1 :: 2 :: nil) :: (3 :: nil) :: (4 :: 5 :: nil) :: nil)%nat 2).
  lia.
Defined.




(** ** Witnesses of the training facts *)

Lemma evaluate_consumes_witness :
  evaluate nat (fun _ _ _ => (qz 0, qz 0)) 0%nat ex_train_dataset 2 2
           (qz 0) (qz 0)
  = Raise StopIteration.
Proof.
  apply (evaluate_consumes nat (fun _ _ _ => (qz 0, qz 0)) 0%nat
           ex_train_dataset 2 2 (qz 0) (qz 0)); simpl; lia.
Defined.

Lemma weighted_anchor_run_never_steps_witness :
  optimizer_steps _ _
    (fst (ex_Train_loop (set_loss LossWeightedAnchor train_flags)
                        ex_train_dataset))
  = 0%nat.
Proof.
  apply (weighted_anchor_run_never_steps nat false unit (fun _ => tt)
           ex_literal_eval false
           (fun _ _ _ _ => (ex_pred, ex_target))
           (fun o m _ _ _ => (o, S m))
           (fun _ _ _ => (qz 0, qz 0)) (fun q => q) ex_wse ex_cos
           (fun _ _ => nil) unit (fun _ _ => 0%nat)
           (set_loss LossWeightedAnchor train_flags) tt nil
           ex_train_dataset).
  reflexivity.
Defined.

Lemma fp16_without_apex_exits_witness :
  snd (ex_Train_loop fp16_flags ex_train_dataset) = Some SystemExit.
Proof.
  apply (fp16_without_apex_exits nat false unit (fun _ => tt)
           ex_literal_eval false
           (fun _ _ _ _ => (ex_pred, ex_target))
           (fun o m _ _ _ => (o, S m))
           (fun _ _ _ => (qz 0, qz 0)) (fun q => q) ex_wse ex_cos
           (fun _ _ => nil) unit (fun _ _ => 0%nat) fp16_flags
           tt nil (tl ex_train_dataset) ex_train_feat (Target3 nil)
           ("cuda:0"%string :: nil));
    reflexivity.
Defined.

Lemma noise_masking_witness :
  nth_error
    (mask_noise (((qz 1 :: qz 2 :: qz 3 :: nil) :: nil)
                 :: ((qz 4 :: qz 5 :: qz 6 :: nil) :: nil)
                 :: ((qz 7 :: qz 8 :: qz 9 :: nil) :: nil) :: nil)
                (noise_mask (set_loss LossAnchor default_flags) ex_types)) 2
  = Some ((qz 7 :: qz 8 :: 0 :: nil) :: nil).
Proof.
  apply (noise_masking (set_loss LossAnchor default_flags) ex_types
           (((qz 1 :: qz 2 :: qz 3 :: nil) :: nil)
            :: ((qz 4 :: qz 5 :: qz 6 :: nil) :: nil)
            :: ((qz 7 :: qz 8 :: qz 9 :: nil) :: nil) :: nil)
           2 1%Z ((qz 7 :: qz 8 :: qz 9 :: nil) :: nil)).
  - reflexivity.
  - reflexivity.
  - repeat constructor.
Defined.

(** ** The schedule of the training log *)

Section TrainLog.

Variable Model : Type.
Variable cuda_available : bool.
Variable Optimizer : Type.
Variable Adam : Model -> Optimizer.
Variable literal_eval : string -> option (list string).
Variable apex_available : bool.
Variable train_forward :
  Model -> nat -> features -> targets -> list (list Qc) * list (list Qc).
Variable optimizer_step :
  Optimizer -> Model -> nat -> features -> targets -> Optimizer * Model.
Variable test_metrics : Model -> features -> targets -> Qc * Qc.
Variable round5 : Qc -> Qc.
Variable weighted_square_error : list (list Qc) -> list (list Qc) -> Qc.
Variable cosine_similarity : list Qc -> list Qc -> Qc.
Variable random_choices : nat -> nat -> list nat.

Let body :=
  Train_body Model cuda_available Optimizer Adam literal_eval apex_available
    train_forward optimizer_step test_metrics round5 weighted_square_error
    cosine_similarity random_choices.
Let loop :=
  Train_loop Model cuda_available Optimizer Adam literal_eval apex_available
    train_forward optimizer_step test_metrics round5 weighted_square_error
    cosine_similarity random_choices.
Let state : Type := train_state Model Optimizer.

(** What a piece of the run adds to the log and to the checkpoints. *)
Let adds (st st' : state) : Prop :=
  exists new saved,
    scalars _ _ st' = scalars _ _ st ++ new /\
    Forall on_schedule new /\
    checkpoints _ _ st' = checkpoints _ _ st ++ saved /\
    Forall (fun c => (snd (fst c) mod 50 = 0)%Z) saved.

Lemma adds_refl (st st' : state) :
  scalars _ _ st' = scalars _ _ st ->
  checkpoints _ _ st' = checkpoints _ _ st ->
  adds st st'.
Proof.
  intros Hs Hc. exists nil, nil. rewrite !app_nil_r.
  repeat split; auto.
Qed.

Lemma adds_trans (a b c : state) : adds a b -> adds b c -> adds a c.
Proof.
  intros (n1 & s1 & H1 & F1 & C1 & G1) (n2 & s2 & H2 & F2 & C2 & G2).
  exists (n1 ++ n2), (s1 ++ s2).
  rewrite H2, H1, C2, C1, !app_assoc.
  repeat split; auto; apply Forall_app; split; assumption.
Qed.

Lemma after_step_adds (F : Flags) (testDataset : dataset) (st : state) :
  adds st (fst (after_step Model Optimizer test_metrics round5 F testDataset st)).
Proof.
  unfold after_step, adds.
  destruct (Z.eqb_spec (step _ _ st mod 10) 0) as [H10|H10];
  destruct (Z.eqb_spec (step _ _ st mod 50) 0) as [H50|H50];
    cbn [fst snd scalars checkpoints].
  all: try (destruct (evaluate _ _ _ _ _ _ _) as [[[pos tl] pl]|e];
            cbn [fst snd scalars checkpoints];
            try destruct (tl ?= best_loss _ _ st)).
  all: try rewrite <- app_assoc.
  all: eexists _, _; split;
    [first [reflexivity|symmetry; apply app_nil_r]|]; split;
    [|split; [first [reflexivity|symmetry; apply app_nil_r]|]].
  all: repeat (apply Forall_cons || apply Forall_nil); cbn [fst snd];
    try assumption.
  all: unfold on_schedule;
    first [ left; split; [reflexivity|assumption]
          | right; split; [left; reflexivity|assumption]
          | right; split; [right; reflexivity|assumption] ].
Qed.

Lemma Train_body_adds (F : Flags) (testDataset : dataset) (st : state)
    (idx : nat) (feat : features) (targ : targets) :
  adds st (fst (body F testDataset st idx feat targ)).
Proof.
  unfold body, Train_body. cbn [optimizer].
  destruct (optimizer _ _ st) as [opt|].
  - destruct (train_forward _ _ _ _) as [pred target].
    destruct (Train_loss _ _ _ _ _ _ _ _) as [loss|e];
      [|apply adds_refl; reflexivity].
    cbn [train_model].
    destruct (optimizer_step _ _ _ _ _) as [opt' model'].
    match goal with
    | |- context [after_step _ _ _ _ _ _ ?s] =>
        pose proof (after_step_adds F testDataset s) as H
    end.
    exact H.
  - unfold setup_optimizer. cbn [train_model].
    destruct (literal_eval _); [|apply adds_refl; reflexivity].
    destruct (FLAGS.fp16 F && negb apex_available);
      apply adds_refl; reflexivity.
Qed.

(** The log is only written on schedule: during a run every "loss" entry
    carries a step count that is a multiple of 10, every "loss_mse" and
    "position_mse" entry a multiple of 50, and a checkpoint is only saved at
    a multiple of 50 steps; nothing already logged or saved is lost. *)
Theorem log_on_schedule (F : Flags) (testDataset ds : dataset)
    (st : state) (idx : nat) :
  exists new saved,
    scalars _ _ (fst (loop F testDataset st idx ds))
    = scalars _ _ st ++ new /\
    Forall on_schedule new /\
    checkpoints _ _ (fst (loop F testDataset st idx ds))
    = checkpoints _ _ st ++ saved /\
    Forall (fun c => (snd (fst c) mod 50 = 0)%Z) saved.
Proof.
  change (adds st (fst (loop F testDataset st idx ds))).
  unfold loop. revert st idx; induction ds as [|[feat targ] ds IH];
    intros st idx; cbn [Train_loop].
  - apply adds_refl; reflexivity.
  - pose proof (Train_body_adds F testDataset st idx feat targ) as Hb.
    unfold body in Hb.
    destruct (Train_body _ _ _ _ _ _ _ _ _ _ _ _ _ F testDataset st idx feat targ)
      as [st1 [e|]]; cbn [fst snd] in *; [exact Hb|].
    eapply adds_trans; [exact Hb|apply IH].
Qed.

End TrainLog.

(** ** The rollout inputs *)

Lemma transpose_nth_error {A} (d : A) (n : nat) (t : list (list A)) (i : nat) :
  Forall (fun f => (n <= List.length f)%nat) t ->
  (i < n)%nat ->
  nth_error (transpose n t) i = Some (map (fun f => nth i f d) t).
Proof.
  revert t i; induction n as [|n IH]; intros t i Ht Hi; [lia|].
  cbn [transpose]. destruct i as [|i]; cbn [nth_error].
  - f_equal. clear IH Hi.
    induction Ht as [|f t Hf Ht IHt]; [reflexivity|].
    destruct f as [|x f]; [simpl in Hf; lia|].
    cbn [flat_map firstn app map nth]. f_equal. exact IHt.
  - rewrite IH.
    + f_equal. rewrite map_map. apply map_ext. intros f.
      rewrite nth_skipn. reflexivity.
    + apply Forall_map. eapply Forall_impl; [|exact Ht].
      intros f Hf. simpl in Hf. rewrite length_skipn. lia.
    + lia.
Qed.

Lemma last_In {A} (l : list A) (d : A) : l <> [] -> In (last l d) l.
Proof.
  induction l as [|x l IH]; [congruence|]. intros _.
  destruct l as [|y l]; [left; reflexivity|].
  right. change (In (last (y :: l) d) (y :: l)). apply IH. discriminate.
Qed.

Lemma last_map_nth {A} (i : nat) (t : list (list A)) (d : A) :
  last (map (fun f => nth i f d) t) d = nth i (last t []) d.
Proof.
  induction t as [|f t IH]; [destruct i; reflexivity|].
  destruct t as [|g t]; [reflexivity|].
  change (last (map (fun f => nth i f d) (g :: t)) d = nth i (last (g :: t) []) d).
  exact IH.
Qed.

(** [prepare_rollout_inputs] turns the time-major record into particle-major
    features: the position of particle [i] at time step [k] is entry [i] of
    frame [k], every particle has as many time steps as the record has
    frames, the particle count is recorded, and the target is the last
    frame. *)
Theorem prepare_rollout_inputs_transposes (T N : nat) (r : raw_example) :
  raw_position r <> [] ->
  List.length (raw_position r) = T ->
  Forall (fun frame => List.length frame = N) (raw_position r) ->
  let '(feat, target) := prepare_rollout_inputs r in
  List.length (position feat) = N /\
  time_steps T (position feat) /\
  (forall i k, (i < N)%nat ->
     nth k (nth i (position feat) []) [] = nth i (nth k (raw_position r) []) []) /\
  n_particles_per_example feat = N :: nil /\
  particle_type feat = raw_particle_type r /\
  step_context feat = raw_step_context r /\
  target = last (raw_position r) [].
Proof.
  intros Hne HT HN. cbn [prepare_rollout_inputs position
    n_particles_per_example particle_type step_context].
  assert (Hshape : Axis1.shape1 (raw_position r) = N).
  { destruct (raw_position r) as [|f t]; [congruence|].
    inversion HN; assumption. }
  rewrite Hshape.
  assert (Hge : Forall (fun f => (N <= List.length f)%nat) (raw_position r)).
  { eapply Forall_impl; [|exact HN]. intros f Hf. simpl in *. lia. }
  destruct (transpose_shape N (raw_position r) Hge) as [Hlen Hrows].
  rewrite HT in Hrows.
  assert (Hrow : forall i, (i < N)%nat ->
            nth i (transpose N (raw_position r)) []
            = map (fun f => nth i f []) (raw_position r)).
  { intros i Hi. apply nth_error_nth.
    apply transpose_nth_error; assumption. }
  split; [exact Hlen|]. split; [exact Hrows|].
  split; [|split; [rewrite Hlen; reflexivity|split; [reflexivity|split;
    [reflexivity|]]]].
  - intros i k Hi. rewrite Hrow by exact Hi.
    destruct (Nat.lt_ge_cases k (List.length (raw_position r))) as [Hk|Hk].
    + rewrite nth_map_lt with (d := []) by exact Hk. reflexivity.
    + rewrite (nth_overflow (map _ _)) by (rewrite length_map; exact Hk).
      rewrite (nth_overflow (raw_position r)) by exact Hk.
      destruct i; reflexivity.
  - assert (Hlast : List.length (last (raw_position r) []) = N).
    { rewrite Forall_forall in HN. apply HN.
      apply last_In; exact Hne. }
    rewrite (list_as_map_nth [] (last (raw_position r) [])), Hlast.
    rewrite (list_as_map_nth [] (transpose N (raw_position r))), Hlen, map_map.
    apply map_ext_in. intros i Hi. apply in_seq in Hi.
    rewrite Hrow by lia. apply last_map_nth.
Qed.

Lemma prepare_rollout_inputs_transposes_witness :
  List.length (position ex_feat) = 2%nat /\
  time_steps 7 (position ex_feat) /\
  (forall i k, (i < 2)%nat ->
     nth k (nth i (position ex_feat) []) []
     = nth i (nth k (raw_position ex_raw) []) []) /\
  n_particles_per_example ex_feat = 2%nat :: nil /\
  particle_type ex_feat = raw_particle_type ex_raw /\
  step_context ex_feat = raw_step_context ex_raw /\
  snd (prepare_rollout_inputs ex_raw) = last (raw_position ex_raw) [].
Proof.
  apply (prepare_rollout_inputs_transposes 7 2 ex_raw).
  - discriminate.
  - reflexivity.
  - repeat constructor.
Defined.
